(** * Life scheduler plugin: a shallow embedding of [main.py] and [core/data.py]

    Python values are modelled as follows.
    - A [str] is a list of Unicode code points ([pystr]).
    - A value returned by [json.loads] is a [json] tree; a JSON object is a
      Python [dict], kept as an association list in insertion order with
      unique keys.
    - [self.schedule_data] is a finite map from day keys to values,
      [self.failed_dates] a finite set of day keys.
    - Coroutines are small-step machines: one step runs a task from one
      statement to the next, so every interleaving the event loop can
      produce is an interleaving of these steps. *)

#[local] Set Warnings "-register-all".
From Stdlib Require Import ZArith NArith List Lia Bool String Ascii.
From stdpp Require Import base option list gmap sets.

Open Scope N_scope.

(* ===================================================================== *)
(** ** Strings                                                           *)
(* ===================================================================== *)

Module Text.

Abbreviation char := N.
Abbreviation pystr := (list N).

(** An ASCII literal as a Python string. *)
Definition lit (s : string) : pystr :=
  map N_of_ascii (list_ascii_of_string s).

Definition dquote : char := 34.
Definition backslash : char := 92.
Definition lbrace : char := 123.
Definition rbrace : char := 125.
Definition lbracket : char := 91.
Definition rbracket : char := 93.
Definition newline : char := 10.
Definition colon : char := 58.
Definition comma : char := 44.
Definition backtick : char := 96.

(** A literal between double quotes. *)
Definition quoted (s : string) : pystr := dquote :: lit s ++ [dquote].

(** [str.isspace] on one code point; the class [\s] of [re] on a [str]
    pattern is the same set. *)
Definition is_space (c : char) : bool :=
  ((9 <=? c) && (c <=? 13)) || ((28 <=? c) && (c <=? 32))
  || (c =? 133) || (c =? 160) || (c =? 5760)
  || ((8192 <=? c) && (c <=? 8202))
  || (c =? 8232) || (c =? 8233) || (c =? 8239) || (c =? 8287) || (c =? 12288).

Fixpoint lstrip (s : pystr) : pystr :=
  match s with
  | c :: r => if is_space c then lstrip r else s
  | [] => []
  end.

Definition rstrip (s : pystr) : pystr := rev (lstrip (rev s)).

(** [text.strip()] *)
Definition strip (s : pystr) : pystr := rstrip (lstrip s).

Fixpoint starts_with (p s : pystr) : bool :=
  match p, s with
  | [], _ => true
  | a :: p', b :: s' => (a =? b) && starts_with p' s'
  | _ :: _, [] => false
  end.

(** The last element of [consumed], or [c0] when it is empty. *)
Definition last_char (c0 : char) (consumed : pystr) : char := List.last consumed c0.

(** [re.sub('^' + marker + '\s*', '', text, flags=re.MULTILINE)] for a
    non-empty [marker].  [bol] tells whether [^] matches at the current
    position: at index 0 and right after a newline.  After a match the
    search resumes where the match ended. *)
Fixpoint sub_bol_fuel (fuel : nat) (marker : pystr) (bol : bool) (s : pystr) : pystr :=
  match fuel with
  | O => s
  | S fuel' =>
    match s with
    | [] => []
    | c :: r =>
      if bol && starts_with marker s then
        let after_marker := drop (length marker) s in
        let rest := lstrip after_marker in
        let consumed := take (length s - length rest) s in
        sub_bol_fuel fuel' marker (last_char c consumed =? newline) rest
      else c :: sub_bol_fuel fuel' marker (c =? newline) r
    end
  end.

Definition sub_bol (marker s : pystr) : pystr :=
  sub_bol_fuel (S (length s)) marker true s.

(** Where a greedy [\s*] followed by [$] (MULTILINE) stops on [s]: it takes
    the whole run of white space when the run reaches the end of the text,
    and otherwise backtracks to just before the last newline of the run.
    [None]: no way to match. The result is the unmatched remainder. *)
Fixpoint spaces_then_eol (s : pystr) : option pystr :=
  match s with
  | [] => Some []
  | c :: r =>
    if is_space c then
      match spaces_then_eol r with
      | Some rest => Some rest
      | None => if c =? newline then Some s else None
      end
    else None
  end.

(** [re.sub('```\s*$', '', text, flags=re.MULTILINE)] *)
Fixpoint sub_eol_fuel (fuel : nat) (marker : pystr) (s : pystr) : pystr :=
  match fuel with
  | O => s
  | S fuel' =>
    match s with
    | [] => []
    | c :: r =>
      if starts_with marker s then
        match spaces_then_eol (drop (length marker) s) with
        | Some rest => sub_eol_fuel fuel' marker rest
        | None => c :: sub_eol_fuel fuel' marker r
        end
      else c :: sub_eol_fuel fuel' marker r
    end
  end.

Definition sub_eol (marker s : pystr) : pystr :=
  sub_eol_fuel (S (length s)) marker s.

(** [text.find(c)] as the suffix that starts at the first [c]
    ([text[start_index:]]), or [None] for [-1]. *)
Fixpoint from_first (c : char) (s : pystr) : option pystr :=
  match s with
  | [] => None
  | x :: r => if x =? c then Some s else from_first c r
  end.

End Text.

(* ===================================================================== *)
(** ** JSON values and [json.loads]                                      *)
(* ===================================================================== *)

Module Json.
Import Text.

(** What [json.loads] builds.  A number keeps its lexeme; [JObj] is a
    [dict]: insertion order, unique keys. *)
Inductive json :=
| JNull
| JBool (b : bool)
| JNum (lexeme : pystr)
| JStr (s : pystr)
| JArr (items : list json)
| JObj (d : list (pystr * json)).

Abbreviation dict := (list (pystr * json)).

Definition key_eqb (a b : pystr) : bool := bool_decide (a = b).

(** [d.get(k)] *)
Fixpoint dict_get (k : pystr) (d : dict) : option json :=
  match d with
  | [] => None
  | (k', v) :: r => if key_eqb k k' then Some v else dict_get k r
  end.

(** [d[k] = v]: an existing key keeps its place. *)
Fixpoint dict_set (k : pystr) (v : json) (d : dict) : dict :=
  match d with
  | [] => [(k, v)]
  | (k', v') :: r => if key_eqb k k' then (k, v) :: r else (k', v') :: dict_set k v r
  end.

(** Truth value of a dict in [if d:]. *)
Definition dict_truthy (d : dict) : bool :=
  match d with
  | [] => false
  | _ :: _ => true
  end.

(** The three ways [json.loads] ends on a text that starts with an opening
    brace: a [dict], a [JSONDecodeError], or another exception (a
    [RecursionError] on deeply nested input). *)
Inductive loads_result :=
| Loaded (d : dict)
| DecodeError
| OtherError.

(** *** A reference decoder

    It follows the scanner of the standard library's [json.decoder]: strict
    strings, numbers made of an integer part, an optional fraction and an
    optional exponent, the literals [null],
    [true], [false], [NaN], [Infinity] and [-Infinity].  It never gives
    [OtherError]: it stands for an interpreter without a recursion limit
    and without a limit on the digits of an integer, and is used on the
    short texts of the examples only. *)

Definition is_json_ws (c : char) : bool :=
  (c =? 32) || (c =? 9) || (c =? 10) || (c =? 13).

Fixpoint skip_ws (s : pystr) : pystr :=
  match s with
  | c :: r => if is_json_ws c then skip_ws r else s
  | [] => []
  end.

Definition is_digit (c : char) : bool := (48 <=? c) && (c <=? 57).

Definition hex_val (c : char) : option N :=
  if is_digit c then Some (c - 48)
  else if (97 <=? c) && (c <=? 102) then Some (c - 87)
  else if (65 <=? c) && (c <=? 70) then Some (c - 55)
  else None.

(** Four hexadecimal digits at the head of [s]. *)
Definition decode_uXXXX (s : pystr) : option (N * pystr) :=
  match s with
  | a :: b :: c :: d :: r =>
    match hex_val a, hex_val b, hex_val c, hex_val d with
    | Some x, Some y, Some z, Some w => Some (x * 4096 + y * 256 + z * 16 + w, r)
    | _, _, _, _ => None
    end
  | _ => None
  end.

Definition simple_escape (c : char) : option char :=
  if c =? 34 then Some 34          (* quote *)
  else if c =? 92 then Some 92     (* backslash *)
  else if c =? 47 then Some 47     (* slash *)
  else if c =? 98 then Some 8      (* b *)
  else if c =? 102 then Some 12    (* f *)
  else if c =? 110 then Some 10    (* n *)
  else if c =? 114 then Some 13    (* r *)
  else if c =? 116 then Some 9     (* t *)
  else None.

(** [scanstring(s, end, strict=True)], called after the opening quote;
    [acc] holds the decoded characters in reverse. *)
Fixpoint scanstring (fuel : nat) (s : pystr) (acc : pystr) : option (pystr * pystr) :=
  match fuel with
  | O => None
  | S fuel' =>
    match s with
    | [] => None
    | c :: r =>
      if c =? dquote then Some (rev acc, r)
      else if c =? backslash then
        match r with
        | [] => None
        | e :: r' =>
          if e =? 117 then
            match decode_uXXXX r' with
            | None => None
            | Some (uni, r'') =>
              if (55296 <=? uni) && (uni <=? 56319) && starts_with [backslash; 117] r'' then
                match decode_uXXXX (drop 2 r'') with
                | Some (uni2, r3) =>
                  if (56320 <=? uni2) && (uni2 <=? 57343)
                  then scanstring fuel' r3
                         (65536 + ((uni - 55296) * 1024 + (uni2 - 56320)) :: acc)
                  else scanstring fuel' r'' (uni :: acc)
                | None => scanstring fuel' r'' (uni :: acc)
                end
              else scanstring fuel' r'' (uni :: acc)
            end
          else
            match simple_escape e with
            | Some x => scanstring fuel' r' (x :: acc)
            | None => None
            end
        end
      else if c <? 32 then None
      else scanstring fuel' r (c :: acc)
    end
  end.

Fixpoint take_digits (s : pystr) : pystr * pystr :=
  match s with
  | c :: r => if is_digit c then let '(ds, r') := take_digits r in (c :: ds, r') else ([], s)
  | [] => ([], [])
  end.

(** The integer part: an optional minus sign, then a single zero or a
    digit from 1 to 9 followed by any digits. *)
Definition match_int (s : pystr) : option (pystr * pystr) :=
  let '(sign, s1) := match s with
                     | c :: r => if c =? 45 then ([c], r) else ([], s)
                     | [] => ([], s)
                     end in
  match s1 with
  | c :: r =>
    if c =? 48 then Some (sign ++ [c], r)
    else if is_digit c then let '(ds, r') := take_digits r in Some (sign ++ c :: ds, r')
    else None
  | [] => None
  end.

(** The optional fraction: a dot and at least one digit. *)
Definition match_frac (s : pystr) : pystr * pystr :=
  match s with
  | c :: r =>
    if c =? 46 then
      match take_digits r with
      | ([], _) => ([], s)
      | (ds, r') => (c :: ds, r')
      end
    else ([], s)
  | [] => ([], s)
  end.

(** The optional exponent: e or E, an optional sign, at least one digit. *)
Definition match_exp (s : pystr) : pystr * pystr :=
  match s with
  | c :: r =>
    if (c =? 101) || (c =? 69) then
      let '(sign, r1) := match r with
                         | x :: r0 => if (x =? 45) || (x =? 43) then ([x], r0) else ([], r)
                         | [] => ([], r)
                         end in
      match take_digits r1 with
      | ([], _) => ([], s)
      | (ds, r') => (c :: sign ++ ds, r')
      end
    else ([], s)
  | [] => ([], s)
  end.

Definition match_number (s : pystr) : option (pystr * pystr) :=
  match match_int s with
  | None => None
  | Some (i, r) =>
    let '(f, r1) := match_frac r in
    let '(e, r2) := match_exp r1 in
    Some (i ++ f ++ e, r2)
  end.


(** One value at the head of [s] ([scan_once]), the members of an object
    after its first key's opening quote was seen ([JSONObject]'s loop) and
    the items of an array ([JSONArray]'s loop).  [None] is a
    [JSONDecodeError]. *)
Fixpoint parse_value (fuel : nat) (s : pystr) : option (json * pystr) :=
  match fuel with
  | O => None
  | S fuel' =>
    match s with
    | [] => None
    | c :: r =>
      if c =? dquote then
        match scanstring (S (length r)) r [] with
        | Some (str, r') => Some (JStr str, r')
        | None => None
        end
      else if c =? lbrace then
        match skip_ws r with
        | x :: r1 =>
          if x =? rbrace then Some (JObj [], r1)
          else if x =? dquote then
            match parse_members fuel' r1 [] with
            | Some (d, r2) => Some (JObj d, r2)
            | None => None
            end
          else None
        | [] => None
        end
      else if c =? lbracket then
        match skip_ws r with
        | x :: r1 =>
          if x =? rbracket then Some (JArr [], r1)
          else
            match parse_items fuel' (x :: r1) [] with
            | Some (l, r2) => Some (JArr l, r2)
            | None => None
            end
        | [] => None
        end
      else if starts_with (lit "null") s then Some (JNull, drop 4 s)
      else if starts_with (lit "true") s then Some (JBool true, drop 4 s)
      else if starts_with (lit "false") s then Some (JBool false, drop 5 s)
      else
        match match_number s with
        | Some (lexeme, r') => Some (JNum lexeme, r')
        | None =>
          if starts_with (lit "NaN") s then Some (JNum (lit "NaN"), drop 3 s)
          else if starts_with (lit "Infinity") s then Some (JNum (lit "Infinity"), drop 8 s)
          else if starts_with (lit "-Infinity") s then Some (JNum (lit "-Infinity"), drop 9 s)
          else None
        end
    end
  end
with parse_members (fuel : nat) (s : pystr) (acc : dict) : option (dict * pystr) :=
  match fuel with
  | O => None
  | S fuel' =>
    match scanstring (S (length s)) s [] with
    | None => None
    | Some (key, r) =>
      match skip_ws r with
      | c :: r1 =>
        if c =? colon then
          match parse_value fuel' (skip_ws r1) with
          | None => None
          | Some (v, r2) =>
            let acc' := dict_set key v acc in
            match skip_ws r2 with
            | x :: r3 =>
              if x =? rbrace then Some (acc', r3)
              else if x =? comma then
                match skip_ws r3 with
                | q :: r4 => if q =? dquote then parse_members fuel' r4 acc' else None
                | [] => None
                end
              else None
            | [] => None
            end
          end
        else None
      | [] => None
      end
    end
  end
with parse_items (fuel : nat) (s : pystr) (acc : list json) : option (list json * pystr) :=
  match fuel with
  | O => None
  | S fuel' =>
    match parse_value fuel' s with
    | None => None
    | Some (v, r) =>
      match skip_ws r with
      | x :: r1 =>
        if x =? rbracket then Some (acc ++ [v], r1)
        else if x =? comma then parse_items fuel' (skip_ws r1) (acc ++ [v])
        else None
      | [] => None
      end
    end
  end.

(** [json.loads(s)] for any text: one value between optional white space,
    nothing after it. *)
Definition loads_value (s : pystr) : option json :=
  match parse_value (2 * length s + 2) (skip_ws s) with
  | Some (j, r) => match skip_ws r with [] => Some j | _ :: _ => None end
  | None => None
  end.

(** [json.loads] on a text that starts with an opening brace. *)
Definition loads (s : pystr) : loads_result :=
  match loads_value s with
  | Some (JObj d) => Loaded d
  | Some _ => DecodeError
  | None => DecodeError
  end.

End Json.

(* ===================================================================== *)
(** ** Response extraction ([extract_json_from_text])                    *)
(* ===================================================================== *)

Module Extractor.
Import Text Json.

(** A Python call either returns or raises. *)
Inductive py (A : Type) :=
| Return (a : A)
| Raise.
Arguments Return {A} a.
Arguments Raise {A}.

Definition fence_json : pystr := lit "```json".
Definition fence : pystr := lit "```".

(** The text after [strip()] and the three substitutions. *)
Definition clean (text : pystr) : pystr :=
  sub_eol fence (sub_bol fence (sub_bol fence_json (strip text))).

(** The state of the scan loop. *)
Record scan_state := {
  brace_level : Z;
  in_string : bool;
  escape : bool
}.

Definition scan_init : scan_state :=
  {| brace_level := 0; in_string := false; escape := false |}.

(** One turn of the loop on [c], as far as the three variables go. *)
Definition scan_char (st : scan_state) (c : char) : scan_state :=
  if in_string st then
    if escape st then {| brace_level := brace_level st; in_string := true; escape := false |}
    else if c =? backslash then {| brace_level := brace_level st; in_string := true; escape := true |}
    else if c =? dquote then {| brace_level := brace_level st; in_string := false; escape := escape st |}
    else st
  else
    if c =? dquote then {| brace_level := brace_level st; in_string := true; escape := escape st |}
    else if c =? lbrace then {| brace_level := (brace_level st + 1)%Z; in_string := false; escape := escape st |}
    else if c =? rbrace then {| brace_level := (brace_level st - 1)%Z; in_string := false; escape := escape st |}
    else st.

(** Whether the turn on [c] reaches [json_str = text[start_index:i+1]]: a
    closing brace outside a string that brings the level back to zero. *)
Definition closes (st : scan_state) (c : char) : bool :=
  negb (in_string st) && negb (c =? dquote) && negb (c =? lbrace) && (c =? rbrace)
  && (brace_level st - 1 =? 0)%Z.

(** The loop [for i, char in enumerate(text[start_index:], ...)].  [body]
    is [text[start_index:]], [k] the number of characters already read and
    [rest] the characters still to read. *)
Fixpoint scan (loads : pystr -> loads_result) (body : pystr) (k : nat)
         (st : scan_state) (rest : pystr) : py (option dict) :=
  match rest with
  | [] => Return None
  | c :: rest' =>
    if closes st c then
      match loads (take (S k) body) with
      | Loaded d => Return (Some d)
      | DecodeError => scan loads body (S k) (scan_char st c) rest'
      | OtherError => Raise
      end
    else scan loads body (S k) (scan_char st c) rest'
  end.

(** Spec side: the scan variables after reading [s] from the first opening
    brace on. *)
Definition state_after (s : pystr) : scan_state := fold_left scan_char s scan_init.

(** Spec side: [c] is a JSON-object candidate of [body] (the text from its
    first opening brace on): a prefix of [body] that ends with a closing
    brace read outside any string, at which the depth is back to zero. *)
Definition is_candidate (body c : pystr) : Prop :=
  exists p rest, c = p ++ [rbrace] /\ body = c ++ rest /\
    in_string (state_after p) = false /\ brace_level (state_after c) = 0%Z.

(** Spec side: [d] is what the first candidate longer than [k] that parses
    gives, every shorter one (longer than [k]) being rejected with a
    [JSONDecodeError]. *)
Definition found (loads : pystr -> loads_result) (body : pystr) (k : nat) (d : dict) : Prop :=
  exists c, is_candidate body c /\ (k < length c)%nat /\ loads c = Loaded d /\
    forall q, is_candidate body q -> (k < length q < length c)%nat -> loads q = DecodeError.

(** Spec side: no candidate longer than [k] parses. *)
Definition none_parses (loads : pystr -> loads_result) (body : pystr) (k : nat) : Prop :=
  forall q, is_candidate body q -> (k < length q)%nat -> loads q = DecodeError.

Definition extract_json_from_text (loads : pystr -> loads_result) (text : pystr)
  : py (option dict) :=
  match from_first lbrace (clean text) with
  | None => Return None
  | Some body => scan loads body 0 scan_init body
  end.

End Extractor.

(* ===================================================================== *)
(** ** Calendar dates ([datetime.date])                                  *)
(* ===================================================================== *)

Module Calendar.
Import Text.

Record date := { year : Z; month : Z; day : Z }.

Definition is_leap (y : Z) : bool :=
  ((y mod 4 =? 0) && (negb (y mod 100 =? 0) || (y mod 400 =? 0)))%Z.

Definition days_in_month (y m : Z) : Z :=
  (if m =? 2 then (if is_leap y then 29 else 28)
   else if (m =? 4) || (m =? 6) || (m =? 9) || (m =? 11) then 30
   else 31)%Z.

(** The dates a [datetime.date] object can hold. *)
Definition valid_date (d : date) : Prop :=
  (1 <= year d <= 9999 /\ 1 <= month d <= 12 /\ 1 <= day d <= days_in_month (year d) (month d))%Z.

Definition valid_dateb (d : date) : bool :=
  ((1 <=? year d) && (year d <=? 9999) && (1 <=? month d) && (month d <=? 12)
   && (1 <=? day d) && (day d <=? days_in_month (year d) (month d)))%Z.

(** [_DAYS_BEFORE_MONTH[m]] *)
Definition days_before_month (m : Z) : Z :=
  (if m =? 1 then 0 else if m =? 2 then 31 else if m =? 3 then 59
   else if m =? 4 then 90 else if m =? 5 then 120 else if m =? 6 then 151
   else if m =? 7 then 181 else if m =? 8 then 212 else if m =? 9 then 243
   else if m =? 10 then 273 else if m =? 11 then 304 else 334)%Z.

Definition max_ordinal : Z := 3652059.

(** [date.fromordinal(n)] for [1 <= n <= max_ordinal] (the standard
    library's [_ord2ymd]). *)
Definition ord2ymd (n : Z) : date :=
  (let n := n - 1 in
   let n400 := n / 146097 in let n := n mod 146097 in
   let n100 := n / 36524 in let n := n mod 36524 in
   let n4 := n / 1461 in let n := n mod 1461 in
   let n1 := n / 365 in let n := n mod 365 in
   let y := n400 * 400 + 1 + n100 * 100 + n4 * 4 + n1 in
   if (n1 =? 4) || (n100 =? 4) then {| year := y - 1; month := 12; day := 31 |}
   else
     let leapyear := (n1 =? 3) && (negb (n4 =? 24) || (n100 =? 3)) in
     let m := Z.shiftr (n + 50) 5 in
     let preceding := days_before_month m + (if (2 <? m) && leapyear then 1 else 0) in
     if n <? preceding then
       let m' := m - 1 in
       let preceding' :=
         preceding - (days_in_month 1 m' + (if (m' =? 2) && leapyear then 1 else 0)) in
       {| year := y; month := m'; day := n - preceding' + 1 |}
     else {| year := y; month := m; day := n - preceding + 1 |})%Z.

Definition digit (n : Z) : char := Z.to_N (48 + n mod 10).
Definition pad2 (n : Z) : pystr := [digit (n / 10); digit n].
Definition pad4 (n : Z) : pystr := [digit (n / 1000); digit (n / 100); digit (n / 10); digit n].

Definition hyphen : char := 45.

(** [d.isoformat()]: year on four digits, month and day on two. *)
Definition isoformat (d : date) : pystr :=
  pad4 (year d) ++ [hyphen] ++ pad2 (month d) ++ [hyphen] ++ pad2 (day d).

Fixpoint drop_zeros (s : pystr) : pystr :=
  match s with
  | c :: r => if c =? 48 then drop_zeros r else s
  | [] => []
  end.

(** [d.strftime("%Y-%m-%d")] as the C library prints it: the year is not
    padded, so it differs from [isoformat] before year 1000. *)
Definition strftime_ymd (d : date) : pystr :=
  drop_zeros (pad4 (year d)) ++ [hyphen] ++ pad2 (month d) ++ [hyphen] ++ pad2 (day d).

(** The canonical key format: four digits, hyphen, two digits, hyphen, two
    digits. *)
Definition is_ascii_digit (c : char) : bool := (48 <=? c) && (c <=? 57).

Definition canonical (s : pystr) : bool :=
  match s with
  | [y1; y2; y3; y4; h1; m1; m2; h2; d1; d2] =>
    is_ascii_digit y1 && is_ascii_digit y2 && is_ascii_digit y3 && is_ascii_digit y4
    && (h1 =? hyphen) && is_ascii_digit m1 && is_ascii_digit m2
    && (h2 =? hyphen) && is_ascii_digit d1 && is_ascii_digit d2
  | _ => false
  end.

End Calendar.

(* ===================================================================== *)
(** ** Configuration and the generation pipeline                         *)
(* ===================================================================== *)

Module Pipeline.
Import Text Json Extractor Calendar.

Record ChatReference := { umo : pystr; count : Z }.

Record SchedulerConfig := {
  schedule_time : pystr;
  reference_history_days : Z;
  reference_chats : list ChatReference;
  prompt_template : pystr;
  outfit_desc : pystr
}.

(** [self.schedule_data]: day key to whatever [data.json] or a generation
    put there. *)
Abbreviation store := (gmap pystr json).

(** The day key of the day with proleptic ordinal [n]:
    [strftime("%Y-%m-%d")] of that day. *)
Definition day_key (n : Z) : pystr := strftime_ymd (ord2ymd n).

(** [range(1, d + 1)] *)
Definition range1 (d : Z) : list Z := map Z.of_nat (seq 1 (Z.to_nat d)).

Definition no_history : pystr := [26080; 21382; 21490; 35760; 24405].

(** [rec.get('schedule', '')[:100]] as it is formatted into the line.
    [repr_list] is [str] applied to a list, which is what the slice of a
    list value is formatted with; values that have no [get] or cannot be
    sliced raise. *)
Definition excerpt (repr_list : list json -> pystr) (rec : json) : py pystr :=
  match rec with
  | JObj d =>
    match dict_get (lit "schedule") d with
    | None => Return []
    | Some (JStr s) => Return (take 100 s)
    | Some (JArr l) => Return (repr_list (take 100 l))
    | Some _ => Raise
    end
  | _ => Raise
  end.

(** [f"[{past_date}]: {excerpt}..."] *)
Definition history_line (past_date ex : pystr) : pystr :=
  lit "[" ++ past_date ++ lit "]: " ++ ex ++ lit "...".

(** The loop that fills [history_schedules]; [today] is the ordinal of
    today's date, and a day before ordinal 1 raises [OverflowError]. *)
Fixpoint history_loop (repr_list : list json -> pystr) (data : store) (today : Z)
         (offsets : list Z) (acc : list pystr) : py (list pystr) :=
  match offsets with
  | [] => Return acc
  | i :: rest =>
    if (today - i <? 1)%Z then Raise
    else
      let past_date := day_key (today - i) in
      match data !! past_date with
      | None => history_loop repr_list data today rest acc
      | Some rec =>
        match excerpt repr_list rec with
        | Raise => Raise
        | Return ex =>
          history_loop repr_list data today rest (acc ++ [history_line past_date ex])
        end
      end
  end.

(** ["\n".join(lines)] *)
Fixpoint join_lines (lines : list pystr) : pystr :=
  match lines with
  | [] => []
  | [l] => l
  | l :: rest => l ++ newline :: join_lines rest
  end.

(** The list [history_schedules] when the loop ends. *)
Definition history_schedules (repr_list : list json -> pystr) (cfg : SchedulerConfig)
           (data : store) (today : Z) : py (list pystr) :=
  history_loop repr_list data today (range1 (reference_history_days cfg)) [].

(** [history_schedules_str] *)
Definition history_schedules_str (lines : list pystr) : pystr :=
  match lines with
  | [] => no_history
  | _ :: _ => join_lines lines
  end.

Definition default_outfit : pystr := [26085; 24120; 20241; 38386; 35013].

(** The fallback record. *)
Definition fallback (content : pystr) : dict :=
  [(lit "outfit", JStr default_outfit); (lit "schedule", JStr content)].

(** What the generator call does. *)
Inductive response :=
| ChatRaises
| ChatText (content : pystr).

(** From [content = response.completion_text] to the [return]s of the inner
    [try]. *)
Definition on_content (loads : pystr -> loads_result) (content : pystr) : py dict :=
  match extract_json_from_text loads content with
  | Return (Some json_data) =>
    if dict_truthy json_data then Return json_data else Return (fallback content)
  | Return None => Return (fallback content)
  | Raise => Raise
  end.

(** What the outer [try ... except Exception: return None] makes of the
    provider's answer. *)
Definition on_response (loads : pystr -> loads_result) (r : response) : option dict :=
  match r with
  | ChatRaises => None
  | ChatText content =>
    match on_content loads content with
    | Return d => Some d
    | Raise => None
    end
  end.

(** What the surroundings decide in one call: whether rendering the prompt
    template raises (an unknown placeholder), whether a provider is
    configured, and what it answers. *)
Record gen_env := {
  prompt_ok : bool;
  provider : bool;
  answer : response
}.

(** [generate_schedule_with_llm]: the value returned, or the exception that
    leaves it (raised before the [try]: history assembly or prompt
    rendering).  Recent chats, persona and holiday label only feed the
    prompt text. *)
Definition generate_schedule_with_llm (loads : pystr -> loads_result)
           (repr_list : list json -> pystr) (cfg : SchedulerConfig) (data : store)
           (today : Z) (env : gen_env) : py (option dict) :=
  match history_schedules repr_list cfg data today with
  | Raise => Raise
  | Return _ =>
    if negb (prompt_ok env) then Raise
    else if negb (provider env) then Return None
    else Return (on_response loads (answer env))
  end.

(** How many times that call invokes [provider.text_chat]. *)
Definition text_chat_calls (repr_list : list json -> pystr) (cfg : SchedulerConfig)
           (data : store) (today : Z) (env : gen_env) : nat :=
  match history_schedules repr_list cfg data today with
  | Raise => 0
  | Return _ => if prompt_ok env && provider env then 1 else 0
  end.

(** Spec side: the schedule text of a cached value, when the value is a
    dict whose [schedule] entry is a string or is missing (the default is
    the empty string). *)
Definition schedule_text (rec : json) : option pystr :=
  match rec with
  | JObj d =>
    match dict_get (lit "schedule") d with
    | None => Some []
    | Some (JStr s) => Some s
    | Some _ => None
    end
  | _ => None
  end.

(** Spec side: the history line of the day [i] days before [today], when
    that day is cached and the excerpt of its value can be taken. *)
Definition history_entry (repr_list : list json -> pystr) (data : store) (today i : Z)
  : option pystr :=
  match data !! day_key (today - i) with
  | Some rec =>
    match excerpt repr_list rec with
    | Return ex => Some (history_line (day_key (today - i)) ex)
    | Raise => None
    end
  | None => None
  end.

(** A cache with the two days before 2024-03-01 (ordinal 738946). *)
Definition two_days_cached : store :=
  <[lit "2024-02-29" := JObj [(lit "schedule", JStr (lit "b"))]]>
    (<[lit "2024-02-28" := JObj [(lit "schedule", JStr (lit "a"))]]> ∅).

(** A configuration for examples: the default time and look-back window, a
    short template. *)
Definition example_config : SchedulerConfig :=
  {| schedule_time := lit "07:00"; reference_history_days := 3; reference_chats := [];
     prompt_template := lit "{date_str} {history_schedules}"; outfit_desc := lit "" |}.

(** An answer of the generator with braces inside a string value. *)
Definition nested_example : pystr :=
  lbrace :: quoted "outfit" ++ lit ":" ++ quoted "a {b}" ++ lit ","
  ++ quoted "schedule" ++ lit ":" ++ quoted "c" ++ [rbrace].

(** A surrounding in which the provider answers [content]. *)
Definition answering (content : pystr) : gen_env :=
  {| prompt_ok := true; provider := true; answer := ChatText content |}.

End Pipeline.

(* ===================================================================== *)
(** ** The handlers as interleaved tasks                                 *)
(* ===================================================================== *)

Module Guard.
Import Text Json Extractor Calendar Pipeline.

(** The two callers that generate without looking at the cache:
    [daily_schedule_task] and the [regenerate] branch of [life_command]. *)
Inductive origin := Cron | Regenerate.

(** Where a task stands.  The [L] points are [on_llm_request], the [U]
    points the callers of [origin].  What a handler does after its last
    point (the text added to the request's system prompt, the reply of a
    command) touches no shared field and is left out. *)
Inductive pc :=
| LStart (session_id : pystr)      (* handler entered *)
| LLock                            (* at [async with self.generation_lock] *)
| LRecheck                         (* lock held, before the second test *)
| LGenerate                        (* about to run the pipeline *)
| LAwait                           (* [provider.text_chat] in flight *)
| LResult (schedule_info : option dict)
| LSave                            (* at [save_data]'s [async with self.data_lock] *)
| LSaving                          (* data lock held, file being written *)
| UStart (o : origin)
| UAwait (o : origin)
| UResult (o : origin) (schedule_info : option dict)
| USave (o : origin)
| USaving (o : origin)
| Done                             (* returned *)
| Crashed.                         (* left by an exception *)

(** A task and the day its handler read from the clock ([today] is that
    day's ordinal, [today_str] its key). *)
Record task := { today : Z; at_pc : pc }.

Definition today_str (t : task) : pystr := day_key (today t).

(** What the tasks share: the plugin object's fields, the snapshot in
    [data.json], and two counters kept for the proofs: the number of
    [provider.text_chat] calls and the list of assignments
    [self.schedule_data[k] = v], oldest first. *)
Record shared := {
  schedule_data : store;
  failed_dates : gset pystr;
  generation_lock : bool;
  data_lock : bool;
  data_file : store;
  text_chat_count : nat;
  written : list (pystr * dict)
}.

Definition set_generation_lock (b : bool) (sh : shared) : shared :=
  {| schedule_data := schedule_data sh; failed_dates := failed_dates sh;
     generation_lock := b; data_lock := data_lock sh; data_file := data_file sh;
     text_chat_count := text_chat_count sh; written := written sh |}.

Definition set_data_lock (b : bool) (sh : shared) : shared :=
  {| schedule_data := schedule_data sh; failed_dates := failed_dates sh;
     generation_lock := generation_lock sh; data_lock := b; data_file := data_file sh;
     text_chat_count := text_chat_count sh; written := written sh |}.

(** [self.failed_dates.add(k)] *)
Definition add_failed (k : pystr) (sh : shared) : shared :=
  {| schedule_data := schedule_data sh; failed_dates := {[k]} ∪ failed_dates sh;
     generation_lock := generation_lock sh; data_lock := data_lock sh;
     data_file := data_file sh;
     text_chat_count := text_chat_count sh; written := written sh |}.

(** [self.schedule_data[k] = r] *)
Definition assign (k : pystr) (r : dict) (sh : shared) : shared :=
  {| schedule_data := <[k := JObj r]> (schedule_data sh); failed_dates := failed_dates sh;
     generation_lock := generation_lock sh; data_lock := data_lock sh;
     data_file := data_file sh;
     text_chat_count := text_chat_count sh; written := written sh ++ [(k, r)] |}.

(** One more [provider.text_chat] call. *)
Definition count_call (sh : shared) : shared :=
  {| schedule_data := schedule_data sh; failed_dates := failed_dates sh;
     generation_lock := generation_lock sh; data_lock := data_lock sh;
     data_file := data_file sh;
     text_chat_count := S (text_chat_count sh); written := written sh |}.

(** The snapshot file takes the current mapping: a write of [save_data]
    that runs to its end.  A write that fails is caught and logged inside
    [save_data] and leaves the file as it was; the tasks below do not
    follow that case, and no statement depends on what [data_file] holds
    after a save. *)
Definition persist (sh : shared) : shared :=
  {| schedule_data := schedule_data sh; failed_dates := failed_dates sh;
     generation_lock := generation_lock sh; data_lock := data_lock sh;
     data_file := schedule_data sh;
     text_chat_count := text_chat_count sh; written := written sh |}.

Definition reserved_session : pystr := lit "life_scheduler_gen".

(** [today_str not in self.schedule_data and today_str not in self.failed_dates] *)
Definition absent (sh : shared) (k : pystr) : bool :=
  match schedule_data sh !! k with
  | Some _ => false
  | None => negb (bool_decide (k ∈ failed_dates sh))
  end.

(** The start of [generate_schedule_with_llm], up to the point where
    [provider.text_chat] is awaited: [None] when an exception leaves the
    call, [Some false] when it returns [None] for want of a provider,
    [Some true] when the provider is called. *)
Definition begin_generation (repr_list : list json -> pystr) (cfg : SchedulerConfig)
           (data : store) (now : Z) (env : gen_env) : option bool :=
  match history_schedules repr_list cfg data now with
  | Raise => None
  | Return _ => if negb (prompt_ok env) then None else Some (provider env)
  end.

Section Machine.
Variable loads : pystr -> loads_result.
Variable repr_list : list json -> pystr.
Variable cfg : SchedulerConfig.

(** One step of task [t]: from its point to the next, with the effect on
    the shared fields.  A task that waits for a held lock stays where it
    is.  [env] is what the surroundings do during this step. *)
Definition step_task (env : gen_env) (sh : shared) (t : task) : shared * pc :=
  let k := today_str t in
  match at_pc t with
  | LStart sid =>
    if bool_decide (sid = reserved_session) then (sh, Done)
    else if absent sh k then (sh, LLock) else (sh, Done)
  | LLock =>
    if generation_lock sh then (sh, LLock) else (set_generation_lock true sh, LRecheck)
  | LRecheck =>
    if absent sh k then (sh, LGenerate) else (set_generation_lock false sh, Done)
  | LGenerate =>
    match begin_generation repr_list cfg (schedule_data sh) (today t) env with
    | None => (set_generation_lock false sh, Crashed)
    | Some false => (sh, LResult None)
    | Some true => (count_call sh, LAwait)
    end
  | LAwait => (sh, LResult (on_response loads (answer env)))
  | LResult None => (set_generation_lock false (add_failed k sh), Done)
  | LResult (Some r) =>
    if data_lock sh then (sh, LResult (Some r)) else (assign k r sh, LSave)
  | LSave => if data_lock sh then (sh, LSave) else (set_data_lock true sh, LSaving)
  | LSaving => (set_generation_lock false (set_data_lock false (persist sh)), Done)
  | UStart o =>
    match begin_generation repr_list cfg (schedule_data sh) (today t) env with
    | None => (sh, Crashed)
    | Some false => (sh, UResult o None)
    | Some true => (count_call sh, UAwait o)
    end
  | UAwait o => (sh, UResult o (on_response loads (answer env)))
  | UResult o None => (sh, Done)
  | UResult o (Some r) =>
    if data_lock sh then (sh, UResult o (Some r)) else (assign k r sh, USave o)
  | USave o => if data_lock sh then (sh, USave o) else (set_data_lock true sh, USaving o)
  | USaving o => (set_data_lock false (persist sh), Done)
  | Done => (sh, Done)
  | Crashed => (sh, Crashed)
  end.

Record state := { fields : shared; tasks : list task }.

(** What the event loop picks: the task to resume and what the
    surroundings do. *)
Record choice := { who : nat; env : gen_env }.

Definition step (c : choice) (st : state) : state :=
  match tasks st !! who c with
  | None => st
  | Some t =>
    let '(sh, p) := step_task (env c) (fields st) t in
    {| fields := sh; tasks := <[who c := {| today := today t; at_pc := p |}]> (tasks st) |}
  end.

Definition run (sched : list choice) (st : state) : state :=
  fold_left (fun s c => step c s) sched st.

End Machine.

(** Spec side: the points at which a lazy trigger is inside the
    [generation_lock] block. *)
Definition holds_lock (p : pc) : bool :=
  match p with
  | LRecheck | LGenerate | LAwait | LResult _ | LSave | LSaving => true
  | _ => false
  end.

(** Spec side: inside the block, before the outcome is recorded. *)
Definition undecided (p : pc) : bool :=
  match p with
  | LGenerate | LAwait | LResult _ => true
  | _ => false
  end.

(** Spec side: a provider call was made and its outcome is not recorded
    yet. *)
Definition in_flight (p : pc) : bool :=
  match p with
  | LAwait | LResult _ => true
  | _ => false
  end.

(** Spec side: a provider call that cannot end in failure any more or has
    not ended yet. *)
Definition called (p : pc) : bool :=
  match p with
  | LAwait | LResult (Some _) => true
  | _ => false
  end.

Definition saving (p : pc) : bool :=
  match p with
  | LSave | LSaving => true
  | _ => false
  end.

(** Spec side: a point of [on_llm_request] entered from a session other
    than the reserved one. *)
Definition is_lazy (p : pc) : bool :=
  match p with
  | LStart sid => negb (bool_decide (sid = reserved_session))
  | UStart _ | UAwait _ | UResult _ _ | USave _ | USaving _ => false
  | _ => true
  end.

(** Spec side: what holds of every state that lazy triggers of the day with
    key [k] (ordinal [n]) reach from a cache without that day. *)
Record lazy_inv (n : Z) (st : state) : Prop := {
  inv_lazy : forall i t, tasks st !! i = Some t ->
      today t = n /\ is_lazy (at_pc t) = true;
  inv_free : generation_lock (fields st) = false ->
      forall i t, tasks st !! i = Some t -> holds_lock (at_pc t) = false;
  inv_one : forall i j t u, tasks st !! i = Some t -> tasks st !! j = Some u ->
      holds_lock (at_pc t) = true -> holds_lock (at_pc u) = true -> i = j;
  inv_undecided : forall i t, tasks st !! i = Some t -> undecided (at_pc t) = true ->
      absent (fields st) (day_key n) = true;
  inv_saving : forall i t, tasks st !! i = Some t -> saving (at_pc t) = true ->
      is_Some (schedule_data (fields st) !! day_key n);
  inv_count : (text_chat_count (fields st) <= 1)%nat;
  inv_zero : absent (fields st) (day_key n) = true ->
      (forall i t, tasks st !! i = Some t -> in_flight (at_pc t) = false) ->
      text_chat_count (fields st) = 0%nat;
  inv_written :
      match schedule_data (fields st) !! day_key n with
      | None => written (fields st) = []
      | Some v => exists r, v = JObj r /\ written (fields st) = [(day_key n, r)]
                            /\ text_chat_count (fields st) = 1%nat
      end;
  inv_called : forall i t, tasks st !! i = Some t -> called (at_pc t) = true ->
      text_chat_count (fields st) = 1%nat;
  inv_done : forall i t, tasks st !! i = Some t -> at_pc t = Done ->
      absent (fields st) (day_key n) = false
}.

(** [n] lazy triggers of day [now], one per session identifier. *)
Definition lazy_tasks (now : Z) (sids : list pystr) : list task :=
  map (fun sid => {| today := now; at_pc := LStart sid |}) sids.

(** The shared fields when the plugin has just loaded [data] and recorded
    the failed days [failed]: locks free, nothing called or assigned yet. *)
Definition fresh_fields (data : store) (failed : gset pystr) : shared :=
  {| schedule_data := data; failed_dates := failed; generation_lock := false;
     data_lock := false; data_file := data; text_chat_count := 0; written := [] |}.

(** Spec side: what holds of every state that lazy triggers of day [n]
    reach when the day is cached or marked failed in [sh]: the fields stay
    [sh] and every trigger is at its start or has returned. *)
Definition idle_inv (n : Z) (sh : shared) (st : state) : Prop :=
  fields st = sh /\
  forall i t, tasks st !! i = Some t ->
    today t = n /\ ((exists sid, at_pc t = LStart sid) \/ at_pc t = Done).

(** Spec side: trigger [i] has returned. *)
Definition returned (st : state) (i : nat) : Prop :=
  exists t, tasks st !! i = Some t /\ at_pc t = Done.

(** A surrounding in which the provider answers with a record whose two
    fields are [s]. *)
Definition answers_with (i : nat) (s : string) : choice :=
  {| who := i;
     env := answering (lbrace :: quoted "outfit" ++ lit ":" ++ quoted s ++ lit ","
                       ++ quoted "schedule" ++ lit ":" ++ quoted s ++ [rbrace]) |}.

(** One request and the cron job on 2024-03-01, nothing cached. *)
Definition request_and_cron : state :=
  {| fields := fresh_fields ∅ ∅;
     tasks := [{| today := 738946; at_pc := LStart (lit "chat-1") |};
               {| today := 738946; at_pc := UStart Cron |}] |}.

(** The cron job starts its generation; while it waits for the provider a
    request comes in and goes through the guard; then both finish. *)
Definition cron_then_request : list choice :=
  [answers_with 1 "c";
   answers_with 0 "l"; answers_with 0 "l"; answers_with 0 "l"; answers_with 0 "l";
   answers_with 1 "c"; answers_with 1 "c"; answers_with 1 "c"; answers_with 1 "c";
   answers_with 0 "l"; answers_with 0 "l"; answers_with 0 "l"; answers_with 0 "l"].

(** The record the example provider gives for [s]. *)
Definition record_of (s : string) : dict :=
  [(lit "outfit", JStr (lit s)); (lit "schedule", JStr (lit s))].

(** 2024-03-01 is cached; two requests, or the cron job alone. *)
Definition cached_day : shared :=
  fresh_fields (<[lit "2024-03-01" := JObj (record_of "first")]> ∅) ∅.

(** 2024-03-01 is marked failed. *)
Definition failed_day : shared := fresh_fields ∅ {[ lit "2024-03-01" ]}.

Definition two_requests : list task := lazy_tasks 738946 [lit "chat-1"; lit "chat-2"].

(** Both requests pass the first test before either takes the lock; the
    first generates, the second finds the record at its second test. *)
Definition two_requests_schedule : list choice :=
  [answers_with 0 "a"; answers_with 1 "b"; answers_with 0 "a"; answers_with 1 "b";
   answers_with 0 "a"; answers_with 0 "a"; answers_with 0 "a"; answers_with 0 "a";
   answers_with 0 "a"; answers_with 0 "a"; answers_with 1 "b"; answers_with 1 "b"].

Definition cron_alone (sh : shared) : state :=
  {| fields := sh; tasks := [{| today := 738946; at_pc := UStart Cron |}] |}.

End Guard.

(* ===================================================================== *)
(** ** Snapshot files ([save_data], [save_config])                       *)
(* ===================================================================== *)

Module Files.
Import Text.

(** The two paths a save touches, each absent or with its content: the
    canonical file ([data.json], [config.json]) and its sibling with suffix
    [.tmp]. *)
Record files := { canonical : option pystr; temporary : option pystr }.

(** What a save does to the file system, one system call after the other.
    The text handed to [f.write] reaches the temporary file in one or more
    pieces. *)
Inductive op :=
| OpenTruncate
| WriteChunk (piece : pystr)
| Close
| RemoveCanonical
| ReplaceCanonical.

Definition apply_op (fs : files) (o : op) : files :=
  match o with
  | OpenTruncate => {| canonical := canonical fs; temporary := Some [] |}
  | WriteChunk piece =>
    {| canonical := canonical fs; temporary := (fun old => old ++ piece) <$> temporary fs |}
  | Close => fs
  | RemoveCanonical => {| canonical := None; temporary := temporary fs |}
  | ReplaceCanonical =>
    match temporary fs with
    | Some content => {| canonical := Some content; temporary := None |}
    | None => fs
    end
  end.

(** The calls of one save, in program order: open the temporary file for
    writing, write, close; on Windows ([os.name == 'nt']) remove the
    canonical file when it exists; [os.replace]. *)
Definition save_ops (nt : bool) (pieces : list pystr) (fs : files) : list op :=
  [OpenTruncate] ++ map WriteChunk pieces ++ [Close]
  ++ (if nt && bool_decide (is_Some (canonical fs)) then [RemoveCanonical] else [])
  ++ [ReplaceCanonical].

Definition run_ops (ops : list op) (fs : files) : files := fold_left apply_op ops fs.

(** The file system when the process dies after [k] calls of the save (or
    what another process sees at that moment). *)
Definition crash_after (k : nat) (nt : bool) (pieces : list pystr) (fs : files) : files :=
  run_ops (take k (save_ops nt pieces fs)) fs.

(** A save that runs to its end. *)
Definition save (nt : bool) (text : pystr) (fs : files) : files :=
  run_ops (save_ops nt [text] fs) fs.

(** How far one save gets.  Its body stands in [try ... except Exception]
    with a log entry as the handler, so an exception of one of its calls
    (the serializer, the encoding of the text, the file system) ends the
    save after the calls made before it, the text so far written in
    [pieces], and the caller goes on as after a save that ran to its
    end. *)
Inductive save_run :=
| Completes
| StopsAfter (k : nat) (pieces : list pystr).

(** The calls a save that stops has made: never all of them. *)
Definition stopped_ops (k : nat) (nt : bool) (pieces : list pystr) (fs : files) : list op :=
  take k (removelast (save_ops nt pieces fs)).

(** A save, whichever way it ends. *)
Definition save_with (run : save_run) (nt : bool) (text : pystr) (fs : files) : files :=
  match run with
  | Completes => save nt text fs
  | StopsAfter k pieces => run_ops (stopped_ops k nt pieces fs) fs
  end.

(** Two saves of one snapshot under way at once, off Windows, as two
    [save_config] calls are when two commands are handled concurrently (no
    lock serializes them, and both write the one temporary file): the
    first [a] calls of the save of [text1], then the first [b] calls of
    the save of [text2], then the remaining calls of the first save. *)
Definition overlapped (a b : nat) (text1 text2 : pystr) (fs : files) : files :=
  run_ops (take a (save_ops false [text1] fs)
           ++ take b (save_ops false [text2] fs)
           ++ drop a (save_ops false [text1] fs)) fs.

(** The calls that leave the canonical file alone. *)
Definition spares_canonical (o : op) : Prop :=
  match o with
  | RemoveCanonical | ReplaceCanonical => False
  | _ => True
  end.

(** The calls up to [close]. *)
Definition fill_ops (pieces : list pystr) : list op :=
  [OpenTruncate] ++ map WriteChunk pieces ++ [Close].

End Files.

(* ===================================================================== *)
(** ** The [time] branch of [life_command]                               *)
(* ===================================================================== *)

Module Command.
Import Text Json Pipeline Files.

(** The class [\d] of [re] on a [str] pattern: the decimal digits of
    Unicode, in blocks. *)
Definition decimal_blocks : list (N * N) :=
  [(48, 57); (1632, 1641); (1776, 1785); (1984, 1993); (2406, 2415); (2534, 2543);
   (2662, 2671); (2790, 2799); (2918, 2927); (3046, 3055); (3174, 3183); (3302, 3311);
   (3430, 3439); (3558, 3567); (3664, 3673); (3792, 3801); (3872, 3881); (4160, 4169);
   (4240, 4249); (6112, 6121); (6160, 6169); (6470, 6479); (6608, 6617); (6784, 6793);
   (6800, 6809); (6992, 7001); (7088, 7097); (7232, 7241); (7248, 7257); (42528, 42537);
   (43216, 43225); (43264, 43273); (43472, 43481); (43504, 43513); (43600, 43609);
   (44016, 44025); (65296, 65305); (66720, 66729); (68912, 68921); (69734, 69743);
   (69872, 69881); (69942, 69951); (70096, 70105); (70384, 70393); (70736, 70745);
   (70864, 70873); (71248, 71257); (71360, 71369); (71472, 71481); (71904, 71913);
   (72016, 72025); (72784, 72793); (73040, 73049); (73120, 73129); (92768, 92777);
   (92864, 92873); (93008, 93017); (120782, 120831); (123200, 123209); (123632, 123641);
   (125264, 125273); (130032, 130041)].

Definition is_decimal (c : char) : bool :=
  existsb (fun b => (fst b <=? c) && (c <=? snd b)) decimal_blocks.

(** [re.match(r"^\d{2}:\d{2}$", param)]: without MULTILINE, [$] also
    matches before a newline that ends the text. *)
Definition matches_time_pattern (param : pystr) : bool :=
  match param with
  | [h1; h2; c; m1; m2] =>
    is_decimal h1 && is_decimal h2 && (c =? colon) && is_decimal m1 && is_decimal m2
  | [h1; h2; c; m1; m2; nl] =>
    is_decimal h1 && is_decimal h2 && (c =? colon) && is_decimal m1 && is_decimal m2
    && (nl =? newline)
  | _ => false
  end.

(** [s.split(sep)] for a one-character separator. *)
Fixpoint split_on (sep : char) (s : pystr) : list pystr :=
  match s with
  | [] => [[]]
  | c :: r =>
    if c =? sep then [] :: split_on sep r
    else
      match split_on sep r with
      | first :: others => (c :: first) :: others
      | [] => [[c]]
      end
  end.

(** [LifeScheduler]: the configured time and the registered cron job with
    its hour and minute fields ([None] when [start] could not add it). *)
Record LifeScheduler := { sched_time : pystr; job : option (pystr * pystr) }.

Section WithScheduler.
(** Whether the scheduling library builds a cron trigger from these hour
    and minute fields; when it does not, [add_job] and [reschedule] raise
    and leave the job as it was. *)
Variable cron_accepts : pystr -> pystr -> bool.

(** [LifeScheduler.__init__] followed by [start]. *)
Definition start (schedule_time : pystr) : LifeScheduler :=
  match split_on colon schedule_time with
  | [hour; minute] =>
    if cron_accepts hour minute
    then {| sched_time := schedule_time; job := Some (hour, minute) |}
    else {| sched_time := schedule_time; job := None |}
  | _ => {| sched_time := schedule_time; job := None |}
  end.

Definition update_schedule_time (new_time : pystr) (s : LifeScheduler) : LifeScheduler :=
  if bool_decide (new_time = sched_time s) then s
  else
    match split_on colon new_time with
    | [hour; minute] =>
      match job s with
      | Some _ =>
        if cron_accepts hour minute
        then {| sched_time := new_time; job := Some (hour, minute) |}
        else {| sched_time := new_time; job := job s |}
      | None => {| sched_time := new_time; job := None |}
      end
    | _ => s
    end.


(** The plugin fields the branch touches, and the configuration files. *)
Record plugin := {
  config : SchedulerConfig;
  scheduler : LifeScheduler;
  config_files : files
}.

Definition set_schedule_time (t : pystr) (c : SchedulerConfig) : SchedulerConfig :=
  {| schedule_time := t; reference_history_days := reference_history_days c;
     reference_chats := reference_chats c; prompt_template := prompt_template c;
     outfit_desc := outfit_desc c |}.

(** The replies of the branch. *)
Inductive reply :=
| AskForTime
| BadFormat
| Updated (t : pystr).

(** [json.dumps(self.config.to_dict(), indent=4, ensure_ascii=False)] and
    the operating system ([os.name == 'nt']). *)
Variable dumps_config : SchedulerConfig -> pystr.
Variable nt : bool.

(** [save_config]; [run] tells how far the write gets.  It never raises:
    a failed write is logged and the command goes on. *)
Definition save_config (run : save_run) (p : plugin) : plugin :=
  {| config := config p; scheduler := scheduler p;
     config_files := save_with run nt (dumps_config (config p)) (config_files p) |}.

(** [save_data], once it holds the data lock: the same write, of
    [json.dumps(self.schedule_data, indent=4, ensure_ascii=False)]. *)
Definition save_data (run : save_run) (dumps_data : store -> pystr) (data : store)
           (fs : files) : files :=
  save_with run nt (dumps_data data) fs.

(** [life_command] with [action == "time"]; [run] tells how far the write
    of [save_config] gets, when the branch reaches it. *)
Definition life_command_time (run : save_run) (param : pystr) (p : plugin)
  : plugin * reply :=
  if bool_decide (param = []) then (p, AskForTime)
  else if negb (matches_time_pattern param) then (p, BadFormat)
  else
    let p1 := {| config := config p;
                 scheduler := update_schedule_time param (scheduler p);
                 config_files := config_files p |} in
    let p2 := {| config := set_schedule_time param (config p1);
                 scheduler := scheduler p1;
                 config_files := config_files p1 |} in
    (save_config run p2, Updated param).

End WithScheduler.

(** A cron trigger as the scheduling library checks fields of two ASCII
    digits: hour from 0 to 23, minute from 0 to 59.  The library takes
    more than that (a field of one digit, digits of other scripts); this
    check is the scheduler of the examples, which use fields of two ASCII
    digits only. *)
Definition two_digit_value (s : pystr) : option N :=
  match s with
  | [a; b] =>
    if Json.is_digit a && Json.is_digit b then Some ((a - 48) * 10 + (b - 48)) else None
  | _ => None
  end.

Definition in_range_cron (hour minute : pystr) : bool :=
  match two_digit_value hour, two_digit_value minute with
  | Some h, Some m => (h <=? 23) && (m <=? 59)
  | _, _ => false
  end.

(** Spec side: a valid 24-hour wall-clock time [HH:MM]. *)
Definition valid_24h_time (param : pystr) : bool :=
  match split_on colon param with
  | [hour; minute] => in_range_cron hour minute
  | _ => false
  end.

(** A serializer for examples: it writes the time only. *)
Definition brief_dumps (c : SchedulerConfig) : pystr :=
  lbrace :: quoted "schedule_time" ++ lit ": " ++ dquote :: schedule_time c ++ [dquote; rbrace].

(** The plugin right after a first start: default configuration, job
    registered, no configuration file yet. *)
Definition fresh_plugin : plugin :=
  {| config := example_config;
     scheduler := start in_range_cron (schedule_time example_config);
     config_files := {| canonical := None; temporary := None |} |}.

End Command.

(* ===================================================================== *)
(** ** The data layer ([core/data.py])                                   *)
(* ===================================================================== *)

Module Data.
Import Text Extractor Calendar.

Inductive ScheduleStatus := ok | failed.

Record ScheduleData := {
  date : pystr;
  outfit : pystr;
  schedule : pystr;
  status : ScheduleStatus
}.

#[export] Instance ScheduleStatus_eq_dec : EqDecision ScheduleStatus.
Proof. solve_decision. Defined.

#[export] Instance ScheduleData_eq_dec : EqDecision ScheduleData.
Proof. solve_decision. Defined.

(** [DateLike], over the type [T] of numeric timestamps ([int] and
    [float]).  A [datetime] is its date and the seconds since midnight. *)
Inductive DateLike (T : Type) :=
| OfDatetime (d : Calendar.date) (seconds : Z)
| OfDate (d : Calendar.date)
| OfTimestamp (t : T).
Arguments OfDatetime {T} d seconds.
Arguments OfDate {T} d.
Arguments OfTimestamp {T} t.

(** [ScheduleDataManager._data] *)
Abbreviation manager := (gmap pystr ScheduleData).

Section WithTimestamps.
Context {T : Type}.
(** [datetime.datetime.fromtimestamp(value).date()] in the local time zone;
    it raises on a timestamp out of range. *)
Variable fromtimestamp : T -> py Calendar.date.

Definition to_date_str (value : DateLike T) : py pystr :=
  match value with
  | OfDatetime d _ => Return (isoformat d)
  | OfDate d => Return (isoformat d)
  | OfTimestamp t =>
    match fromtimestamp t with
    | Return d => Return (isoformat d)
    | Raise => Raise
    end
  end.

Definition new : manager := ∅.

Definition has (m : manager) (d : DateLike T) : py bool :=
  match to_date_str d with
  | Return k => Return (bool_decide (is_Some (m !! k)))
  | Raise => Raise
  end.

Definition get (m : manager) (d : DateLike T) : py (option ScheduleData) :=
  match to_date_str d with
  | Return k => Return (m !! k)
  | Raise => Raise
  end.

Definition set (m : manager) (data : ScheduleData) : manager :=
  <[date data := data]> m.

Definition remove (m : manager) (d : DateLike T) : py manager :=
  match to_date_str d with
  | Return k => Return (delete k m)
  | Raise => Raise
  end.

Definition all (m : manager) : manager := m.

(** Spec side: every entry sits under its own [date] field. *)
Definition keyed (m : manager) : Prop :=
  forall k v, m !! k = Some v -> date v = k.

(** The calls that change a manager. *)
Inductive call :=
| CallSet (data : ScheduleData)
| CallRemove (d : DateLike T).

(** The manager after a call; a call that raises changes nothing. *)
Definition after_call (m : manager) (c : call) : manager :=
  match c with
  | CallSet data => set m data
  | CallRemove d => match remove m d with Return m' => m' | Raise => m end
  end.

(** The manager a fresh object becomes through a list of calls. *)
Definition after_calls (calls : list call) : manager := fold_left after_call calls new.

End WithTimestamps.

(** Timestamps as whole seconds, read in UTC: a reference clock for
    examples with present-day timestamps (at the ends of the calendar the
    range of the library differs). *)
Definition utc_fromtimestamp (t : Z) : py Calendar.date :=
  let n := (t / 86400 + 719163)%Z in
  if ((1 <=? n) && (n <=? max_ordinal))%Z then Return (ord2ymd n) else Raise.

End Data.

(* ===================================================================== *)
(** ** The configuration objects ([ChatReference], [SchedulerConfig])    *)
(* ===================================================================== *)

Module Config.
Import Text Extractor.

(** The Python values a configuration meets: what [json.load] gives and
    what the defaults are.  A float is kept as the text it was read from. *)
Inductive pyval :=
| VNone
| VBool (b : bool)
| VInt (z : Z)
| VFloat (lexeme : pystr)
| VStr (s : pystr)
| VList (items : list pyval)
| VDict (d : list (pystr * pyval)).

Abbreviation pydict := (list (pystr * pyval)).

(** [d.get(k)] and [k in d] *)
Fixpoint lookup_key (k : pystr) (d : pydict) : option pyval :=
  match d with
  | [] => None
  | (k', v) :: r => if bool_decide (k = k') then Some v else lookup_key k r
  end.

(** [d.get(k, default)] *)
Definition get_or (k : pystr) (default : pyval) (d : pydict) : pyval :=
  match lookup_key k d with
  | Some v => v
  | None => default
  end.

Record ChatReference := { umo : pystr; count : Z }.

(** The fields of a [SchedulerConfig] object.  [from_dict] stores what it
    finds without a look at its type, so three fields hold any value. *)
Record SchedulerConfig := {
  schedule_time : pyval;
  reference_history_days : pyval;
  reference_chats : list ChatReference;
  prompt_template : pyval;
  outfit_desc : pyval
}.

Definition default_prompt_template : pystr :=
  [35; 32; 82; 111; 108; 101; 58; 32; 76; 105; 102; 101; 32; 83; 99; 104; 101; 100;
   117; 108; 101; 114; 10; 35831; 26681; 25454; 20197; 19979; 20449; 24687; 65292;
   20026; 33258; 24049; 35268; 21010; 19968; 20221; 20170; 22825; 30340; 29983; 27963;
   23433; 25490; 12290; 35831; 20195; 20837; 20320; 30340; 20154; 35774; 65292; 29983;
   25104; 30340; 20869; 23481; 24212; 23500; 26377; 29983; 27963; 27668; 24687; 65292;
   36991; 20813; 26426; 26800; 30340; 27969; 27700; 36134; 12290; 10; 10; 35; 35; 32;
   67; 111; 110; 116; 101; 120; 116; 10; 45; 32; 26085; 26399; 65306; 123; 100; 97;
   116; 101; 95; 115; 116; 114; 125; 32; 123; 119; 101; 101; 107; 100; 97; 121; 125;
   32; 123; 104; 111; 108; 105; 100; 97; 121; 125; 10; 45; 32; 20154; 35774; 65306;
   123; 112; 101; 114; 115; 111; 110; 97; 95; 100; 101; 115; 99; 125; 10; 45; 32;
   21382; 21490; 26085; 31243; 21442; 32771; 65288; 26368; 36817; 20960; 22825; 65289;
   65306; 10; 123; 104; 105; 115; 116; 111; 114; 121; 95; 115; 99; 104; 101; 100; 117;
   108; 101; 115; 125; 10; 45; 32; 36817; 26399; 23545; 35805; 35760; 24518; 65288;
   21442; 32771; 36825; 20123; 35805; 39064; 26469; 23433; 25490; 30456; 20851; 27963;
   21160; 65289; 65306; 10; 123; 114; 101; 99; 101; 110; 116; 95; 99; 104; 97; 116;
   115; 125; 10; 10; 35; 35; 32; 84; 97; 115; 107; 115; 10; 49; 46; 32; 111; 117; 116;
   102; 105; 116; 58; 32; 35774; 35745; 20170; 26085; 31359; 25645; 12290; 123; 111;
   117; 116; 102; 105; 116; 95; 100; 101; 115; 99; 125; 10; 50; 46; 32; 115; 99; 104;
   101; 100; 117; 108; 101; 58; 32; 35268; 21010; 20170; 26085; 26085; 31243; 12290;
   21253; 21547; 26089; 20013; 26202; 30340; 20851; 38190; 27963; 21160; 21644; 24515;
   22659; 65292; 21487; 20197; 26159; 24037; 20316; 23398; 20064; 65292; 20063; 21487;
   20197; 26159; 23089; 20048; 25918; 26494; 65292; 35831; 26681; 25454; 26085; 26399;
   23646; 24615; 65288; 24037; 20316; 26085; 47; 21608; 26411; 47; 33410; 26085; 65289;
   21512; 29702; 23433; 25490; 12290; 10; 10; 35; 35; 32; 79; 117; 116; 112; 117; 116;
   32; 70; 111; 114; 109; 97; 116; 10; 35831; 21153; 24517; 20005; 26684; 36981; 24490;
   32; 74; 83; 79; 78; 32; 26684; 24335; 36820; 22238; 65292; 19981; 35201; 21253;
   21547; 32; 77; 97; 114; 107; 100; 111; 119; 110; 32; 20195; 30721; 22359; 26631;
   35760; 65288; 22914; 32; 96; 96; 96; 106; 115; 111; 110; 65289; 65292; 20063; 19981;
   35201; 21253; 21547; 20219; 20309; 39069; 22806; 30340; 35299; 37322; 25991; 26412;
   12290; 10; 26684; 24335; 22914; 19979; 65306; 10; 123; 123; 10; 32; 32; 32; 32; 34;
   111; 117; 116; 102; 105; 116; 34; 58; 32; 34; 19968; 21477; 35805; 25551; 36848;
   31359; 25645; 34; 44; 10; 32; 32; 32; 32; 34; 115; 99; 104; 101; 100; 117; 108; 101;
   34; 58; 32; 34; 19968; 27573; 35805; 25551; 36848; 20170; 26085; 26085; 31243; 34;
   10; 125; 125; 10].

Definition default_outfit_desc : pystr :=
  [19968; 21477; 35805; 25551; 36848; 65292; 32467; 21512; 22825; 27668; 12289; 24515;
   24773; 21644; 20170; 26085; 27963; 21160; 12290].

(** [SchedulerConfig()] *)
Definition default_config : SchedulerConfig :=
  {| schedule_time := VStr (lit "07:00");
     reference_history_days := VInt 3;
     reference_chats := [];
     prompt_template := VStr default_prompt_template;
     outfit_desc := VStr default_outfit_desc |}.

(** The keys [from_dict] looks at. *)
Definition config_keys : list pystr :=
  [lit "schedule_time"; lit "reference_history_days"; lit "reference_chats";
   lit "prompt_template"; lit "outfit_desc"].

Section WithBuiltins.
(** [str(v)] for a value that is not a [str], [int(s)] for a [str] and
    [int(x)] for a float. *)
Variable repr_of : pyval -> pystr.
Variable int_of_str : pystr -> py Z.
Variable int_of_float : pystr -> py Z.

(** [str(v)] *)
Definition py_str (v : pyval) : pystr :=
  match v with
  | VStr s => s
  | _ => repr_of v
  end.

(** [int(v)]; [None], lists and dicts raise [TypeError]. *)
Definition py_int (v : pyval) : py Z :=
  match v with
  | VInt z => Return z
  | VBool b => Return (if b then 1 else 0)%Z
  | VStr s => int_of_str s
  | VFloat x => int_of_float x
  | VNone | VList _ | VDict _ => Raise
  end.

(** [ChatReference.from_dict] *)
Definition chat_from_dict (data : pyval) : py ChatReference :=
  match data with
  | VDict d =>
    match py_int (get_or (lit "count") (VInt 20) d) with
    | Return n => Return {| umo := py_str (get_or (lit "umo") (VStr []) d); count := n |}
    | Raise => Raise
    end
  | _ => Return {| umo := []; count := 20 |}
  end.

(** [ChatReference.to_dict] *)
Definition chat_to_dict (r : ChatReference) : pyval :=
  VDict [(lit "umo", VStr (umo r)); (lit "count", VInt (count r))].

(** [[ChatReference.from_dict(r) for r in refs if isinstance(r, dict)]] *)
Fixpoint chats_from_list (refs : list pyval) : py (list ChatReference) :=
  match refs with
  | [] => Return []
  | r :: rest =>
    match r with
    | VDict _ =>
      match chat_from_dict r with
      | Raise => Raise
      | Return c =>
        match chats_from_list rest with
        | Raise => Raise
        | Return cs => Return (c :: cs)
        end
      end
    | _ => chats_from_list rest
    end
  end.

(** [SchedulerConfig.from_dict] *)
Definition from_dict (data : pyval) : py SchedulerConfig :=
  match data with
  | VDict d =>
    let time := get_or (lit "schedule_time") (VStr (lit "07:00")) d in
    let days := get_or (lit "reference_history_days") (VInt 3) d in
    let chats :=
      match get_or (lit "reference_chats") (VList []) d with
      | VList refs => chats_from_list refs
      | _ => Return (reference_chats default_config)
      end in
    match chats with
    | Raise => Raise
    | Return cs =>
      Return {| schedule_time := time;
                reference_history_days := days;
                reference_chats := cs;
                prompt_template :=
                  match lookup_key (lit "prompt_template") d with
                  | Some v => v
                  | None => prompt_template default_config
                  end;
                outfit_desc :=
                  match lookup_key (lit "outfit_desc") d with
                  | Some v => v
                  | None => outfit_desc default_config
                  end |}
    end
  | _ => Return default_config
  end.

(** [SchedulerConfig.to_dict] *)
Definition to_dict (c : SchedulerConfig) : pyval :=
  VDict [(lit "schedule_time", schedule_time c);
         (lit "reference_history_days", reference_history_days c);
         (lit "reference_chats", VList (map chat_to_dict (reference_chats c)));
         (lit "prompt_template", prompt_template c);
         (lit "outfit_desc", outfit_desc c)].

(** How reading and decoding [config.json] ends: a value, a
    [JSONDecodeError], or another exception. *)
Inductive load_outcome :=
| LoadedValue (v : pyval)
| NotJson
| LoadFailed.

(** [json.load] on the text of the file. *)
Variable json_load : pystr -> load_outcome.

(** [Main.load_config]; [file] is the content of [config.json], if the file
    exists. *)
Definition load_config (file : option pystr) : SchedulerConfig :=
  match file with
  | None => default_config
  | Some text =>
    match json_load text with
    | LoadedValue data =>
      match from_dict data with
      | Return c => c
      | Raise => default_config
      end
    | NotJson => default_config
    | LoadFailed => default_config
    end
  end.

End WithBuiltins.

(** A file that sets the time and names one chat with a count that is no
    number. *)
Definition bad_count_file : pyval :=
  VDict [(lit "schedule_time", VStr (lit "08:30"));
         (lit "reference_chats",
          VList [VDict [(lit "umo", VStr (lit "u")); (lit "count", VStr (lit "many"))]])].

End Config.

(* ===================================================================== *)
(** ** The scheduler of [core/schedule.py]                               *)
(* ===================================================================== *)

Module CoreSchedule.
Import Text Extractor Command.

(** The fields of the object that change: the configured time, the
    registered job with its hour and minute, and whether the underlying
    scheduler runs. *)
Record LifeScheduler := {
  schedule_time : pystr;
  job : option (Z * Z);
  running : bool
}.

Section WithLibrary.
(** [int(s)] for a [str], and whether the scheduling library builds a cron
    trigger from an hour and a minute. *)
Variable int_of_str : pystr -> py Z.
Variable cron_accepts : Z -> Z -> bool.

(** [hour, minute = map(int, t.split(":"))] *)
Definition hour_minute (t : pystr) : py (Z * Z) :=
  match split_on colon t with
  | [a; b] =>
    match int_of_str a with
    | Raise => Raise
    | Return h =>
      match int_of_str b with
      | Raise => Raise
      | Return m => Return (h, m)
      end
    end
  | _ => Raise
  end.

(** [__init__] *)
Definition init (configured : pystr) : LifeScheduler :=
  {| schedule_time := configured; job := None; running := false |}.

Definition start (s : LifeScheduler) : LifeScheduler :=
  match hour_minute (schedule_time s) with
  | Raise => s
  | Return (h, m) =>
    if cron_accepts h m
    then {| schedule_time := schedule_time s; job := Some (h, m); running := true |}
    else s
  end.

Definition stop (s : LifeScheduler) : LifeScheduler :=
  if running s
  then {| schedule_time := schedule_time s; job := job s; running := false |}
  else s.

(** The hour and minute are read from [self.schedule_time] before it is
    overwritten. *)
Definition update_schedule_time (new_time : pystr) (s : LifeScheduler) : LifeScheduler :=
  if bool_decide (new_time = schedule_time s) then s
  else
    match hour_minute (schedule_time s) with
    | Raise => s
    | Return (h, m) =>
      match job s with
      | Some _ =>
        if cron_accepts h m
        then {| schedule_time := new_time; job := Some (h, m); running := running s |}
        else {| schedule_time := new_time; job := job s; running := running s |}
      | None => {| schedule_time := new_time; job := None; running := running s |}
      end
    end.

End WithLibrary.

End CoreSchedule.

(* ===================================================================== *)
(** ** [core/utils.py]: [time_desc]                                      *)
(* ===================================================================== *)

Module Utils.
Import Text.

Definition late_night : pystr := [28145; 22812].
Definition early_morning : pystr := [28165; 26216].
Definition morning : pystr := [19978; 21320].
Definition noon : pystr := [20013; 21320].
Definition afternoon : pystr := [19979; 21320].
Definition evening : pystr := [26202; 19978].

(** [time_desc(h)] for an integer or missing [h]; [now_hour] is
    [datetime.datetime.now().hour].  [h or ...] takes the clock for [None]
    and for 0. *)
Definition time_desc (h : option Z) (now_hour : Z) : pystr :=
  let h0 := match h with
            | Some x => if (x =? 0)%Z then now_hour else x
            | None => now_hour
            end in
  let h1 := (h0 mod 24)%Z in
  if (h1 <? 6)%Z then late_night
  else if (h1 <? 9)%Z then early_morning
  else if (h1 <? 12)%Z then morning
  else if (h1 <? 14)%Z then noon
  else if (h1 <? 18)%Z then afternoon
  else if (h1 <? 22)%Z then evening
  else late_night.

End Utils.

(* ===================================================================== *)
(** ** The plugin over several commands                                  *)
(* ===================================================================== *)

Module Session.
Import Text Json Pipeline Files Command.

Section WithScheduler.
Variable cron_accepts : pystr -> pystr -> bool.
Variable dumps_config : SchedulerConfig -> pystr.
Variable nt : bool.

(** The fields [Main.__init__] sets up: the loaded configuration and a
    scheduler built from its time and started. *)
Definition booted (cfg : SchedulerConfig) (fs : files) : plugin :=
  {| config := cfg;
     scheduler := start cron_accepts (schedule_time cfg);
     config_files := fs |}.

(** One [time] command after the other, each with its argument and with
    how far its save gets. *)
Definition time_commands (commands : list (save_run * pystr)) (p : plugin) : plugin :=
  fold_left (fun q c => (life_command_time cron_accepts dumps_config nt c.1 c.2 q).1)
            commands p.

End WithScheduler.

End Session.

(* ===================================================================== *)
(** ** The two locks, for any mix of handlers                            *)
(* ===================================================================== *)

Module Locks.
Import Text Json Extractor Pipeline Guard.

(** Spec side: the points at which a handler is inside [save_data]'s
    [data_lock] block. *)
Definition in_save (p : pc) : bool :=
  match p with
  | LSaving | USaving _ => true
  | _ => false
  end.

(** Spec side: the handler has returned or was left by an exception. *)
Definition finished (p : pc) : bool :=
  match p with
  | Done | Crashed => true
  | _ => false
  end.

(** Spec side: the handler has just been entered. *)
Definition at_start (p : pc) : bool :=
  match p with
  | LStart _ | UStart _ => true
  | _ => false
  end.

(** Spec side: a point of the cron job or of the regenerate command, or the
    end of a handler. *)
Definition unguarded (p : pc) : bool :=
  match p with
  | UStart _ | UAwait _ | UResult _ _ | USave _ | USaving _ | Done | Crashed => true
  | _ => false
  end.

(** Spec side: as [unguarded], without the points that follow a generation
    that yielded a record. *)
Definition unguarded_without_record (p : pc) : bool :=
  match p with
  | UStart _ | UAwait _ | UResult _ None | Done | Crashed => true
  | _ => false
  end.

(** Spec side: a request that has not got past its tests: at its start,
    waiting for the generation lock, at the re-check under the lock, or
    returned. *)
Definition before_generation (p : pc) : bool :=
  match p with
  | LStart _ | LLock | LRecheck | Done => true
  | _ => false
  end.

(** Spec side: each lock is held exactly when one handler is inside its
    block, and by no more than one. *)
Record lock_inv (st : state) : Prop := {
  gen_free : generation_lock (fields st) = false ->
      forall i t, tasks st !! i = Some t -> holds_lock (at_pc t) = false;
  gen_one : forall i j t u, tasks st !! i = Some t -> tasks st !! j = Some u ->
      holds_lock (at_pc t) = true -> holds_lock (at_pc u) = true -> i = j;
  gen_held : generation_lock (fields st) = true ->
      exists i t, tasks st !! i = Some t /\ holds_lock (at_pc t) = true;
  data_free : data_lock (fields st) = false ->
      forall i t, tasks st !! i = Some t -> in_save (at_pc t) = false;
  data_one : forall i j t u, tasks st !! i = Some t -> tasks st !! j = Some u ->
      in_save (at_pc t) = true -> in_save (at_pc u) = true -> i = j;
  data_held : data_lock (fields st) = true ->
      exists i t, tasks st !! i = Some t /\ in_save (at_pc t) = true
}.

End Locks.

(* ===================================================================== *)
(** ** Texts the extractor meets                                         *)
(* ===================================================================== *)

Module Answers.
Import Text Json Extractor.

(** Spec side: what stands between the quotes of a string: a character
    that is neither a quote nor a backslash, or a backslash followed by any
    character. *)
Inductive str_item :=
| Plain (c : char)
| Escaped (c : char).

Definition item_ok (it : str_item) : bool :=
  match it with
  | Plain c => negb (c =? dquote) && negb (c =? backslash)
  | Escaped _ => true
  end.

Definition item_text (it : str_item) : pystr :=
  match it with
  | Plain c => [c]
  | Escaped c => [backslash; c]
  end.

(** Spec side: the text of a string with these items, quotes included. *)
Definition string_text (items : list str_item) : pystr :=
  dquote :: concat (map item_text items) ++ [dquote].

(** Spec side: the scan variables inside a string, between two items. *)
Definition inside (level : Z) : scan_state :=
  {| brace_level := level; in_string := true; escape := false |}.

(** Spec side: [body] between a [```json] line and a closing fence line. *)
Definition fenced (body : pystr) : pystr :=
  fence_json ++ [newline] ++ body ++ [newline] ++ fence.

(** Spec side: the pieces of the text of a JSON object: a quoted string, a
    character that is neither a quote nor a brace, an opening brace, a
    closing brace. *)
Inductive token :=
| TString (items : list str_item)
| TChar (c : char)
| TOpen
| TClose.

Definition token_text (t : token) : pystr :=
  match t with
  | TString items => string_text items
  | TChar c => [c]
  | TOpen => [lbrace]
  | TClose => [rbrace]
  end.

Definition token_ok (t : token) : bool :=
  match t with
  | TString items => forallb item_ok items
  | TChar c => negb (c =? dquote) && negb (c =? lbrace) && negb (c =? rbrace)
  | TOpen | TClose => true
  end.

(** Spec side: read at depth [depth] inside an object, the braces of
    [toks] match each other: the depth never falls below 1 (the outer
    object stays open) and is 1 again at the end. *)
Fixpoint nested (depth : nat) (toks : list token) : bool :=
  match toks with
  | [] => Nat.eqb depth 1
  | t :: rest =>
    token_ok t
    && match t with
       | TOpen => nested (S depth) rest
       | TClose => Nat.leb 2 depth && nested (Nat.pred depth) rest
       | _ => nested depth rest
       end
  end.

(** Spec side: the text of the object with these pieces between its
    braces. *)
Definition object_text (toks : list token) : pystr :=
  lbrace :: concat (map token_text toks) ++ [rbrace].

(** Spec side: the scan variables outside any string, at depth [level]. *)
Definition outside (level : Z) : scan_state :=
  {| brace_level := level; in_string := false; escape := false |}.

(** Spec side: read from [st] on, no character of [s] closes a
    candidate. *)
Fixpoint quiet (st : scan_state) (s : pystr) : bool :=
  match s with
  | [] => true
  | c :: r => negb (closes st c) && quiet (scan_char st c) r
  end.

(** An answer in a fence whose strings hold braces and an escaped quote. *)
Definition escaped_example : list token :=
  [TString (map Plain (lit "outfit")); TChar 58;
   TString [Plain 97; Plain 32; Plain lbrace; Plain 98; Escaped dquote; Plain rbrace];
   TChar 44; TString (map Plain (lit "schedule")); TChar 58; TString [Plain 99]].

(** Spec side: [marker] starts at no position of [s]. *)
Fixpoint never_starts (marker s : pystr) : bool :=
  match s with
  | [] => true
  | _ :: r => negb (starts_with marker s) && never_starts marker r
  end.

End Answers.

(* ===================================================================== *)
(** ** Recent chats for the prompt ([get_recent_chats])                  *)
(* ===================================================================== *)

Module Chats.
Import Text Json Extractor Pipeline.

(** What the conversation manager gives for one chat: a call raises; there
    is no current conversation id, no conversation or no history; or the
    conversation has the history text [h]. *)
Inductive conv_lookup :=
| ManagerRaises
| NoConversation
| HistoryText (h : pystr).

Definition no_recent_record : pystr := [26080; 26368; 36817; 23545; 35805; 35760; 24405].
Definition lookup_failed : pystr :=
  [33719; 21462; 23545; 35805; 35760; 24405; 22833; 36133].
Definition no_recent_chats : pystr := [26080; 36817; 26399; 23545; 35805].
Definition user_prefix : pystr := [29992; 25143; 58; 32].
Definition me_prefix : pystr := [25105; 58; 32].

(** [l[-count:]] for a positive [count] *)
Definition last_items {A : Type} (count : Z) (l : list A) : list A :=
  drop (length l - Z.to_nat count) l.

Section WithBuiltins.
(** [json.loads] on a history text, [Raise] for any exception, and [str]
    of a value that is not a [str], as an f-string formats it. *)
Variable loads_any : pystr -> py json.
Variable str_of : json -> pystr.

Definition format_value (v : json) : pystr :=
  match v with
  | JStr s => s
  | _ => str_of v
  end.

(** [recent = history[-count:] if count > 0 else []], as the items the
    loop will meet: a string gives its characters, and what cannot be
    sliced raises. *)
Definition recent (count : Z) (history : json) : py (list json) :=
  if (0 <? count)%Z then
    match history with
    | JArr items => Return (last_items count items)
    | JStr s => Return (map (fun c => JStr [c]) (last_items count s))
    | _ => Raise
    end
  else Return [].

(** The body of the formatting loop for one message: the line it appends,
    if any.  A message without [get] raises. *)
Definition format_message (msg : json) : py (option pystr) :=
  match msg with
  | JObj d =>
    let role := default (JStr (lit "unknown")) (dict_get (lit "role") d) in
    let content := default (JStr []) (dict_get (lit "content") d) in
    match role with
    | JStr r =>
      if bool_decide (r = lit "user") then Return (Some (user_prefix ++ format_value content))
      else if bool_decide (r = lit "assistant")
           then Return (Some (me_prefix ++ format_value content))
           else Return None
    | _ => Return None
    end
  | _ => Raise
  end.

Fixpoint format_loop (msgs : list json) (formatted : list pystr) : py (list pystr) :=
  match msgs with
  | [] => Return formatted
  | msg :: rest =>
    match format_message msg with
    | Raise => Raise
    | Return (Some line) => format_loop rest (formatted ++ [line])
    | Return None => format_loop rest formatted
    end
  end.

(** [get_recent_chats(context, umo, count)] *)
Definition get_recent_chats (look : conv_lookup) (count : Z) : pystr :=
  match look with
  | ManagerRaises => lookup_failed
  | NoConversation => no_recent_record
  | HistoryText [] => no_recent_record
  | HistoryText h =>
    match loads_any h with
    | Raise => lookup_failed
    | Return history =>
      match recent count history with
      | Raise => lookup_failed
      | Return msgs =>
        match format_loop msgs [] with
        | Raise => lookup_failed
        | Return formatted => join_lines formatted
        end
      end
    end
  end.

(** [f"--- ... {ref.umo} ---\n{chat_content}"] *)
Definition chat_section (umo chat_content : pystr) : pystr :=
  [45; 45; 45; 32; 20250; 35805; 32] ++ umo ++ [32; 45; 45; 45] ++ newline :: chat_content.

(** The loop over [self.config.reference_chats] in
    [generate_schedule_with_llm]; each reference comes with what the
    conversation manager gives when it is asked. *)
Fixpoint chat_sections (refs : list (ChatReference * conv_lookup)) (chats : list pystr)
  : list pystr :=
  match refs with
  | [] => chats
  | (ref, look) :: rest =>
    match get_recent_chats look (count ref) with
    | [] => chat_sections rest chats
    | chat_content => chat_sections rest (chats ++ [chat_section (umo ref) chat_content])
    end
  end.

(** [recent_chats_str] as the prompt gets it. *)
Definition recent_chats_str (refs : list (ChatReference * conv_lookup)) : pystr :=
  let joined := match refs with
                | [] => []
                | _ :: _ => join_lines (chat_sections refs [])
                end in
  match joined with
  | [] => no_recent_chats
  | _ :: _ => joined
  end.

End WithBuiltins.

(** Spec side: the message is a JSON object. *)
Definition is_object (msg : json) : bool :=
  match msg with
  | JObj _ => true
  | _ => false
  end.

End Chats.

(* ===================================================================== *)
(** ** The text added to a request ([on_llm_request], last part)         *)
(* ===================================================================== *)

Module Inject.
Import Text Json Extractor Pipeline.

Definition in_progress : pystr := [36827; 34892; 20013].
Definition just_started : pystr := [21018; 24320; 22987].
Definition about_to_end : pystr := [21363; 23558; 32467; 26463].

(** [status], from the hour of the clock. *)
Definition status (now_hour : Z) : pystr :=
  if (now_hour <? 9)%Z then just_started
  else if (22 <? now_hour)%Z then about_to_end
  else in_progress.

Definition background_head : pystr :=
  [10; 91; 32972; 26223; 35774; 23450; 93; 10; 24403; 21069; 26102; 27573; 29366; 24577;
   65306].
Definition outfit_head : pystr := [10; 20170; 26085; 31359; 25645; 65306].
Definition schedule_head : pystr := [10; 38544; 21547; 26085; 31243; 32972; 26223; 65306].
Definition constraint_tail : pystr :=
  [10; 10; 91; 24378; 21046; 32422; 26463; 93; 10; 20197; 19978; 20449; 24687; 20165;
   20316; 20026; 20016; 23500; 20320; 22238; 22797; 35821; 27668; 30340; 28508; 24847;
   35782; 32972; 26223; 65292; 42; 42; 32477; 23545; 31105; 27490; 42; 42; 20027; 21160;
   21521; 29992; 25143; 27719; 25253; 25110; 25552; 21450; 20320; 30340; 26085; 31243;
   23433; 25490; 65292; 38500; 38750; 29992; 25143; 26126; 30830; 35810; 38382; 12290].

Section WithBuiltins.
(** [str] of what [info.get(k)] gives when that is no [str]: another
    value, or [None] for a missing key. *)
Variable str_of : option json -> pystr.

Definition format_entry (v : option json) : pystr :=
  match v with
  | Some (JStr s) => s
  | _ => str_of v
  end.

(** [inject_text] *)
Definition inject_text (now_hour : Z) (info : dict) : pystr :=
  background_head ++ status now_hour
  ++ outfit_head ++ format_entry (dict_get (lit "outfit") info)
  ++ schedule_head ++ format_entry (dict_get (lit "schedule") info)
  ++ constraint_tail.

(** From [if today_str in self.schedule_data:] to the end of the handler:
    the new [req.system_prompt], or the exception of a cached value that
    has no [get]. *)
Definition inject (data : store) (today_str : pystr) (now_hour : Z)
           (system_prompt : pystr) : py pystr :=
  match data !! today_str with
  | None => Return system_prompt
  | Some (JObj info) => Return (system_prompt ++ inject_text now_hour info)
  | Some _ => Raise
  end.

End WithBuiltins.

End Inject.

(* ===================================================================== *)
(** * Properties                                                         *)
(* ===================================================================== *)

Module ExtractorFacts.
Import Text Json Extractor Pipeline.

Lemma state_after_snoc (p : pystr) (c : char) :
  state_after (p ++ [c]) = scan_char (state_after p) c.
Proof. unfold state_after. by rewrite fold_left_app. Qed.

Lemma closes_spec (p : pystr) (c : char) :
  closes (state_after p) c = true <->
  c = rbrace /\ in_string (state_after p) = false /\
  brace_level (state_after (p ++ [c])) = 0%Z.
Proof.
  rewrite state_after_snoc. unfold closes, scan_char.
  destruct (in_string (state_after p)) eqn:Hin; simpl.
  - split; [done | intros (_ & ? & _); done].
  - destruct (N.eqb_spec c dquote) as [-> | Hq]; simpl.
    + split; [done | intros (? & _); done].
    + destruct (N.eqb_spec c lbrace) as [-> | Hl]; simpl.
      * split; [done | intros (? & _); done].
      * destruct (N.eqb_spec c rbrace) as [-> | Hr]; simpl.
        -- rewrite Z.eqb_eq. tauto.
        -- split; [done | intros (? & _); done].
Qed.

(** The candidate of a given length is the prefix of that length. *)
Lemma candidate_prefix (pre rest c : pystr) (x : char) :
  is_candidate (pre ++ x :: rest) c -> length c = S (length pre) ->
  c = pre ++ [x] /\ closes (state_after pre) x = true.
Proof.
  intros (p & tl & Hc & Hbody & Hin & Hlvl) Hlen.
  assert (Hcx : c = pre ++ [x]).
  { assert (H1 : take (S (length pre)) (pre ++ x :: rest) = pre ++ [x]).
    { replace (pre ++ x :: rest) with ((pre ++ [x]) ++ rest) by (by rewrite <- app_assoc).
      apply take_app_length'. rewrite length_app. simpl. lia. }
    rewrite Hbody in H1. rewrite take_app_length' in H1 by done. done. }
  split; [done |].
  rewrite Hcx in Hc. apply app_inj_tail in Hc as [-> ->].
  apply closes_spec. rewrite <- Hcx. done.
Qed.

Lemma prefix_candidate (pre rest : pystr) (x : char) :
  closes (state_after pre) x = true -> is_candidate (pre ++ x :: rest) (pre ++ [x]).
Proof.
  intros (-> & Hin & Hlvl)%closes_spec.
  exists pre, rest. repeat split; try done.
  by rewrite <- app_assoc.
Qed.

(** Two facts about one call that disagree. *)
Ltac clash :=
  match goal with
  | H1 : ?f ?a = _, H2 : ?f ?a = _ |- _ => rewrite H1 in H2; by simplify_eq
  | H1 : ?f ?a ?b = _, H2 : ?f ?a ?b = _ |- _ => rewrite H1 in H2; by simplify_eq
  end.

Section Scan.
Variable loads : pystr -> loads_result.

Lemma scan_found (rest pre : pystr) (d : dict) :
  scan loads (pre ++ rest) (length pre) (state_after pre) rest = Return (Some d)
  <-> found loads (pre ++ rest) (length pre) d.
Proof.
  revert pre. induction rest as [| x rest IH]; intros pre.
  - simpl. split; [done |].
    intros (c & (p & tl & Hc & Hbody & _) & Hlt & _).
    apply (f_equal length) in Hbody. rewrite !length_app in Hbody. simpl in Hbody. lia.
  - simpl.
    assert (Hbody : pre ++ x :: rest = (pre ++ [x]) ++ rest) by by rewrite <- app_assoc.
    assert (Htake : take (S (length pre)) (pre ++ x :: rest) = pre ++ [x]).
    { rewrite Hbody. apply take_app_length'. rewrite length_app. simpl. lia. }
    assert (Hlen : S (length pre) = length (pre ++ [x])) by (rewrite length_app; simpl; lia).
    specialize (IH (pre ++ [x])).
    rewrite <- Hbody, <- Hlen, state_after_snoc in IH.
    destruct (closes (state_after pre) x) eqn:Hcl.
    + pose proof (prefix_candidate pre rest x Hcl) as Hcand.
      rewrite Htake.
      destruct (loads (pre ++ [x])) as [d' | |] eqn:Hl.
      * split.
        -- intros [= ->]. exists (pre ++ [x]). repeat split; try done; [lia |].
           intros q _ ?. lia.
        -- intros (c & Hc & Hlt & Hld & Hbefore).
           destruct (decide (length c = S (length pre))) as [He | Hne].
           ++ apply candidate_prefix in Hc as [-> _]; [| done]. clash.
           ++ rewrite (Hbefore _ Hcand) in Hl; [done | lia].
      * rewrite IH. split.
        -- intros (c & Hc & Hlt & Hld & Hbefore). exists c. repeat split; try done; [lia |].
           intros q Hq Hb.
           destruct (decide (length q = S (length pre))) as [He | Hne].
           ++ apply candidate_prefix in Hq as [-> _]; done.
           ++ apply Hbefore; [done | lia].
        -- intros (c & Hc & Hlt & Hld & Hbefore).
           destruct (decide (length c = S (length pre))) as [He | Hne].
           ++ pose proof Hc as Hc'. apply candidate_prefix in Hc' as [-> _]; [| done]. clash.
           ++ exists c. repeat split; try done; [lia |].
              intros q Hq Hb. apply Hbefore; [done | lia].
      * split; [done |].
        intros (c & Hc & Hlt & Hld & Hbefore).
        destruct (decide (length c = S (length pre))) as [He | Hne].
        -- apply candidate_prefix in Hc as [-> _]; [| done]. clash.
        -- rewrite (Hbefore _ Hcand) in Hl; [done | lia].
    + rewrite IH. split.
      * intros (c & Hc & Hlt & Hld & Hbefore). exists c. repeat split; try done; [lia |].
        intros q Hq Hb.
        destruct (decide (length q = S (length pre))) as [He | Hne].
        -- apply candidate_prefix in Hq as [_ Hq]; [clash | done].
        -- apply Hbefore; [done | lia].
      * intros (c & Hc & Hlt & Hld & Hbefore).
        destruct (decide (length c = S (length pre))) as [He | Hne].
        -- pose proof Hc as Hc'. apply candidate_prefix in Hc' as [_ Hq]; [clash | done].
        -- exists c. repeat split; try done; [lia |].
           intros q Hq Hb. apply Hbefore; [done | lia].
Qed.

Lemma scan_none (rest pre : pystr) :
  scan loads (pre ++ rest) (length pre) (state_after pre) rest = Return None
  <-> none_parses loads (pre ++ rest) (length pre).
Proof.
  revert pre. induction rest as [| x rest IH]; intros pre.
  - simpl. split; [| done].
    intros _ q (p & tl & Hc & Hbody & _) Hlt.
    apply (f_equal length) in Hbody. rewrite !length_app in Hbody. simpl in Hbody. lia.
  - simpl.
    assert (Hbody : pre ++ x :: rest = (pre ++ [x]) ++ rest) by by rewrite <- app_assoc.
    assert (Htake : take (S (length pre)) (pre ++ x :: rest) = pre ++ [x]).
    { rewrite Hbody. apply take_app_length'. rewrite length_app. simpl. lia. }
    assert (Hlen : S (length pre) = length (pre ++ [x])) by (rewrite length_app; simpl; lia).
    specialize (IH (pre ++ [x])).
    rewrite <- Hbody, <- Hlen, state_after_snoc in IH.
    destruct (closes (state_after pre) x) eqn:Hcl.
    + pose proof (prefix_candidate pre rest x Hcl) as Hcand.
      rewrite Htake.
      destruct (loads (pre ++ [x])) as [d' | |] eqn:Hl.
      * split; [done |]. intros Hn. rewrite (Hn _ Hcand) in Hl; [done | lia].
      * rewrite IH. split.
        -- intros Hn q Hq Hlt.
           destruct (decide (length q = S (length pre))) as [He | Hne].
           ++ apply candidate_prefix in Hq as [-> _]; done.
           ++ apply Hn; [done | lia].
        -- intros Hn q Hq Hlt. apply Hn; [done | lia].
      * split; [done |]. intros Hn. rewrite (Hn _ Hcand) in Hl; [done | lia].
    + rewrite IH. split.
      * intros Hn q Hq Hlt.
        destruct (decide (length q = S (length pre))) as [He | Hne].
        -- apply candidate_prefix in Hq as [_ Hq]; [clash | done].
        -- apply Hn; [done | lia].
      * intros Hn q Hq Hlt. apply Hn; [done | lia].
Qed.

End Scan.

(** What the extractor returns, in terms of the candidates of the cleaned
    text. *)
Lemma first_candidate_that_parses (loads : pystr -> loads_result) (text : pystr) :
  match from_first lbrace (clean text) with
  | None => extract_json_from_text loads text = Return None
  | Some body =>
    (forall d, extract_json_from_text loads text = Return (Some d) <-> found loads body 0 d)
    /\ (extract_json_from_text loads text = Return None <-> none_parses loads body 0)
  end.
Proof.
  unfold extract_json_from_text.
  destruct (from_first lbrace (clean text)) as [body |]; [| done].
  split.
  - intros d. apply (scan_found loads body [] d).
  - apply (scan_none loads body []).
Qed.

(** C4, as stated, fails: an object without the two fields is returned,
    not rejected. *)
Lemma extract_accepts_object_without_fields :
  exists d, extract_json_from_text Json.loads (lbrace :: quoted "a" ++ lit ":1}") = Return (Some d)
            /\ dict_get (lit "outfit") d = None /\ dict_get (lit "schedule") d = None.
Proof. eexists. split; [by vm_compute | by vm_compute]. Qed.

End ExtractorFacts.

Module PipelineFacts.
Import Text Json Extractor Pipeline.

(** C5: when the provider was called and answered with a text from which
    nothing is extracted, the pipeline returns (it does not raise, and it
    does not return [None]) the record whose [outfit] is the fixed
    placeholder and whose [schedule] is the whole text. *)
Theorem fallback_on_unparsable_text (loads : pystr -> loads_result)
        (repr_list : list json -> pystr) (cfg : SchedulerConfig) (data : store)
        (today : Z) (env : gen_env) (content : pystr) :
  text_chat_calls repr_list cfg data today env = 1%nat ->
  answer env = ChatText content ->
  extract_json_from_text loads content = Return None ->
  generate_schedule_with_llm loads repr_list cfg data today env
    = Return (Some (fallback content))
  /\ dict_get (lit "outfit") (fallback content) = Some (JStr default_outfit)
  /\ dict_get (lit "schedule") (fallback content) = Some (JStr content).
Proof.
  intros Hcalls Hans Hext.
  split; [| split; by vm_compute].
  unfold generate_schedule_with_llm, text_chat_calls in *.
  destruct (history_schedules repr_list cfg data today); [| done].
  destruct (prompt_ok env); [| done].
  destruct (provider env); [| done].
  simpl. rewrite Hans. unfold on_response, on_content. by rewrite Hext.
Qed.

Lemma fallback_on_unparsable_text_witness :
  text_chat_calls (fun _ => []) example_config ∅ 738946
    (answering (lit "no json here")) = 1%nat
  /\ answer (answering (lit "no json here")) = ChatText (lit "no json here")
  /\ extract_json_from_text Json.loads (lit "no json here") = Return None
  /\ generate_schedule_with_llm Json.loads (fun _ => []) example_config ∅ 738946
       (answering (lit "no json here"))
     = Return (Some (fallback (lit "no json here"))).
Proof.
  assert (H1 : text_chat_calls (fun _ => []) example_config ∅ 738946
                 (answering (lit "no json here")) = 1%nat) by by vm_compute.
  assert (H2 : answer (answering (lit "no json here")) = ChatText (lit "no json here"))
    by reflexivity.
  assert (H3 : extract_json_from_text Json.loads (lit "no json here") = Return None)
    by by vm_compute.
  split; [exact H1 | split; [exact H2 | split; [exact H3 |]]].
  exact (proj1 (fallback_on_unparsable_text Json.loads (fun _ => []) example_config ∅
                  738946 (answering (lit "no json here")) (lit "no json here")
                  H1 H2 H3)).
Defined.

Lemma elem_of_range1 (d i : Z) : i ∈ range1 d <-> (1 <= i <= d)%Z.
Proof.
  unfold range1. rewrite list_elem_of_fmap. split.
  - intros (n & -> & Hn). apply list_elem_of_In, in_seq in Hn. lia.
  - intros Hi. exists (Z.to_nat i). split; [lia |].
    apply list_elem_of_In, in_seq. lia.
Qed.

(** C7, as stated, fails: with the two previous days cached the line of the
    later day comes first, so the lines are not in order from oldest to
    newest. *)
Lemma history_not_oldest_first :
  history_schedules (fun _ => []) example_config two_days_cached 738946
  = Return [history_line (lit "2024-02-29") (lit "b");
            history_line (lit "2024-02-28") (lit "a")]
  /\ history_schedules (fun _ => []) example_config two_days_cached 738946
     <> Return [history_line (lit "2024-02-28") (lit "a");
                history_line (lit "2024-02-29") (lit "b")].
Proof. split; [by vm_compute | by vm_compute]. Qed.

End PipelineFacts.

Module DataFacts.
Import Text Extractor Calendar Data.

Lemma digit_is_ascii (n : Z) : is_ascii_digit (digit n) = true.
Proof.
  unfold is_ascii_digit, digit.
  pose proof (Z.mod_pos_bound n 10 ltac:(lia)).
  apply andb_true_intro. split; apply N.leb_le; lia.
Qed.

Lemma isoformat_canonical (d : Calendar.date) : canonical (isoformat d) = true.
Proof.
  unfold isoformat, pad4, pad2, canonical. simpl.
  rewrite !digit_is_ascii. done.
Qed.

Section WithTimestamps.
Context {T : Type}.
Variable fromtimestamp : T -> py Calendar.date.

Lemma to_date_str_canonical (d : DateLike T) (k : pystr) :
  to_date_str fromtimestamp d = Return k -> canonical k = true.
Proof.
  destruct d as [c ? | c | t]; simpl.
  - intros [= <-]. apply isoformat_canonical.
  - intros [= <-]. apply isoformat_canonical.
  - destruct (fromtimestamp t); [| done]. intros [= <-]. apply isoformat_canonical.
Qed.

Lemma keyed_new : keyed (new : manager).
Proof. intros k v. unfold new. by rewrite lookup_empty. Qed.

Lemma keyed_set (m : manager) (r : ScheduleData) : keyed m -> keyed (set m r).
Proof.
  intros Hm k v. unfold set.
  destruct (decide (date r = k)) as [<- | Hne].
  - rewrite lookup_insert_eq. by intros [= <-].
  - rewrite lookup_insert_ne by done. apply Hm.
Qed.

Lemma keyed_after_call (m : manager) (c : call) :
  keyed m -> keyed (after_call fromtimestamp m c).
Proof.
  intros Hm. destruct c as [r | d]; simpl.
  - by apply keyed_set.
  - unfold remove. destruct (to_date_str fromtimestamp d) as [k |]; [| done].
    intros k' v. destruct (decide (k = k')) as [<- | Hne].
    + by rewrite lookup_delete_eq.
    + rewrite lookup_delete_ne by done. apply Hm.
Qed.

Lemma keyed_fold (calls : list call) (m : manager) :
  keyed m -> keyed (fold_left (after_call fromtimestamp) calls m).
Proof.
  revert m. induction calls as [| c rest IH]; intros m Hm; simpl; [done |].
  apply IH. by apply keyed_after_call.
Qed.

Lemma keyed_after_calls (calls : list call) : keyed (after_calls fromtimestamp calls).
Proof. apply keyed_fold, keyed_new. Qed.

End WithTimestamps.

(** A record whose date is written with slashes is filed under that text
    and is not found under the day it means, by date or by timestamp. *)
Example slashed_date_not_found :
  let r := {| date := lit "2024/03/01"; outfit := []; schedule := []; status := ok |} in
  set new r !! lit "2024/03/01" = Some r
  /\ get utc_fromtimestamp (set new r) (OfDate {| year := 2024; month := 3; day := 1 |})
     = Return None
  /\ get utc_fromtimestamp (set new r) (OfTimestamp 1709290800%Z) = Return None
  /\ to_date_str utc_fromtimestamp (OfTimestamp 1709290800%Z) = Return (lit "2024-03-01").
Proof. by vm_compute. Qed.

End DataFacts.

Module FilesFacts.
Import Text Files.

Lemma run_ops_app (a b : list op) (fs : files) :
  run_ops (a ++ b) fs = run_ops b (run_ops a fs).
Proof. unfold run_ops. apply fold_left_app. Qed.

Lemma spared_canonical (ops : list op) (fs : files) :
  Forall spares_canonical ops -> canonical (run_ops ops fs) = canonical fs.
Proof.
  revert fs. induction ops as [| o ops IH]; intros fs Hall; [done |].
  apply Forall_cons in Hall as [Ho Hops].
  change (run_ops (o :: ops) fs) with (run_ops ops (apply_op fs o)).
  rewrite IH by done. by destruct o.
Qed.

Lemma writes_append (pieces : list pystr) (fs : files) (sofar : pystr) :
  temporary fs = Some sofar ->
  temporary (run_ops (map WriteChunk pieces) fs) = Some (sofar ++ concat pieces).
Proof.
  revert fs sofar. induction pieces as [| x pieces IH]; intros fs sofar Ht; simpl.
  - by rewrite app_nil_r.
  - change (run_ops (WriteChunk x :: map WriteChunk pieces) fs)
      with (run_ops (map WriteChunk pieces) (apply_op fs (WriteChunk x))).
    rewrite (IH _ (sofar ++ x)); [by rewrite <- app_assoc |].
    simpl. by rewrite Ht.
Qed.

Lemma fill_spares (pieces : list pystr) : Forall spares_canonical (fill_ops pieces).
Proof.
  unfold fill_ops. apply Forall_app. split; [by repeat constructor |].
  apply Forall_app. split; [| by repeat constructor].
  apply Forall_forall. intros o (x & -> & _)%list_elem_of_fmap. done.
Qed.

Lemma fill_result (pieces : list pystr) (fs : files) :
  run_ops (fill_ops pieces) fs
  = {| canonical := canonical fs; temporary := Some (concat pieces) |}.
Proof.
  pose proof (spared_canonical (fill_ops pieces) fs (fill_spares pieces)) as Hc.
  assert (Ht : temporary (run_ops (fill_ops pieces) fs) = Some (concat pieces)).
  { unfold fill_ops. rewrite !run_ops_app. simpl.
    by rewrite (writes_append pieces _ []). }
  destruct (run_ops (fill_ops pieces) fs). simpl in *. by subst.
Qed.

Lemma save_result (nt : bool) (text : pystr) (fs : files) :
  save nt text fs = {| canonical := Some text; temporary := None |}.
Proof.
  unfold save, save_ops, run_ops.
  destruct (nt && bool_decide (is_Some (canonical fs))); simpl;
    destruct (temporary fs); done.
Qed.

Lemma save_ops_split (nt : bool) (pieces : list pystr) (fs : files) :
  save_ops nt pieces fs
  = fill_ops pieces
    ++ (if nt && bool_decide (is_Some (canonical fs)) then [RemoveCanonical] else [])
    ++ [ReplaceCanonical].
Proof. unfold save_ops, fill_ops. by rewrite <- !app_assoc. Qed.

(** X29: A save that nothing overlaps.  Whatever the pieces in which the text
    reaches the temporary file and wherever the save stops: off Windows the
    canonical file is the previous snapshot or the whole new text; on
    Windows it is one of these or missing, because the file is removed
    before the rename.  A save that reaches its end leaves the whole new
    text. *)
Theorem snapshot_old_or_new (nt : bool) (pieces : list pystr) (text : pystr)
        (fs : files) (k : nat) :
  concat pieces = text ->
  (canonical (crash_after k false pieces fs) = canonical fs
   \/ canonical (crash_after k false pieces fs) = Some text)
  /\ (canonical (crash_after k true pieces fs) = canonical fs
      \/ canonical (crash_after k true pieces fs) = None
      \/ canonical (crash_after k true pieces fs) = Some text)
  /\ (length (save_ops nt pieces fs) <= k ->
      canonical (crash_after k nt pieces fs) = Some text)%nat.
Proof.
  intros <-. unfold crash_after.
  split; [| split].
  - rewrite save_ops_split. cbn [andb app]. rewrite take_app.
    destruct (decide (k <= length (fill_ops pieces))%nat) as [Hle | Hgt].
    + left. replace (k - length (fill_ops pieces))%nat with 0%nat by lia.
      rewrite take_0, app_nil_r.
      apply spared_canonical, Forall_take, fill_spares.
    + right. rewrite take_ge by lia.
      rewrite (take_ge [ReplaceCanonical])
        by (change (length [ReplaceCanonical]) with 1%nat; lia).
      by rewrite run_ops_app, fill_result.
  - rewrite save_ops_split. cbn [andb]. rewrite take_app.
    destruct (decide (k <= length (fill_ops pieces))%nat) as [Hle | Hgt].
    + left. replace (k - length (fill_ops pieces))%nat with 0%nat by lia.
      rewrite take_0, app_nil_r.
      apply spared_canonical, Forall_take, fill_spares.
    + right. rewrite (take_ge (fill_ops pieces)) by lia.
      rewrite run_ops_app, fill_result.
      destruct (k - length (fill_ops pieces))%nat as [| [| n]] eqn:E; [lia | |];
        destruct (bool_decide (is_Some (canonical fs)));
        simpl; rewrite ?take_nil; simpl; auto.
  - intros Hk. rewrite take_ge by done.
    rewrite save_ops_split, run_ops_app, fill_result.
    destruct (nt && bool_decide (is_Some (canonical fs))); done.
Qed.

Lemma snapshot_old_or_new_witness :
  concat [lit "{"; lit "}"] = lit "{}"
  /\ (canonical (crash_after 2 false [lit "{"; lit "}"]
                             {| canonical := Some (lit "old"); temporary := None |})
      = Some (lit "old")
      \/ canonical (crash_after 2 false [lit "{"; lit "}"]
                                {| canonical := Some (lit "old"); temporary := None |})
         = Some (lit "{}")).
Proof.
  assert (H1 : concat [lit "{"; lit "}"] = lit "{}") by reflexivity.
  split; [exact H1 |].
  exact (proj1 (snapshot_old_or_new false [lit "{"; lit "}"] (lit "{}")
                  {| canonical := Some (lit "old"); temporary := None |} 2 H1)).
Defined.



(** C6: the saves are not atomic, in two ways.  On Windows the canonical
    file is removed before the rename, so a process that dies between the
    two calls leaves no snapshot at all.  And [save_config], unlike
    [save_data], holds no lock while it writes the one temporary file: when
    the save of a second command opens that file (and so empties it) after
    the first has closed it and before the first renames it, the first
    rename publishes an empty [config.json]. *)
Theorem saves_are_not_atomic :
  canonical (crash_after 4 true [lit "new"]
                         {| canonical := Some (lit "old"); temporary := None |})
  = None
  /\ save_ops false [lit "first"] {| canonical := Some (lit "old"); temporary := None |}
     = [OpenTruncate; WriteChunk (lit "first"); Close; ReplaceCanonical]
  /\ overlapped 3 1 (lit "first") (lit "second")
                {| canonical := Some (lit "old"); temporary := None |}
     = {| canonical := Some []; temporary := None |}.
Proof. repeat split; by vm_compute. Qed.

End FilesFacts.

Module CommandFacts.
Import Text Json Pipeline Files Command FilesFacts.


Lemma decimal_not_colon (c : char) : is_decimal c = true -> (c =? colon) = false.
Proof.
  intros H. destruct (N.eqb_spec c colon) as [-> | ?]; [| done].
  by vm_compute in H.
Qed.

(** An accepted argument splits into exactly two fields. *)
Lemma accepted_splits (param : pystr) :
  matches_time_pattern param = true ->
  exists hour minute, split_on colon param = [hour; minute].
Proof.
  unfold matches_time_pattern.
  destruct param as [| h1 [| h2 [| c [| m1 [| m2 [| nl [| ? ?]]]]]]]; try done.
  - rewrite !andb_true_iff. intros ((((? & ?) & Hc) & ?) & ?).
    apply N.eqb_eq in Hc as ->. simpl.
    rewrite !decimal_not_colon by done. simpl. by eexists _, _.
  - rewrite !andb_true_iff. intros (((((? & ?) & Hc) & ?) & ?) & Hnl).
    apply N.eqb_eq in Hc as ->. apply N.eqb_eq in Hnl as ->. simpl.
    rewrite !decimal_not_colon by done. simpl. by eexists _, _.
Qed.

Section WithScheduler.
Variable cron_accepts : pystr -> pystr -> bool.
Variable dumps_config : SchedulerConfig -> pystr.
Variable nt : bool.

(** Both saves, when they run to their end, leave the whole new text in
    the canonical file. *)
Lemma saves_complete (dumps_data : store -> pystr) (data : store) (p : plugin) (fs : files) :
  canonical (save_data nt Completes dumps_data data fs) = Some (dumps_data data)
  /\ canonical (config_files (save_config dumps_config nt Completes p))
     = Some (dumps_config (config p)).
Proof. unfold save_data, save_config. simpl. by rewrite !save_result. Qed.

(** The scheduler and the configuration keep the same time. *)
Lemma time_keeps_in_sync (run : save_run) (param : pystr) (p : plugin) :
  sched_time (scheduler p) = schedule_time (config p) ->
  sched_time (scheduler (life_command_time cron_accepts dumps_config nt run param p).1)
  = schedule_time (config (life_command_time cron_accepts dumps_config nt run param p).1).
Proof.
  intros Hsync. unfold life_command_time.
  case_bool_decide; [done |].
  destruct (matches_time_pattern param) eqn:Hm; simpl; [| done].
  unfold update_schedule_time. case_bool_decide; [done |].
  destruct (accepted_splits param Hm) as (hour & minute & ->).
  destruct (job (scheduler p)); [destruct (cron_accepts hour minute) |]; done.
Qed.


(** C9, as the code has it: an argument that does not have the form of two
    decimal digits, a colon and two decimal digits (with at most one
    newline after them) is answered with a message and changes nothing. *)
Theorem time_rejects_bad_format (run : save_run) (param : pystr) (p : plugin) :
  matches_time_pattern param = false ->
  (life_command_time cron_accepts dumps_config nt run param p).1 = p
  /\ ((life_command_time cron_accepts dumps_config nt run param p).2 = AskForTime
      \/ (life_command_time cron_accepts dumps_config nt run param p).2 = BadFormat).
Proof.
  intros Hm. unfold life_command_time.
  case_bool_decide; [by auto |].
  rewrite Hm. simpl. by auto.
Qed.

End WithScheduler.



Lemma time_rejects_bad_format_witness :
  matches_time_pattern (lit "7:30") = false
  /\ (life_command_time in_range_cron brief_dumps false Completes (lit "7:30")
                        fresh_plugin).1
     = fresh_plugin.
Proof.
  assert (H1 : matches_time_pattern (lit "7:30") = false) by reflexivity.
  split; [exact H1 |].
  exact (proj1 (time_rejects_bad_format in_range_cron brief_dumps false Completes
                  (lit "7:30") fresh_plugin H1)).
Defined.

(** C9, as stated, fails: 99:99 is no time of day, yet the command takes
    it, stores it in the configuration and saves it. *)
Lemma time_accepts_out_of_range :
  valid_24h_time (lit "99:99") = false
  /\ schedule_time (config (life_command_time in_range_cron brief_dumps false Completes
                                              (lit "99:99") fresh_plugin).1)
     = lit "99:99"
  /\ schedule_time (config fresh_plugin) = lit "07:00"
  /\ canonical (config_files (life_command_time in_range_cron brief_dumps false Completes
                                                (lit "99:99") fresh_plugin).1)
     <> canonical (config_files fresh_plugin).
Proof. repeat split; by vm_compute. Qed.

End CommandFacts.

Module GuardFacts.
Import Text Json Extractor Calendar Pipeline Guard.

#[local] Arguments day_key : simpl never.

Lemma absent_add_failed (k : pystr) (sh : shared) : absent (add_failed k sh) k = false.
Proof.
  unfold absent, add_failed. simpl.
  destruct (schedule_data sh !! k); [done |].
  rewrite bool_decide_eq_true_2; [done | set_solver].
Qed.

Lemma absent_assign (k : pystr) (r : dict) (sh : shared) : absent (assign k r sh) k = false.
Proof. unfold absent, assign. simpl. by rewrite lookup_insert_eq. Qed.

Lemma absent_set_generation_lock (b : bool) (sh : shared) (k : pystr) :
  absent (set_generation_lock b sh) k = absent sh k.
Proof. done. Qed.

Lemma absent_set_data_lock (b : bool) (sh : shared) (k : pystr) :
  absent (set_data_lock b sh) k = absent sh k.
Proof. done. Qed.

Lemma absent_persist (sh : shared) (k : pystr) : absent (persist sh) k = absent sh k.
Proof. done. Qed.

Lemma absent_count_call (sh : shared) (k : pystr) : absent (count_call sh) k = absent sh k.
Proof. done. Qed.

Lemma absent_true (sh : shared) (k : pystr) :
  absent sh k = true <-> schedule_data sh !! k = None /\ k ∉ failed_dates sh.
Proof.
  unfold absent. destruct (schedule_data sh !! k).
  - split; [done | by intros [? _]].
  - rewrite negb_true_iff, bool_decide_eq_false. tauto.
Qed.

Lemma absent_false (sh : shared) (k : pystr) :
  absent sh k = false <->
  is_Some (schedule_data sh !! k) \/ (schedule_data sh !! k = None /\ k ∈ failed_dates sh).
Proof.
  unfold absent. destruct (schedule_data sh !! k).
  - split; [by left; eexists | done].
  - rewrite negb_false_iff, bool_decide_eq_true. split.
    + auto.
    + intros [[? ?] | [_ ?]]; done.
Qed.

(** The two steps of a generation in the task machine are
    [generate_schedule_with_llm] cut at the provider call. *)
Lemma begin_generation_agrees (loads : pystr -> loads_result)
      (repr_list : list json -> pystr) (cfg : SchedulerConfig) (data : store)
      (now : Z) (e : gen_env) :
  match begin_generation repr_list cfg data now e with
  | None =>
    generate_schedule_with_llm loads repr_list cfg data now e = Raise
    /\ text_chat_calls repr_list cfg data now e = 0%nat
  | Some false =>
    generate_schedule_with_llm loads repr_list cfg data now e = Return None
    /\ text_chat_calls repr_list cfg data now e = 0%nat
  | Some true =>
    generate_schedule_with_llm loads repr_list cfg data now e
    = Return (on_response loads (answer e))
    /\ text_chat_calls repr_list cfg data now e = 1%nat
  end.
Proof.
  unfold begin_generation, generate_schedule_with_llm, text_chat_calls.
  destruct (history_schedules repr_list cfg data now); [| done].
  destruct (prompt_ok e); [| done]. by destruct (provider e).
Qed.

Lemma task_eta (t : task) : {| today := today t; at_pc := at_pc t |} = t.
Proof. by destruct t. Qed.

Section Machine.
Variable loads : pystr -> loads_result.
Variable repr_list : list json -> pystr.
Variable cfg : SchedulerConfig.

Ltac look :=
  match goal with
  | H : <[_ := _]> _ !! _ = Some _ |- _ =>
    apply list_lookup_insert_Some in H as [(<- & <- & ?) | (? & H)]
  end.

Lemma holder_of (p : pc) :
  undecided p = true \/ in_flight p = true \/ called p = true \/ saving p = true ->
  holds_lock p = true.
Proof. destruct p as [| | | | | [|] | | | | | | | | |]; simpl; intuition done. Qed.

(** Clauses about the tasks other than the one that moved, when none of
    them holds the lock. *)
Ltac others Hother :=
  match goal with
  | Hne : _ ≠ ?j, Hl : _ !! ?j = Some ?u |- _ =>
    exfalso; apply (Hother j u Hne Hl); first [assumption | apply holder_of; by auto]
  end.

Ltac clause Hother :=
  intros; repeat look; simpl in *;
  first [ done | congruence | lia | by eauto | by others Hother
        | match goal with
          | |- holds_lock (at_pc ?t) = false =>
            destruct (holds_lock (at_pc t)) eqn:?; [by others Hother | done]
          end ].

Ltac finish Hoth G Gold Gnew :=
  constructor; simpl;
  rewrite ?absent_set_generation_lock, ?absent_set_data_lock, ?absent_persist,
    ?absent_count_call, ?absent_add_failed, ?absent_assign, ?lookup_insert_eq;
  try (clause Hoth);
  try (intros ? Hall;
       first [ by (exfalso; eapply Gnew; [| exact Hall])
             | apply G; [done | by eapply Gold; [| exact Hall]] ]).

Lemma lazy_inv_step (n : Z) (c : choice) (st : state) :
  lazy_inv n st -> lazy_inv n (step loads repr_list cfg c st).
Proof.
  intros Hinv. unfold step.
  destruct (tasks st !! who c) as [t |] eqn:Ht; [| done].
  destruct (inv_lazy n st Hinv _ _ Ht) as [Hday Hlazy].
  destruct st as [sh ts]. simpl in *.
  unfold step_task, today_str. rewrite Hday.
  destruct t as [d p]. simpl in *. subst d.
  pose proof (lookup_lt_Some _ _ _ Ht) as Hlt.
  destruct Hinv as [A B C D E F G H I J]. simpl in *.
  (* the premise of the clause on the call count, brought back to the old tasks *)
  assert (Gold : forall p', in_flight p = false ->
            (forall i t, <[who c := {| today := n; at_pc := p' |}]> ts !! i = Some t ->
                         in_flight (at_pc t) = false) ->
            forall i t, ts !! i = Some t -> in_flight (at_pc t) = false).
  { intros p' Hp Hall j u Hj. destruct (decide (who c = j)) as [<- | Hne].
    - rewrite Ht in Hj. by injection Hj as <-.
    - apply (Hall j). by rewrite list_lookup_insert_ne. }
  assert (Gnew : forall p', in_flight p' = true ->
            (forall i t, <[who c := {| today := n; at_pc := p' |}]> ts !! i = Some t ->
                         in_flight (at_pc t) = false) -> False).
  { intros p' Hp Hall. specialize (Hall (who c) _ (list_lookup_insert_eq _ _ _ Hlt)).
    simpl in Hall. congruence. }
  (* no other task holds the lock when this one does *)
  assert (Hother : holds_lock p = true ->
            forall j u, who c ≠ j -> ts !! j = Some u -> holds_lock (at_pc u) = true -> False).
  { intros Hp j u Hne Hj Hu. apply Hne. by apply (C _ _ _ _ Ht Hj). }
  assert (Hheld : holds_lock p = true -> generation_lock sh = true).
  { intros Hp. destruct (generation_lock sh) eqn:Hgl; [done |].
    pose proof (B eq_refl _ _ Ht) as Hb. simpl in Hb. congruence. }
  destruct p as [sid | | | | | [r |] | | | o | o | o r | o | o | |]; simpl in Hlazy; try done.
  - (* LStart *)
    apply negb_true_iff in Hlazy. rewrite Hlazy.
    destruct (absent sh (day_key n)) eqn:Habs; finish I G Gold Gnew.
  - (* LLock *)
    destruct (generation_lock sh) eqn:Hlock.
    + finish I G Gold Gnew.
    + specialize (B eq_refl).
      assert (Hfree : forall j u, who c ≠ j -> ts !! j = Some u ->
                                  holds_lock (at_pc u) = true -> False).
      { intros j u _ Hj Hu. rewrite (B _ _ Hj) in Hu. done. }
      finish Hfree G Gold Gnew.
  - (* LRecheck *)
    specialize (Hother eq_refl). specialize (Hheld eq_refl).
    destruct (absent sh (day_key n)) eqn:Habs; finish Hother G Gold Gnew.
  - (* LGenerate *)
    specialize (Hother eq_refl). specialize (Hheld eq_refl).
    pose proof (D _ _ Ht eq_refl) as Habs.
    assert (Hzero : text_chat_count sh = 0%nat).
    { apply G; [done |]. intros j u Hj.
      destruct (decide (who c = j)) as [<- | Hne].
      - rewrite Ht in Hj. by injection Hj as <-.
      - destruct (in_flight (at_pc u)) eqn:Hu; [| done].
        exfalso. apply (Hother j u Hne Hj), holder_of. auto. }
    apply absent_true in Habs as [Hnone _]. rewrite Hnone in H.
    destruct (begin_generation repr_list cfg (schedule_data sh) n (env c)) as [[|] |];
      finish Hother G Gold Gnew; by rewrite Hnone.
  - (* LAwait *)
    specialize (Hother eq_refl). specialize (Hheld eq_refl).
    pose proof (I _ _ Ht eq_refl) as Hone.
    finish Hother G Gold Gnew.
  - (* LResult Some *)
    specialize (Hother eq_refl). specialize (Hheld eq_refl).
    pose proof (I _ _ Ht eq_refl) as Hone.
    pose proof (D _ _ Ht eq_refl) as Habs.
    apply absent_true in Habs as [Hnone _]. rewrite Hnone in H.
    destruct (data_lock sh); finish Hother G Gold Gnew;
      [by rewrite Hnone | rewrite H; by eexists].
  - (* LResult None *)
    specialize (Hother eq_refl). specialize (Hheld eq_refl). finish Hother G Gold Gnew.
  - (* LSave *)
    specialize (Hother eq_refl). specialize (Hheld eq_refl).
    destruct (data_lock sh); finish Hother G Gold Gnew.
  - (* LSaving *)
    specialize (Hother eq_refl). specialize (Hheld eq_refl).
    assert (Habs : absent sh (day_key n) = false).
    { apply absent_false. left. by apply (E _ _ Ht). }
    finish Hother G Gold Gnew.
  - finish I G Gold Gnew.
  - finish I G Gold Gnew.
Qed.

Lemma lazy_inv_run (n : Z) (sched : list choice) (st : state) :
  lazy_inv n st -> lazy_inv n (run loads repr_list cfg sched st).
Proof.
  revert st. induction sched as [| c sched IH]; intros st Hinv; [done |].
  simpl. apply IH. by apply lazy_inv_step.
Qed.

Lemma lazy_tasks_lookup (n : Z) (sids : list pystr) (i : nat) (t : task) :
  lazy_tasks n sids !! i = Some t ->
  exists sid, sids !! i = Some sid /\ t = {| today := n; at_pc := LStart sid |}.
Proof.
  unfold lazy_tasks. rewrite list_lookup_fmap.
  destruct (sids !! i) as [sid |]; simpl; [| done].
  intros [= <-]. by exists sid.
Qed.

Lemma lazy_inv_init (n : Z) (data : store) (failed : gset pystr) (sids : list pystr) :
  data !! day_key n = None ->
  Forall (fun sid => sid ≠ reserved_session) sids ->
  lazy_inv n {| fields := fresh_fields data failed; tasks := lazy_tasks n sids |}.
Proof.
  intros Hnone Hsids.
  constructor; simpl.
  - intros i t (sid & Hsid & ->)%lazy_tasks_lookup. split; [done |]. simpl.
    rewrite Forall_forall in Hsids.
    rewrite bool_decide_eq_false_2; [done |].
    apply Hsids. by apply list_elem_of_lookup_2 in Hsid.
  - by intros _ i t (sid & _ & ->)%lazy_tasks_lookup.
  - by intros i j t u (sid & _ & ->)%lazy_tasks_lookup.
  - by intros i t (sid & _ & ->)%lazy_tasks_lookup.
  - by intros i t (sid & _ & ->)%lazy_tasks_lookup.
  - lia.
  - done.
  - by rewrite Hnone.
  - by intros i t (sid & _ & ->)%lazy_tasks_lookup.
  - by intros i t (sid & _ & ->)%lazy_tasks_lookup.
Qed.

(** C1, as the code has it.  When only lazy triggers of one day race (from
    sessions other than the reserved one, on a cache without that day),
    whatever the interleaving and whatever the surroundings do: the
    provider is called at most once and at most one assignment to the cache
    is made; and as soon as one trigger has returned, either the day's
    record is the one assignment made, after exactly one provider call, or
    nothing was assigned and the day is marked failed. *)
Theorem lazy_triggers_generate_once (n : Z) (data : store) (failed : gset pystr)
        (sids : list pystr) (sched : list choice) :
  data !! day_key n = None ->
  Forall (fun sid => sid ≠ reserved_session) sids ->
  (text_chat_count (fields (run loads repr_list cfg sched
      {| fields := fresh_fields data failed; tasks := lazy_tasks n sids |})) <= 1)%nat
  /\ (length (written (fields (run loads repr_list cfg sched
      {| fields := fresh_fields data failed; tasks := lazy_tasks n sids |}))) <= 1)%nat
  /\ ((exists i, returned (run loads repr_list cfg sched
          {| fields := fresh_fields data failed; tasks := lazy_tasks n sids |}) i) ->
      (exists r,
          schedule_data (fields (run loads repr_list cfg sched
            {| fields := fresh_fields data failed; tasks := lazy_tasks n sids |}))
            !! day_key n = Some (JObj r)
          /\ written (fields (run loads repr_list cfg sched
            {| fields := fresh_fields data failed; tasks := lazy_tasks n sids |}))
             = [(day_key n, r)]
          /\ text_chat_count (fields (run loads repr_list cfg sched
            {| fields := fresh_fields data failed; tasks := lazy_tasks n sids |})) = 1%nat)
      \/ (schedule_data (fields (run loads repr_list cfg sched
            {| fields := fresh_fields data failed; tasks := lazy_tasks n sids |}))
            !! day_key n = None
          /\ day_key n ∈ failed_dates (fields (run loads repr_list cfg sched
            {| fields := fresh_fields data failed; tasks := lazy_tasks n sids |}))
          /\ written (fields (run loads repr_list cfg sched
            {| fields := fresh_fields data failed; tasks := lazy_tasks n sids |})) = [])).
Proof.
  intros Hnone Hsids.
  pose proof (lazy_inv_run n sched _ (lazy_inv_init n data failed sids Hnone Hsids)) as Hinv.
  set (st := run loads repr_list cfg sched _) in *.
  destruct Hinv as [A B C D E F G H I J].
  split; [done |]. split.
  - destruct (schedule_data (fields st) !! day_key n).
    + destruct H as (r & _ & -> & _). simpl. lia.
    + rewrite H. simpl. lia.
  - intros (i & t & Hi & Hdone).
    specialize (J i t Hi Hdone). apply absent_false in J as [[v Hv] | [Hno Hf]].
    + left. rewrite Hv in H. destruct H as (r & -> & Hw & Hc). by exists r.
    + right. rewrite Hno in H. done.
Qed.

(** At its start or after its end, on a settled day, a trigger's step ends
    it and changes no field. *)
Lemma idle_step_task (n : Z) (sh : shared) (e : gen_env) (t : task) :
  absent sh (day_key n) = false -> today t = n ->
  (exists sid, at_pc t = LStart sid) \/ at_pc t = Done ->
  step_task loads repr_list cfg e sh t = (sh, Done).
Proof.
  intros Habs Hday Hpc. unfold step_task, today_str. rewrite Hday.
  destruct Hpc as [[sid ->] | ->]; [| done].
  rewrite Habs. by destruct (bool_decide (sid = reserved_session)).
Qed.

Lemma idle_step (n : Z) (sh : shared) (c : choice) (st : state) :
  absent sh (day_key n) = false -> idle_inv n sh st ->
  idle_inv n sh (step loads repr_list cfg c st).
Proof.
  intros Habs [Hf Hts]. unfold step.
  destruct (tasks st !! who c) as [t |] eqn:Ht; [| done].
  destruct (Hts _ _ Ht) as [Hday Hpc].
  rewrite Hf, (idle_step_task n sh _ t Habs Hday Hpc).
  split; [done |]. simpl. intros i u Hu. look; simpl; eauto.
Qed.

Lemma idle_step_returns (n : Z) (sh : shared) (c : choice) (st : state) (i : nat) :
  absent sh (day_key n) = false -> idle_inv n sh st ->
  (i < length (tasks st))%nat ->
  i = who c \/ returned st i -> returned (step loads repr_list cfg c st) i.
Proof.
  intros Habs [Hf Hts] Hlt Hi. unfold step, returned.
  destruct (tasks st !! who c) as [t |] eqn:Ht.
  - destruct (Hts _ _ Ht) as [Hday Hpc].
    rewrite Hf, (idle_step_task n sh _ t Habs Hday Hpc). simpl.
    destruct (decide (i = who c)) as [-> | Hne].
    + eexists. split; [by apply list_lookup_insert_eq | done].
    + destruct Hi as [? | (u & Hu & Hd)]; [done |].
      exists u. split; [by rewrite list_lookup_insert_ne | done].
  - destruct Hi as [-> | Hr]; [| done].
    apply lookup_lt_is_Some_2 in Hlt as [? ?]. congruence.
Qed.

Lemma step_length (c : choice) (st : state) :
  length (tasks (step loads repr_list cfg c st)) = length (tasks st).
Proof.
  unfold step. destruct (tasks st !! who c); [| done].
  destruct (step_task _ _ _ _ _ _). simpl. apply length_insert.
Qed.

Lemma idle_run (n : Z) (sh : shared) (sched : list choice) (st : state) (i : nat) :
  absent sh (day_key n) = false -> idle_inv n sh st ->
  idle_inv n sh (run loads repr_list cfg sched st)
  /\ ((i < length (tasks st))%nat -> i ∈ map who sched \/ returned st i ->
      returned (run loads repr_list cfg sched st) i).
Proof.
  intros Habs. revert st. induction sched as [| c sched IH]; intros st Hinv.
  - split; [done |]. intros _ [Hi | Hi]; [by apply elem_of_nil in Hi | done].
  - simpl. destruct (IH _ (idle_step n sh c st Habs Hinv)) as [IH1 IH2].
    split; [done |]. intros Hlt Hi. apply IH2; [by rewrite step_length |].
    destruct Hi as [[-> | Hi]%elem_of_cons | Hi].
    + right. apply (idle_step_returns n sh); auto.
    + by left.
    + right. apply (idle_step_returns n sh); auto.
Qed.

Lemma idle_init (n : Z) (sh : shared) (sids : list pystr) :
  idle_inv n sh {| fields := sh; tasks := lazy_tasks n sids |}.
Proof.
  split; [done |]. intros i t (sid & _ & ->)%lazy_tasks_lookup. simpl. eauto.
Qed.

(** C3: while a day is in [failed_dates], lazy triggers of that day, however
    many and however interleaved, call the provider no further time and
    leave the cache and the failed days as they are (no field changes at
    all); each of them returns at its first step. *)
Theorem failed_day_is_not_retried (n : Z) (sh : shared) (sids : list pystr)
        (sched : list choice) :
  day_key n ∈ failed_dates sh ->
  text_chat_count (fields (run loads repr_list cfg sched
      {| fields := sh; tasks := lazy_tasks n sids |})) = text_chat_count sh
  /\ schedule_data (fields (run loads repr_list cfg sched
      {| fields := sh; tasks := lazy_tasks n sids |})) = schedule_data sh
  /\ failed_dates (fields (run loads repr_list cfg sched
      {| fields := sh; tasks := lazy_tasks n sids |})) = failed_dates sh
  /\ forall i, (i < length sids)%nat -> i ∈ map who sched ->
       returned (run loads repr_list cfg sched
                     {| fields := sh; tasks := lazy_tasks n sids |}) i.
Proof.
  intros Hfailed.
  assert (Habs : absent sh (day_key n) = false).
  { apply absent_false. destruct (schedule_data sh !! day_key n); [left; by eexists | by right]. }
  assert (Hrun : forall i, idle_inv n sh (run loads repr_list cfg sched
                     {| fields := sh; tasks := lazy_tasks n sids |})
                 /\ ((i < length sids)%nat -> i ∈ map who sched ->
                     returned (run loads repr_list cfg sched
                                   {| fields := sh; tasks := lazy_tasks n sids |}) i)).
  { intros i. destruct (idle_run n sh sched _ i Habs (idle_init n sh sids)) as [H1 H2].
    split; [done |]. intros Hlt Hi. apply H2; [| by left].
    simpl. unfold lazy_tasks. by rewrite length_map. }
  destruct (Hrun 0%nat) as [[-> _] _].
  repeat split; try done. intros i. by apply Hrun.
Qed.

(** A step of the only task there is. *)
Lemma step_single (e : gen_env) (sh sh' : shared) (t : task) (p : pc) :
  step_task loads repr_list cfg e sh t = (sh', p) ->
  step loads repr_list cfg {| who := 0; env := e |} {| fields := sh; tasks := [t] |}
  = {| fields := sh'; tasks := [{| today := today t; at_pc := p |}] |}.
Proof.
  intros Hs. unfold step. cbn [tasks who env fields].
  change ([t] !! 0%nat) with (Some t). cbn beta iota. by rewrite Hs.
Qed.

End Machine.

Lemma lazy_triggers_generate_once_witness :
  (∅ : store) !! day_key 738946 = None
  /\ Forall (fun sid => sid ≠ reserved_session) [lit "chat-1"; lit "chat-2"]
  /\ (text_chat_count (fields (run Json.loads (fun _ => []) example_config
        two_requests_schedule
        {| fields := fresh_fields ∅ ∅;
           tasks := lazy_tasks 738946 [lit "chat-1"; lit "chat-2"] |})) <= 1)%nat
  /\ ((exists r,
         schedule_data (fields (run Json.loads (fun _ => []) example_config
           two_requests_schedule
           {| fields := fresh_fields ∅ ∅;
              tasks := lazy_tasks 738946 [lit "chat-1"; lit "chat-2"] |}))
           !! day_key 738946 = Some (JObj r)
         /\ written (fields (run Json.loads (fun _ => []) example_config
           two_requests_schedule
           {| fields := fresh_fields ∅ ∅;
              tasks := lazy_tasks 738946 [lit "chat-1"; lit "chat-2"] |}))
            = [(day_key 738946, r)]
         /\ text_chat_count (fields (run Json.loads (fun _ => []) example_config
           two_requests_schedule
           {| fields := fresh_fields ∅ ∅;
              tasks := lazy_tasks 738946 [lit "chat-1"; lit "chat-2"] |})) = 1%nat)
      \/ (schedule_data (fields (run Json.loads (fun _ => []) example_config
           two_requests_schedule
           {| fields := fresh_fields ∅ ∅;
              tasks := lazy_tasks 738946 [lit "chat-1"; lit "chat-2"] |}))
           !! day_key 738946 = None
         /\ day_key 738946 ∈ failed_dates (fields (run Json.loads (fun _ => [])
           example_config two_requests_schedule
           {| fields := fresh_fields ∅ ∅;
              tasks := lazy_tasks 738946 [lit "chat-1"; lit "chat-2"] |}))
         /\ written (fields (run Json.loads (fun _ => []) example_config
           two_requests_schedule
           {| fields := fresh_fields ∅ ∅;
              tasks := lazy_tasks 738946 [lit "chat-1"; lit "chat-2"] |})) = [])).
Proof.
  assert (H1 : (∅ : store) !! day_key 738946 = None) by apply lookup_empty.
  assert (H2 : Forall (fun sid => sid ≠ reserved_session) [lit "chat-1"; lit "chat-2"]).
  { repeat constructor; by vm_compute. }
  assert (H3 : exists i, returned (run Json.loads (fun _ => []) example_config
        two_requests_schedule
        {| fields := fresh_fields ∅ ∅;
           tasks := lazy_tasks 738946 [lit "chat-1"; lit "chat-2"] |}) i).
  { exists 0%nat. eexists. split; by vm_compute. }
  split; [exact H1 | split; [exact H2 |]].
  pose proof (lazy_triggers_generate_once Json.loads (fun _ => []) example_config
                738946 ∅ ∅ [lit "chat-1"; lit "chat-2"] two_requests_schedule H1 H2)
    as (Hcount & _ & Hsettled).
  split; [exact Hcount | exact (Hsettled H3)].
Defined.

(** The same race, run: both requests return, one call, one record. *)
Example two_requests_one_call :
  let st := run Json.loads (fun _ => []) example_config two_requests_schedule
                {| fields := fresh_fields ∅ ∅; tasks := two_requests |} in
  text_chat_count (fields st) = 1%nat
  /\ written (fields st) = [(lit "2024-03-01", record_of "a")]
  /\ map at_pc (tasks st) = [Done; Done].
Proof. by vm_compute. Qed.

(** C1, as stated, fails: the cron job does not go through the guard.  It
    starts a generation; a request that arrives meanwhile finds no record,
    takes the lock and starts a second one: two provider calls, two
    assignments for the same day. *)
Lemma cron_and_request_generate_twice :
  text_chat_count (fields (run Json.loads (fun _ => []) example_config
                               cron_then_request request_and_cron)) = 2%nat
  /\ written (fields (run Json.loads (fun _ => []) example_config
                          cron_then_request request_and_cron))
     = [(lit "2024-03-01", record_of "c"); (lit "2024-03-01", record_of "l")]
  /\ map at_pc (tasks (run Json.loads (fun _ => []) example_config
                           cron_then_request request_and_cron)) = [Done; Done].
Proof. by vm_compute. Qed.

Lemma failed_day_is_not_retried_witness :
  day_key 738946 ∈ failed_dates failed_day
  /\ text_chat_count (fields (run Json.loads (fun _ => []) example_config
        [answers_with 0 "a"; answers_with 1 "b"]
        {| fields := failed_day; tasks := lazy_tasks 738946 [lit "chat-1"; lit "chat-2"] |}))
     = text_chat_count failed_day.
Proof.
  assert (H1 : day_key 738946 ∈ failed_dates failed_day).
  { change (day_key 738946) with (lit "2024-03-01") || (vm_compute; fail).
    unfold failed_day, fresh_fields. simpl. set_solver. }
  split; [exact H1 |].
  exact (proj1 (failed_day_is_not_retried Json.loads (fun _ => []) example_config
                  738946 failed_day [lit "chat-1"; lit "chat-2"] _ H1)).
Defined.

End GuardFacts.

Module ConfigFacts.
Import Text Extractor Files Config.

Section WithBuiltins.
Variable repr_of : pyval -> pystr.
Variable int_of_str : pystr -> py Z.
Variable int_of_float : pystr -> py Z.

Lemma chat_round_trip (r : ChatReference) :
  chat_from_dict repr_of int_of_str int_of_float (chat_to_dict r) = Return r.
Proof. by destruct r. Qed.

Lemma chats_round_trip (cs : list ChatReference) :
  chats_from_list repr_of int_of_str int_of_float (map chat_to_dict cs) = Return cs.
Proof.
  induction cs as [| r cs IH]; [done |].
  change (map chat_to_dict (r :: cs)) with (chat_to_dict r :: map chat_to_dict cs).
  unfold chats_from_list; fold (chats_from_list repr_of int_of_str int_of_float).
  unfold chat_to_dict at 1. fold (chat_to_dict r).
  by rewrite chat_round_trip, IH.
Qed.

(** X1: What [to_dict] writes, [from_dict] reads back: whatever the fields
    hold, also values of the wrong type. *)
Theorem from_dict_to_dict (c : SchedulerConfig) :
  from_dict repr_of int_of_str int_of_float (to_dict c) = Return c.
Proof.
  destruct c as [t d cs p o].
  unfold from_dict, to_dict. cbn [schedule_time reference_history_days reference_chats
    prompt_template outfit_desc].
  change (get_or (lit "schedule_time") (VStr (lit "07:00")) _) with t.
  change (get_or (lit "reference_history_days") (VInt 3) _) with d.
  change (get_or (lit "reference_chats") (VList []) _) with (VList (map chat_to_dict cs)).
  cbn beta iota zeta. rewrite chats_round_trip.
  reflexivity.
Qed.

(** X2: A dict with none of the five keys, whatever else it holds, and any
    value that is not a dict, give the default configuration. *)
Theorem from_dict_defaults (data : pyval) :
  match data with
  | VDict d => Forall (fun k => lookup_key k d = None) config_keys
  | _ => True
  end ->
  from_dict repr_of int_of_str int_of_float data = Return default_config.
Proof.
  destruct data as [| | | | | | d]; try done.
  intros Hkeys. unfold config_keys in Hkeys.
  repeat (apply Forall_cons in Hkeys as [? Hkeys]).
  unfold from_dict, get_or.
  repeat match goal with H : lookup_key _ d = None |- _ => rewrite H; clear H end.
  reflexivity.
Qed.

Lemma chats_from_list_raises (refs : list pyval) (e : pydict) :
  VDict e ∈ refs ->
  py_int int_of_str int_of_float (get_or (lit "count") (VInt 20) e) = Raise ->
  chats_from_list repr_of int_of_str int_of_float refs = Raise.
Proof.
  intros Hin Hbad. induction refs as [| r rest IH]; [by apply elem_of_nil in Hin |].
  apply elem_of_cons in Hin as [<- | Hin].
  - simpl. by rewrite Hbad.
  - specialize (IH Hin). simpl. rewrite IH.
    destruct r; try done.
    by destruct (chat_from_dict repr_of int_of_str int_of_float (VDict d)).
Qed.

Variable json_load : pystr -> load_outcome.

(** X3: One chat reference whose [count] cannot be turned into an integer makes
    [from_dict] raise, and [load_config] then gives the default
    configuration: every other setting of the file is dropped with it. *)
Theorem load_config_bad_count (text : pystr) (d : pydict) (refs : list pyval)
        (e : pydict) :
  json_load text = LoadedValue (VDict d) ->
  lookup_key (lit "reference_chats") d = Some (VList refs) ->
  VDict e ∈ refs ->
  py_int int_of_str int_of_float (get_or (lit "count") (VInt 20) e) = Raise ->
  from_dict repr_of int_of_str int_of_float (VDict d) = Raise
  /\ load_config repr_of int_of_str int_of_float json_load (Some text) = default_config.
Proof.
  intros Hload Hrefs Hin Hbad.
  assert (Hraise : from_dict repr_of int_of_str int_of_float (VDict d) = Raise).
  { unfold from_dict, get_or. rewrite Hrefs.
    by rewrite (chats_from_list_raises refs e Hin Hbad). }
  split; [done |]. unfold load_config. by rewrite Hload, Hraise.
Qed.


End WithBuiltins.

Lemma from_dict_defaults_witness :
  Forall (fun k => lookup_key k [(lit "theme", VStr (lit "dark"))] = None) config_keys
  /\ from_dict (fun _ => []) (fun _ => Raise) (fun _ => Raise)
               (VDict [(lit "theme", VStr (lit "dark"))]) = Return default_config.
Proof.
  assert (H1 : Forall (fun k => lookup_key k [(lit "theme", VStr (lit "dark"))] = None)
                      config_keys) by (repeat constructor).
  split; [exact H1 |].
  exact (from_dict_defaults (fun _ => []) (fun _ => Raise) (fun _ => Raise)
           (VDict [(lit "theme", VStr (lit "dark"))]) H1).
Defined.

Lemma load_config_bad_count_witness :
  load_config (fun _ => []) (fun _ => Raise) (fun _ => Raise)
    (fun _ => LoadedValue bad_count_file) (Some (lit "x")) = default_config.
Proof.
  refine (proj2 (load_config_bad_count (fun _ => []) (fun _ => Raise) (fun _ => Raise)
           (fun _ => LoadedValue bad_count_file) (lit "x") _
           [VDict [(lit "umo", VStr (lit "u")); (lit "count", VStr (lit "many"))]]
           [(lit "umo", VStr (lit "u")); (lit "count", VStr (lit "many"))]
           eq_refl eq_refl _ eq_refl)).
  apply list_elem_of_here.
Defined.


End ConfigFacts.

Module CoreScheduleFacts.
Import Text Extractor Command CoreSchedule.

Section WithLibrary.
Variable int_of_str : pystr -> py Z.
Variable cron_accepts : Z -> Z -> bool.

(** X5: In [core/schedule.py] a time update never moves the daily trigger of a
    freshly started scheduler: the job keeps the hour and minute it was
    started with, while the stored time becomes the new one whenever the
    old one could be read. *)
Theorem update_keeps_started_trigger (t0 t1 : pystr) :
  job (update_schedule_time int_of_str cron_accepts t1
         (start int_of_str cron_accepts (init t0)))
  = job (start int_of_str cron_accepts (init t0))
  /\ match hour_minute int_of_str t0 with
     | Return _ =>
       schedule_time (update_schedule_time int_of_str cron_accepts t1
                        (start int_of_str cron_accepts (init t0))) = t1
     | Raise =>
       schedule_time (update_schedule_time int_of_str cron_accepts t1
                        (start int_of_str cron_accepts (init t0))) = t0
     end.
Proof.
  unfold start, init. cbn [schedule_time].
  destruct (hour_minute int_of_str t0) as [[h m] |] eqn:Hhm.
  - destruct (cron_accepts h m) eqn:Hacc; unfold update_schedule_time;
      cbn [schedule_time job running]; case_bool_decide as Heq;
      rewrite ?Hhm, ?Hacc; cbn [schedule_time job]; done.
  - unfold update_schedule_time. cbn [schedule_time job running].
    case_bool_decide; rewrite ?Hhm; done.
Qed.

(** [stop] after [start] leaves the scheduler stopped, and a second [stop]
    changes nothing. *)
Lemma stop_twice (s : LifeScheduler) :
  running (stop s) = false /\ stop (stop s) = stop s.
Proof. unfold stop. destruct s as [t j []]; done. Qed.

End WithLibrary.
End CoreScheduleFacts.

Module UtilsFacts.
Import Text Utils.

(** X6: [time_desc] treats hour 0 as a missing hour and reads the clock, while
    every other hour is taken modulo 24 and the clock is ignored: hours
    that differ by a multiple of 24 give the same name. *)
Theorem time_desc_period (h k now now' : Z) :
  h ≠ 0%Z -> (h + 24 * k)%Z ≠ 0%Z ->
  time_desc (Some (h + 24 * k)%Z) now = time_desc (Some h) now'
  /\ time_desc (Some 0%Z) now = time_desc None now.
Proof.
  intros Hh Hk. split; [| done].
  unfold time_desc.
  destruct (Z.eqb_spec (h + 24 * k) 0) as [? | _]; [done |].
  destruct (Z.eqb_spec h 0) as [? | _]; [done |].
  replace ((h + 24 * k) mod 24)%Z with (h mod 24)%Z; [done |].
  rewrite (Z.mul_comm 24 k). by rewrite Z_mod_plus_full.
Qed.

Lemma time_desc_period_witness :
  25%Z ≠ 0%Z /\ (25 + 24 * -1)%Z ≠ 0%Z
  /\ time_desc (Some (25 + 24 * -1)%Z) 13 = time_desc (Some 25%Z) 20.
Proof.
  assert (H1 : 25%Z ≠ 0%Z) by lia.
  assert (H2 : (25 + 24 * -1)%Z ≠ 0%Z) by lia.
  split; [exact H1 | split; [exact H2 |]].
  exact (proj1 (time_desc_period 25 (-1) 13 20 H1 H2)).
Defined.

(** X7: The night wraps around midnight: the name is the one of deep night
    exactly for the hours before 6 and from 22 on. *)
Theorem time_desc_night (h now : Z) :
  h ≠ 0%Z ->
  (time_desc (Some h) now = late_night <-> (h mod 24 < 6 \/ 22 <= h mod 24)%Z).
Proof.
  intros Hh. unfold time_desc.
  destruct (Z.eqb_spec h 0) as [? | _]; [done |].
  destruct (Z.ltb_spec (h mod 24) 6); [split; [lia | done] |].
  destruct (Z.ltb_spec (h mod 24) 9); [split; [done | lia] |].
  destruct (Z.ltb_spec (h mod 24) 12); [split; [done | lia] |].
  destruct (Z.ltb_spec (h mod 24) 14); [split; [done | lia] |].
  destruct (Z.ltb_spec (h mod 24) 18); [split; [done | lia] |].
  destruct (Z.ltb_spec (h mod 24) 22); [split; [done | lia] |].
  split; [lia | done].
Qed.

Lemma time_desc_night_witness :
  23%Z ≠ 0%Z /\ (time_desc (Some 23%Z) 12 = late_night <-> (23 mod 24 < 6 \/ 22 <= 23 mod 24)%Z).
Proof.
  assert (H1 : 23%Z ≠ 0%Z) by lia.
  split; [exact H1 |].
  exact (time_desc_night 23 12 H1).
Defined.

End UtilsFacts.

Module DataMoreFacts.
Import Text Extractor Calendar Data DataFacts.

Lemma digit_same (a b : Z) : digit a = digit b -> (a mod 10 = b mod 10)%Z.
Proof.
  unfold digit. intros H.
  pose proof (Z.mod_pos_bound a 10 ltac:(lia)).
  pose proof (Z.mod_pos_bound b 10 ltac:(lia)).
  apply (f_equal Z.of_N) in H. rewrite !Z2N.id in H by lia. lia.
Qed.

Lemma four_digits_same (a b : Z) :
  (0 <= a <= 9999)%Z -> (0 <= b <= 9999)%Z -> pad4 a = pad4 b -> a = b.
Proof.
  intros Ha Hb H. unfold pad4 in H.
  injection H as H1 H2 H3 H4.
  apply digit_same in H1, H2, H3, H4.
  revert H1 H2 H3 H4. Z.div_mod_to_equations. lia.
Qed.

Lemma two_digits_same (a b : Z) :
  (0 <= a <= 99)%Z -> (0 <= b <= 99)%Z -> pad2 a = pad2 b -> a = b.
Proof.
  intros Ha Hb H. unfold pad2 in H.
  injection H as H1 H2.
  apply digit_same in H1, H2.
  revert H1 H2. Z.div_mod_to_equations. lia.
Qed.

Lemma days_in_month_bound (y m : Z) : (days_in_month y m <= 31)%Z.
Proof.
  unfold days_in_month.
  destruct (m =? 2)%Z; [destruct (is_leap y); lia |].
  destruct ((m =? 4) || (m =? 6) || (m =? 9) || (m =? 11))%Z; lia.
Qed.

(** Two dates with the same key are the same date. *)
Lemma isoformat_injective (d1 d2 : Calendar.date) :
  valid_date d1 -> valid_date d2 -> isoformat d1 = isoformat d2 -> d1 = d2.
Proof.
  intros (Hy1 & Hm1 & Hd1) (Hy2 & Hm2 & Hd2) H.
  pose proof (days_in_month_bound (year d1) (month d1)).
  pose proof (days_in_month_bound (year d2) (month d2)).
  unfold isoformat in H.
  assert (Hlen : forall n, length (pad4 n) = 4%nat) by done.
  apply app_inj_1 in H as [Hy H]; [| by rewrite !Hlen].
  apply app_inj_1 in H as [_ H]; [| done].
  apply app_inj_1 in H as [Hm H]; [| done].
  apply app_inj_1 in H as [_ Hd]; [| done].
  apply four_digits_same in Hy; [| lia | lia].
  apply two_digits_same in Hm; [| lia | lia].
  apply two_digits_same in Hd; [| lia | lia].
  destruct d1, d2. simpl in *. by subst.
Qed.

Section WithTimestamps.
Context {T : Type}.
Variable fromtimestamp : T -> py Calendar.date.

(** X8: Looking a day up by its date finds the record filed under that day and
    no other: after [set r] with [r] dated [d2], [get] with date [d1]
    returns [r] exactly when the two dates are the same day. *)
Theorem get_by_date_is_exact (calls : list call) (r : ScheduleData)
        (d1 d2 : Calendar.date) :
  valid_date d1 -> valid_date d2 -> date r = isoformat d2 ->
  (get fromtimestamp (set (after_calls fromtimestamp calls) r) (OfDate d1)
   = Return (Some r) <-> d1 = d2).
Proof.
  intros H1 H2 Hr.
  pose proof (keyed_set _ r (keyed_after_calls fromtimestamp calls)) as Hkeyed.
  unfold get. simpl. split.
  - intros [= Hget]. apply Hkeyed in Hget. rewrite Hr in Hget.
    symmetry. by apply isoformat_injective.
  - intros ->. unfold set. by rewrite Hr, lookup_insert_eq.
Qed.

(** X9: [remove] forgets the day it is given and nothing else, and does not
    mind a day that is not there: afterwards [get] gives [None] and [has]
    gives [False] for that day, every other day reads as before, and
    removing a day without a record leaves the manager as it was. *)
Theorem remove_forgets_one_day (m : manager) (d : DateLike T) (k : pystr) :
  to_date_str fromtimestamp d = Return k ->
  exists m',
    remove fromtimestamp m d = Return m'
    /\ get fromtimestamp m' d = Return None
    /\ has fromtimestamp m' d = Return false
    /\ (forall d' k', to_date_str fromtimestamp d' = Return k' -> k' ≠ k ->
                      get fromtimestamp m' d' = get fromtimestamp m d')
    /\ (m !! k = None -> m' = m).
Proof.
  intros Hk. exists (delete k m). unfold remove, get, has. rewrite Hk.
  repeat split.
  - by rewrite lookup_delete_eq.
  - rewrite lookup_delete_eq. rewrite bool_decide_eq_false_2; [done |].
    by intros [? ?].
  - intros d' k' Hk' Hne. rewrite Hk'. by rewrite lookup_delete_ne.
  - intros Hnone. by apply delete_id.
Qed.

(** X10: A day has at most one record: [set] of a second record with the same
    date puts it in the place of the first, the number of records grows by
    one only for a day that had none, every other day reads as before, and
    [has] then answers [True] for the day. *)
Theorem set_keeps_one_record_per_day (m : manager) (r1 r2 : ScheduleData) :
  date r1 = date r2 ->
  set (set m r1) r2 = set m r2
  /\ size (set m r2) = (if bool_decide (is_Some (m !! date r2)) then size m else S (size m))
  /\ (forall k, k ≠ date r2 -> set m r2 !! k = m !! k)
  /\ (forall d, to_date_str fromtimestamp d = Return (date r2) ->
                has fromtimestamp (set m r2) d = Return true
                /\ get fromtimestamp (set m r2) d = Return (Some r2)).
Proof.
  intros Hd. unfold set. repeat split.
  - rewrite Hd. apply insert_insert_eq.
  - case_bool_decide as Hs.
    + by rewrite map_size_insert_Some.
    + rewrite map_size_insert_None; [done |].
      destruct (m !! date r2) eqn:E; [| done]. exfalso. apply Hs. by eexists.
  - intros k Hk. by rewrite lookup_insert_ne.
  - unfold has. rewrite H. rewrite lookup_insert_eq.
    rewrite bool_decide_eq_true_2; [done | by eexists].
  - unfold get. rewrite H. by rewrite lookup_insert_eq.
Qed.

End WithTimestamps.
Lemma get_by_date_is_exact_witness :
  valid_date {| year := 2024; month := 3; day := 1 |}
  /\ (get utc_fromtimestamp
          (set (after_calls utc_fromtimestamp [])
               {| date := lit "2024-03-01"; outfit := []; schedule := []; status := ok |})
          (OfDate {| year := 2024; month := 3; day := 1 |})
      = Return (Some {| date := lit "2024-03-01"; outfit := []; schedule := [];
                        status := ok |})
      <-> {| year := 2024; month := 3; day := 1 |} = {| year := 2024; month := 3; day := 1 |}).
Proof.
  assert (H1 : valid_date {| year := 2024; month := 3; day := 1 |}).
  { repeat split; by vm_compute. }
  split; [exact H1 |].
  exact (get_by_date_is_exact utc_fromtimestamp []
           {| date := lit "2024-03-01"; outfit := []; schedule := []; status := ok |}
           _ _ H1 H1 eq_refl).
Defined.

Lemma remove_forgets_one_day_witness :
  to_date_str utc_fromtimestamp (OfTimestamp 1709290800%Z) = Return (lit "2024-03-01")
  /\ exists m',
      remove utc_fromtimestamp
             (set new {| date := lit "2024-03-01"; outfit := []; schedule := [];
                         status := ok |})
             (OfTimestamp 1709290800%Z) = Return m'
      /\ get utc_fromtimestamp m' (OfTimestamp 1709290800%Z) = Return None.
Proof.
  assert (H1 : to_date_str utc_fromtimestamp (OfTimestamp 1709290800%Z)
               = Return (lit "2024-03-01")) by by vm_compute.
  split; [exact H1 |].
  destruct (remove_forgets_one_day utc_fromtimestamp
              (set new {| date := lit "2024-03-01"; outfit := []; schedule := [];
                          status := ok |})
              (OfTimestamp 1709290800%Z) _ H1) as (m' & Hr & Hg & _).
  exists m'. by split.
Defined.

Lemma set_keeps_one_record_per_day_witness :
  date {| date := lit "2024-03-01"; outfit := lit "a"; schedule := []; status := ok |}
  = date {| date := lit "2024-03-01"; outfit := lit "b"; schedule := []; status := ok |}
  /\ set (set (new : manager)
               {| date := lit "2024-03-01"; outfit := lit "a"; schedule := []; status := ok |})
          {| date := lit "2024-03-01"; outfit := lit "b"; schedule := []; status := ok |}
     = set new {| date := lit "2024-03-01"; outfit := lit "b"; schedule := [];
                  status := ok |}.
Proof.
  split; [reflexivity |].
  exact (proj1 (set_keeps_one_record_per_day utc_fromtimestamp new
                  {| date := lit "2024-03-01"; outfit := lit "a"; schedule := [];
                     status := ok |}
                  {| date := lit "2024-03-01"; outfit := lit "b"; schedule := [];
                     status := ok |} eq_refl)).
Defined.

End DataMoreFacts.

Module PipelineMoreFacts.
Import Text Json Extractor Calendar Pipeline PipelineFacts Data.

(** X11: From year 1000 on the day key of [main.py] ([strftime]) is the key
    [to_date_str] of [core/data.py] computes ([isoformat]) for the same
    date. *)
Theorem keys_agree_from_year_1000 (T : Type) (fromtimestamp : T -> py Calendar.date)
        (d : Calendar.date) :
  (1000 <= year d <= 9999)%Z ->
  to_date_str fromtimestamp (OfDate d) = Return (strftime_ymd d).
Proof.
  intros Hy. simpl. unfold strftime_ymd, isoformat. do 2 f_equal.
  unfold pad4. simpl.
  assert (Hd : (digit (year d / 1000) =? 48) = false).
  { apply N.eqb_neq. unfold digit.
    assert (1 <= year d / 1000 <= 9)%Z by (Z.div_mod_to_equations; lia).
    rewrite Z.mod_small by lia. lia. }
  by rewrite Hd.
Qed.

Lemma keys_agree_from_year_1000_witness :
  (1000 <= year {| year := 2024; month := 3; day := 1 |} <= 9999)%Z
  /\ to_date_str utc_fromtimestamp (OfDate {| year := 2024; month := 3; day := 1 |})
     = Return (strftime_ymd {| year := 2024; month := 3; day := 1 |}).
Proof.
  assert (H1 : (1000 <= year {| year := 2024; month := 3; day := 1 |} <= 9999)%Z)
    by (simpl; lia).
  split; [exact H1 |].
  exact (keys_agree_from_year_1000 Z utc_fromtimestamp _ H1).
Defined.

(** X12: The pipeline never hands back an empty record: what it returns is
    [None] or a dict with at least one entry, an empty object in the answer
    being replaced by the fallback record.  So the callers' test
    [if not schedule_info] is a test for [None]. *)
Theorem generated_record_is_not_empty (loads : pystr -> loads_result)
        (repr_list : list json -> pystr) (cfg : SchedulerConfig) (data : store)
        (today : Z) (env : gen_env) (d : dict) :
  generate_schedule_with_llm loads repr_list cfg data today env = Return (Some d) ->
  dict_truthy d = true
  /\ (forall content, answer env = ChatText content ->
        extract_json_from_text loads content = Return (Some []) ->
        d = fallback content).
Proof.
  unfold generate_schedule_with_llm.
  destruct (history_schedules repr_list cfg data today); [| done].
  destruct (prompt_ok env); [| done]. destruct (provider env); [| done]. simpl.
  unfold on_response. destruct (answer env) as [| content]; [done |].
  unfold on_content.
  destruct (extract_json_from_text loads content) as [[json_data |] |] eqn:Hex; [| | done].
  - destruct (dict_truthy json_data) eqn:Ht; intros [= <-].
    + split; [done |]. intros c [= <-]. rewrite Hex. intros [= ->]. done.
    + split; [done |]. by intros c [= <-].
  - intros [= <-]. split; [done |]. intros c [= <-]. by rewrite Hex.
Qed.

Lemma generated_record_is_not_empty_witness :
  generate_schedule_with_llm Json.loads (fun _ => []) example_config ∅ 738946
    (answering (lit "{}")) = Return (Some (fallback (lit "{}")))
  /\ dict_truthy (fallback (lit "{}")) = true.
Proof.
  assert (H1 : generate_schedule_with_llm Json.loads (fun _ => []) example_config ∅ 738946
                 (answering (lit "{}")) = Return (Some (fallback (lit "{}"))))
    by by vm_compute.
  split; [exact H1 |].
  exact (proj1 (generated_record_is_not_empty Json.loads (fun _ => []) example_config ∅
                  738946 (answering (lit "{}")) _ H1)).
Defined.

Lemma history_loop_bound (repr_list : list json -> pystr) (data : store) (today : Z)
      (offsets : list Z) (acc lines : list pystr) :
  history_loop repr_list data today offsets acc = Return lines ->
  (length lines <= length acc + length offsets)%nat.
Proof.
  revert acc. induction offsets as [| i rest IH]; intros acc; simpl.
  - intros [= <-]. lia.
  - destruct (today - i <? 1)%Z; [done |].
    destruct (data !! day_key (today - i)) as [rec |].
    + destruct (excerpt repr_list rec); [| done].
      intros H. apply IH in H. rewrite length_app in H. simpl in H. lia.
    + intros H. apply IH in H. lia.
Qed.

(** X13: The history never has more lines than the look-back window has days,
    whatever the cache holds; with a window of zero or fewer days it is
    empty and the prompt gets the placeholder. *)
Theorem history_within_window (repr_list : list json -> pystr) (cfg : SchedulerConfig)
        (data : store) (today : Z) (lines : list pystr) :
  history_schedules repr_list cfg data today = Return lines ->
  (length lines <= Z.to_nat (reference_history_days cfg))%nat
  /\ ((reference_history_days cfg <= 0)%Z ->
      lines = [] /\ history_schedules_str lines = no_history).
Proof.
  intros H. unfold history_schedules in H. split.
  - apply history_loop_bound in H. unfold range1 in H.
    rewrite length_map, length_seq in H. simpl in H. lia.
  - intros Hd. unfold range1 in H. replace (Z.to_nat (reference_history_days cfg))
      with 0%nat in H by lia.
    simpl in H. injection H as <-. done.
Qed.

Lemma history_within_window_witness :
  history_schedules (fun _ => []) example_config two_days_cached 738946
  = Return [history_line (lit "2024-02-29") (lit "b");
            history_line (lit "2024-02-28") (lit "a")]
  /\ (length [history_line (lit "2024-02-29") (lit "b");
              history_line (lit "2024-02-28") (lit "a")]
      <= Z.to_nat (reference_history_days example_config))%nat.
Proof.
  assert (H1 : history_schedules (fun _ => []) example_config two_days_cached 738946
               = Return [history_line (lit "2024-02-29") (lit "b");
                         history_line (lit "2024-02-28") (lit "a")]) by by vm_compute.
  split; [exact H1 |].
  exact (proj1 (history_within_window (fun _ => []) example_config two_days_cached
                  738946 _ H1)).
Defined.

Lemma history_loop_raises (repr_list : list json -> pystr) (data : store) (today : Z)
      (offsets : list Z) (acc : list pystr) :
  (forall i, i ∈ offsets -> (1 <= today - i)%Z) ->
  (history_loop repr_list data today offsets acc = Raise
   <-> exists i rec, i ∈ offsets /\ data !! day_key (today - i) = Some rec
                     /\ excerpt repr_list rec = Raise).
Proof.
  revert acc. induction offsets as [| i rest IH]; intros acc Hrange; simpl.
  - split; [done |]. intros (i & rec & Hi & _). by apply elem_of_nil in Hi.
  - assert (Hi : (1 <= today - i)%Z) by (apply Hrange; left).
    destruct (Z.ltb_spec (today - i) 1) as [? | _]; [lia |].
    assert (Hrest : forall j, j ∈ rest -> (1 <= today - j)%Z)
      by (intros; apply Hrange; by right).
    destruct (data !! day_key (today - i)) as [rec |] eqn:Hrec.
    + destruct (excerpt repr_list rec) as [ex |] eqn:Hex.
      * rewrite (IH _ Hrest). split.
        -- intros (j & r & Hj & Hr & He). exists j, r. split; [by right | done].
        -- intros (j & r & [-> | Hj]%elem_of_cons & Hr & He).
           ++ rewrite Hrec in Hr. injection Hr as <-. congruence.
           ++ by exists j, r.
      * split; [| done]. intros _. exists i, rec. split; [left | done].
    + rewrite (IH _ Hrest). split.
      * intros (j & r & Hj & Hr & He). exists j, r. split; [by right | done].
      * intros (j & r & [-> | Hj]%elem_of_cons & Hr & He).
        -- congruence.
        -- by exists j, r.
Qed.

(** X14: One cached value of the window that is no dict, or whose [schedule]
    entry cannot be sliced, is enough to make every generation raise before
    the provider is called; and that is the only way the history can raise
    when the window stays within the calendar. *)
Theorem malformed_cache_blocks_generation (loads : pystr -> loads_result)
        (repr_list : list json -> pystr) (cfg : SchedulerConfig) (data : store)
        (today : Z) :
  (reference_history_days cfg < today)%Z ->
  (history_schedules repr_list cfg data today = Raise
   <-> exists i rec, (1 <= i <= reference_history_days cfg)%Z
                     /\ data !! day_key (today - i) = Some rec
                     /\ excerpt repr_list rec = Raise)
  /\ (history_schedules repr_list cfg data today = Raise ->
      forall env, generate_schedule_with_llm loads repr_list cfg data today env = Raise
                  /\ text_chat_calls repr_list cfg data today env = 0%nat).
Proof.
  intros Hbound. split.
  - unfold history_schedules. rewrite history_loop_raises.
    + split; intros (i & rec & Hi & H); exists i, rec; (split; [| done]);
        by apply elem_of_range1.
    + intros i Hi%elem_of_range1. lia.
  - intros Hraise env. unfold generate_schedule_with_llm, text_chat_calls.
    by rewrite Hraise.
Qed.

Lemma malformed_cache_blocks_generation_witness :
  (reference_history_days example_config < 738946)%Z
  /\ generate_schedule_with_llm Json.loads (fun _ => []) example_config
       (<[lit "2024-02-29" := JStr (lit "oops")]> ∅) 738946 (answering (lit "{}")) = Raise.
Proof.
  assert (H1 : (reference_history_days example_config < 738946)%Z) by (simpl; lia).
  split; [exact H1 |].
  refine (proj1 (proj2 (malformed_cache_blocks_generation Json.loads (fun _ => [])
                          example_config (<[lit "2024-02-29" := JStr (lit "oops")]> ∅)
                          738946 H1) _ (answering (lit "{}")))).
  by vm_compute.
Defined.

End PipelineMoreFacts.

Module SessionFacts.
Import Text Json Pipeline Files Command FilesFacts CommandFacts Session.

Section WithScheduler.
Variable cron_accepts : pystr -> pystr -> bool.
Variable dumps_config : SchedulerConfig -> pystr.
Variable nt : bool.

Lemma start_time (t : pystr) : sched_time (start cron_accepts t) = t.
Proof.
  unfold start. destruct (split_on colon t) as [| a [| b [| ? ?]]]; try done.
  by destruct (cron_accepts a b).
Qed.

(** X15: From start-up on and through any sequence of [time] commands, accepted
    or rejected, the scheduler and the configuration hold the same time. *)
Theorem times_stay_in_sync (cfg : SchedulerConfig) (fs : files)
        (commands : list (save_run * pystr)) :
  sched_time (scheduler (time_commands cron_accepts dumps_config nt commands
                                       (booted cron_accepts cfg fs)))
  = schedule_time (config (time_commands cron_accepts dumps_config nt commands
                                         (booted cron_accepts cfg fs))).
Proof.
  assert (Hgen : forall p, sched_time (scheduler p) = schedule_time (config p) ->
            sched_time (scheduler (time_commands cron_accepts dumps_config nt commands p))
            = schedule_time (config (time_commands cron_accepts dumps_config nt commands p))).
  { induction commands as [| [run param] rest IH]; intros p Hp; [done |].
    simpl. apply IH. by apply time_keeps_in_sync. }
  apply Hgen. unfold booted. simpl. apply start_time.
Qed.


(** X17: A time of the right form that the scheduling library refuses (an hour
    or minute out of range) leaves the running job where it was, but is
    stored as the configured time; a scheduler started from that
    configuration, as after a restart, registers no job at all. *)
Theorem refused_time_disables_restart (run : save_run) (param hour minute : pystr)
        (p : plugin) (fs : files) :
  matches_time_pattern param = true ->
  split_on colon param = [hour; minute] ->
  cron_accepts hour minute = false ->
  job (scheduler (life_command_time cron_accepts dumps_config nt run param p).1)
  = job (scheduler p)
  /\ schedule_time (config (life_command_time cron_accepts dumps_config nt run param p).1)
     = param
  /\ job (scheduler (booted cron_accepts
                            (config (life_command_time cron_accepts dumps_config nt run
                                                       param p).1)
                            fs)) = None.
Proof.
  intros Hm Hsplit Hrej.
  assert (Hne : param ≠ []) by (intros ->; done).
  unfold life_command_time. rewrite bool_decide_eq_false_2 by done.
  rewrite Hm. cbn [negb fst]. unfold save_config, booted.
  cbn [config scheduler config_files schedule_time set_schedule_time].
  repeat split.
  - unfold update_schedule_time. case_bool_decide; [done |].
    rewrite Hsplit. destruct (job (scheduler p)); [by rewrite Hrej | done].
  - unfold start. by rewrite Hsplit, Hrej.
Qed.

End WithScheduler.


Lemma refused_time_disables_restart_witness :
  matches_time_pattern (lit "99:99") = true
  /\ split_on colon (lit "99:99") = [lit "99"; lit "99"]
  /\ in_range_cron (lit "99") (lit "99") = false
  /\ job (scheduler (booted in_range_cron
        (config (life_command_time in_range_cron brief_dumps false Completes (lit "99:99")
                                   fresh_plugin).1)
        {| canonical := None; temporary := None |})) = None.
Proof.
  assert (H1 : matches_time_pattern (lit "99:99") = true) by reflexivity.
  assert (H2 : split_on colon (lit "99:99") = [lit "99"; lit "99"]) by reflexivity.
  assert (H3 : in_range_cron (lit "99") (lit "99") = false) by reflexivity.
  repeat (split; [assumption |]).
  exact (proj2 (proj2 (refused_time_disables_restart in_range_cron brief_dumps false
                         Completes (lit "99:99") _ _ fresh_plugin _ H1 H2 H3))).
Defined.

End SessionFacts.

Module FilesMoreFacts.
Import Text Files FilesFacts CommandFacts.


End FilesMoreFacts.

Module LocksFacts.
Import Text Json Extractor Calendar Pipeline Guard GuardFacts Locks.

#[local] Arguments day_key : simpl never.

Section Machine.
Variable loads : pystr -> loads_result.
Variable repr_list : list json -> pystr.
Variable cfg : SchedulerConfig.

Ltac look :=
  match goal with
  | H : <[_ := _]> _ !! _ = Some _ |- _ =>
    apply list_lookup_insert_Some in H as [(<- & <- & ?) | (? & H)]
  end.

Lemma lock_inv_step (c : choice) (st : state) :
  lock_inv st -> lock_inv (step loads repr_list cfg c st).
Proof.
  intros Hinv. unfold step.
  destruct (tasks st !! who c) as [t |] eqn:Ht; [| done].
  destruct st as [sh ts]. simpl in *.
  pose proof (lookup_lt_Some _ _ _ Ht) as Hlt.
  destruct Hinv as [GF GO GH DF DO DH]. simpl in *.
  destruct t as [d p]. simpl in *.
  (* what the other tasks are, seen from the one that moves *)
  assert (Hg : holds_lock p = true ->
            generation_lock sh = true /\
            forall j u, who c ≠ j -> ts !! j = Some u -> holds_lock (at_pc u) = false).
  { intros Hp. split.
    - destruct (generation_lock sh) eqn:E; [done |].
      pose proof (GF eq_refl _ _ Ht) as Hb. simpl in Hb. congruence.
    - intros j u Hne Hj. destruct (holds_lock (at_pc u)) eqn:Hu; [| done].
      exfalso. apply Hne. by apply (GO _ _ _ _ Ht Hj). }
  assert (Hd : in_save p = true ->
            data_lock sh = true /\
            forall j u, who c ≠ j -> ts !! j = Some u -> in_save (at_pc u) = false).
  { intros Hp. split.
    - destruct (data_lock sh) eqn:E; [done |].
      pose proof (DF eq_refl _ _ Ht) as Hb. simpl in Hb. congruence.
    - intros j u Hne Hj. destruct (in_save (at_pc u)) eqn:Hu; [| done].
      exfalso. apply Hne. by apply (DO _ _ _ _ Ht Hj). }
  (* a holder among the others stays one *)
  assert (Hkeep : forall (f : pc -> bool) p', f p = false ->
            (exists i t, ts !! i = Some t /\ f (at_pc t) = true) ->
            exists i t, <[who c := {| today := d; at_pc := p' |}]> ts !! i = Some t
                        /\ f (at_pc t) = true).
  { intros f p' Hp (j & u & Hj & Hu). exists j, u. split; [| done].
    rewrite list_lookup_insert_ne; [done |].
    intros <-. rewrite Ht in Hj. injection Hj as <-. simpl in Hu. congruence. }
  assert (Hself : forall (f : pc -> bool) p', f p' = true ->
            exists i t, <[who c := {| today := d; at_pc := p' |}]> ts !! i = Some t
                        /\ f (at_pc t) = true).
  { intros f p' Hp. eexists _, _. split; [by apply list_lookup_insert_eq | done]. }
  unfold step_task.
  destruct p as [sid | | | | | [r |] | | | o | o | o [r |] | o | o | |]; cbn [at_pc today].
  all: repeat match goal with
       | |- context [bool_decide ?P] => destruct (bool_decide P)
       | |- context [absent ?a ?b] => destruct (absent a b)
       | |- context [generation_lock ?s] => destruct (generation_lock s) eqn:Hgl
       | |- context [data_lock ?s] => destruct (data_lock s) eqn:Hdl
       | |- context [begin_generation ?a ?b ?c ?e ?f] =>
         destruct (begin_generation a b c e f) as [[|] |]
       end.
  all: try (destruct (Hg eq_refl) as [Hgt Hgo]).
  all: try (destruct (Hd eq_refl) as [Hdt Hdo]).
  all: constructor; cbn [fields tasks generation_lock data_lock set_generation_lock
         set_data_lock add_failed assign count_call persist].
  all: try (intros; repeat look; simpl in *;
            first [ done | congruence | by eauto
                  | match goal with
                    | Hne : _ ≠ ?j, Hl : _ !! ?j = Some ?u,
                      Ho : forall j u, _ ≠ j -> _ !! j = Some u -> ?f (at_pc u) = false,
                      Hu : ?f (at_pc ?u) = true |- _ =>
                      rewrite (Ho j u Hne Hl) in Hu; done
                    | Hne : _ ≠ ?j, Hl : _ !! ?j = Some ?u,
                      Ho : forall j u, _ ≠ j -> _ !! j = Some u -> ?f (at_pc u) = false
                      |- ?f (at_pc ?u) = false => exact (Ho j u Hne Hl)
                    end ]).
  all: try (intros; first [ by apply Hself | apply Hkeep; [done | by eauto] ]).
  all: try (intros; repeat look; simpl in *;
            first [ by eapply GO | by eapply DO | by eapply GF | by eapply DF ]).
  all: intros; repeat look; simpl in *; try done;
    match goal with
    | Hu : holds_lock (at_pc ?u) = true, Hl : _ !! _ = Some ?u |- _ =>
      rewrite (GF ltac:(done) _ _ Hl) in Hu; done
    | Hu : in_save (at_pc ?u) = true, Hl : _ !! _ = Some ?u |- _ =>
      rewrite (DF ltac:(done) _ _ Hl) in Hu; done
    | _ => first [ by eapply GO | by eapply DO ]
    end.
Qed.

Lemma lock_inv_run (sched : list choice) (st : state) :
  lock_inv st -> lock_inv (run loads repr_list cfg sched st).
Proof.
  revert st. induction sched as [| c sched IH]; intros st Hinv; [done |].
  simpl. apply IH. by apply lock_inv_step.
Qed.

Lemma lock_inv_init (sh : shared) (ts : list task) :
  generation_lock sh = false -> data_lock sh = false ->
  Forall (fun t => at_start (at_pc t) = true) ts ->
  lock_inv {| fields := sh; tasks := ts |}.
Proof.
  intros Hg Hd Hts. rewrite Forall_lookup in Hts.
  constructor; simpl.
  - intros _ i t Hi. specialize (Hts _ _ Hi). by destruct (at_pc t).
  - intros i j t u Hi _ Ht. specialize (Hts _ _ Hi). by destruct (at_pc t).
  - congruence.
  - intros _ i t Hi. specialize (Hts _ _ Hi). by destruct (at_pc t).
  - intros i j t u Hi _ Ht. specialize (Hts _ _ Hi). by destruct (at_pc t).
  - congruence.
Qed.

(** X19: Whatever mix of requests, cron runs and regenerate commands is under
    way and however it is interleaved: no two requests are inside the
    [generation_lock] block at once, no two handlers are inside
    [save_data]'s [data_lock] block at once, and once every handler has
    ended, by returning or by an exception, both locks are free. *)
Theorem locks_exclude_and_are_released (sh : shared) (ts : list task)
        (sched : list choice) :
  generation_lock sh = false -> data_lock sh = false ->
  Forall (fun t => at_start (at_pc t) = true) ts ->
  (forall i j t u,
      tasks (run loads repr_list cfg sched {| fields := sh; tasks := ts |}) !! i = Some t ->
      tasks (run loads repr_list cfg sched {| fields := sh; tasks := ts |}) !! j = Some u ->
      holds_lock (at_pc t) = true -> holds_lock (at_pc u) = true -> i = j)
  /\ (forall i j t u,
      tasks (run loads repr_list cfg sched {| fields := sh; tasks := ts |}) !! i = Some t ->
      tasks (run loads repr_list cfg sched {| fields := sh; tasks := ts |}) !! j = Some u ->
      in_save (at_pc t) = true -> in_save (at_pc u) = true -> i = j)
  /\ (Forall (fun t => finished (at_pc t) = true)
             (tasks (run loads repr_list cfg sched {| fields := sh; tasks := ts |})) ->
      generation_lock (fields (run loads repr_list cfg sched
                                   {| fields := sh; tasks := ts |})) = false
      /\ data_lock (fields (run loads repr_list cfg sched
                                {| fields := sh; tasks := ts |})) = false).
Proof.
  intros Hg Hd Hts.
  pose proof (lock_inv_run sched _ (lock_inv_init sh ts Hg Hd Hts)) as Hinv.
  set (st := run loads repr_list cfg sched _) in *.
  destruct Hinv as [GF GO GH DF DO DH].
  split; [done |]. split; [done |].
  intros Hall. rewrite Forall_lookup in Hall. split.
  - destruct (generation_lock (fields st)); [| done].
    destruct (GH eq_refl) as (i & t & Hi & Ht). specialize (Hall _ _ Hi).
    by destruct (at_pc t).
  - destruct (data_lock (fields st)); [| done].
    destruct (DH eq_refl) as (i & t & Hi & Ht). specialize (Hall _ _ Hi).
    by destruct (at_pc t).
Qed.

(** What one step keeps: cached days, failed days, the assignments made and
    the number of provider calls. *)
Lemma step_task_keeps (e : gen_env) (sh : shared) (t : task) (k : pystr) :
  (is_Some (schedule_data sh !! k) ->
   is_Some (schedule_data (step_task loads repr_list cfg e sh t).1 !! k))
  /\ (k ∈ failed_dates sh -> k ∈ failed_dates (step_task loads repr_list cfg e sh t).1)
  /\ written sh `prefix_of` written (step_task loads repr_list cfg e sh t).1
  /\ (text_chat_count sh <= text_chat_count (step_task loads repr_list cfg e sh t).1)%nat.
Proof.
  unfold step_task.
  destruct (at_pc t) as [sid | | | | | [r |] | | | o | o | o [r |] | o | o | |].
  all: repeat match goal with
       | |- context [bool_decide ?P] => destruct (bool_decide P)
       | |- context [absent ?a ?b] => destruct (absent a b)
       | |- context [generation_lock ?s] => destruct (generation_lock s)
       | |- context [data_lock ?s] => destruct (data_lock s)
       | |- context [begin_generation ?a ?b ?c ?d ?f] =>
         destruct (begin_generation a b c d f) as [[|] |]
       end.
  all: cbn [fst schedule_data failed_dates written text_chat_count set_generation_lock
         set_data_lock add_failed assign count_call persist].
  all: repeat split; try done; try lia; try (intros; set_solver).
  all: try (by apply prefix_app_r).
  all: intros [v Hv]; destruct (decide (today_str t = k)) as [-> | Hne];
    [rewrite lookup_insert_eq | rewrite lookup_insert_ne by done]; by eexists.
Qed.

(** X20: No handler ever forgets: through any run of any handlers a cached day
    stays cached (its record may be replaced, never removed), a failed day
    stays marked (nothing unmarks it short of a restart), assignments are
    only added and the number of provider calls only grows. *)
Theorem handlers_never_forget (sched : list choice) (st : state) (k : pystr) :
  (is_Some (schedule_data (fields st) !! k) ->
   is_Some (schedule_data (fields (run loads repr_list cfg sched st)) !! k))
  /\ (k ∈ failed_dates (fields st) ->
      k ∈ failed_dates (fields (run loads repr_list cfg sched st)))
  /\ written (fields st) `prefix_of` written (fields (run loads repr_list cfg sched st))
  /\ (text_chat_count (fields st)
      <= text_chat_count (fields (run loads repr_list cfg sched st)))%nat.
Proof.
  revert st. induction sched as [| c sched IH]; intros st; [done |].
  simpl. destruct (IH (step loads repr_list cfg c st)) as (I1 & I2 & I3 & I4).
  assert (Hstep : (is_Some (schedule_data (fields st) !! k) ->
             is_Some (schedule_data (fields (step loads repr_list cfg c st)) !! k))
          /\ (k ∈ failed_dates (fields st) ->
              k ∈ failed_dates (fields (step loads repr_list cfg c st)))
          /\ written (fields st) `prefix_of` written (fields (step loads repr_list cfg c st))
          /\ (text_chat_count (fields st)
              <= text_chat_count (fields (step loads repr_list cfg c st)))%nat).
  { unfold step. destruct (tasks st !! who c) as [t |]; [| done].
    pose proof (step_task_keeps (env c) (fields st) t k) as Hk.
    by destruct (step_task loads repr_list cfg (env c) (fields st) t). }
  destruct Hstep as (S1 & S2 & S3 & S4).
  repeat split; [tauto | tauto | by etrans | lia].
Qed.

Lemma unguarded_step_task (e : gen_env) (sh : shared) (t : task) :
  unguarded (at_pc t) = true ->
  failed_dates (step_task loads repr_list cfg e sh t).1 = failed_dates sh
  /\ unguarded (step_task loads repr_list cfg e sh t).2 = true.
Proof.
  unfold step_task.
  destruct (at_pc t) as [sid | | | | | [r |] | | | o | o | o [r |] | o | o | |]; try done.
  all: intros _.
  all: repeat match goal with
       | |- context [data_lock ?s] => destruct (data_lock s)
       | |- context [begin_generation ?a ?b ?c ?d ?f] =>
         destruct (begin_generation a b c d f) as [[|] |]
       end; done.
Qed.

Lemma failing_step_task (e : gen_env) (sh : shared) (t : task) :
  unguarded_without_record (at_pc t) = true ->
  on_response loads (answer e) = None ->
  schedule_data (step_task loads repr_list cfg e sh t).1 = schedule_data sh
  /\ written (step_task loads repr_list cfg e sh t).1 = written sh
  /\ unguarded_without_record (step_task loads repr_list cfg e sh t).2 = true.
Proof.
  unfold step_task.
  destruct (at_pc t) as [sid | | | | | [r |] | | | o | o | o [r |] | o | o | |]; try done.
  all: intros _ Hfail; rewrite ?Hfail.
  all: repeat match goal with
       | |- context [begin_generation ?a ?b ?c ?d ?f] =>
         destruct (begin_generation a b c d f) as [[|] |]
       end; done.
Qed.

Lemma step_all (P : pc -> bool) (Q : shared -> Prop) (c : choice) (st : state) :
  (forall t, P (at_pc t) = true -> Q (fields st) ->
             Q (step_task loads repr_list cfg (env c) (fields st) t).1
             /\ P (step_task loads repr_list cfg (env c) (fields st) t).2 = true) ->
  Forall (fun t => P (at_pc t) = true) (tasks st) -> Q (fields st) ->
  Forall (fun t => P (at_pc t) = true) (tasks (step loads repr_list cfg c st))
  /\ Q (fields (step loads repr_list cfg c st)).
Proof.
  intros Hstep Hall HQ. unfold step.
  destruct (tasks st !! who c) as [t |] eqn:Ht; [| done].
  destruct (Hstep t) as [HQ' HP']; [by apply (Forall_lookup_1 _ _ _ _ Hall Ht) | done |].
  destruct (step_task loads repr_list cfg (env c) (fields st) t) as [sh' p']. simpl in *.
  split; [| done]. by apply Forall_insert.
Qed.

(** X21: A generation of the cron job or of the regenerate command never
    touches the set of failed days; and when it fails (no provider, or an
    answer that raises) it leaves the cache as it was and assigns nothing:
    unlike a failed request it leaves no mark behind, so the next request
    tries again. *)
Theorem unguarded_failure_leaves_no_mark (sh : shared) (ts : list task)
        (sched : list choice) :
  Forall (fun t => unguarded (at_pc t) = true) ts ->
  failed_dates (fields (run loads repr_list cfg sched {| fields := sh; tasks := ts |}))
  = failed_dates sh
  /\ (Forall (fun t => unguarded_without_record (at_pc t) = true) ts ->
      Forall (fun c => on_response loads (answer (env c)) = None) sched ->
      schedule_data (fields (run loads repr_list cfg sched
                                 {| fields := sh; tasks := ts |})) = schedule_data sh
      /\ written (fields (run loads repr_list cfg sched
                              {| fields := sh; tasks := ts |})) = written sh).
Proof.
  intros Hts. split.
  - assert (Hgen : forall st, Forall (fun t => unguarded (at_pc t) = true) (tasks st) ->
              failed_dates (fields (run loads repr_list cfg sched st))
              = failed_dates (fields st)).
    { induction sched as [| c rest IH]; intros st Hst; [done |].
      simpl.
      destruct (step_all unguarded (fun s => failed_dates s = failed_dates (fields st))
                         c st) as [H1 H2]; [| done | done |].
      - intros t Ht HQ. destruct (unguarded_step_task (env c) (fields st) t Ht). by split.
      - rewrite (IH _ H1). done. }
    by apply (Hgen {| fields := sh; tasks := ts |}).
  - intros Hts' Hfail.
    assert (Hgen : forall st,
              Forall (fun t => unguarded_without_record (at_pc t) = true) (tasks st) ->
              schedule_data (fields (run loads repr_list cfg sched st))
              = schedule_data (fields st)
              /\ written (fields (run loads repr_list cfg sched st)) = written (fields st)).
    { induction sched as [| c rest IH]; intros st Hst; [done |].
      apply Forall_cons in Hfail as [Hc Hrest]. simpl.
      destruct (step_all unguarded_without_record
                  (fun s => schedule_data s = schedule_data (fields st)
                            /\ written s = written (fields st))
                  c st) as [H1 [H2 H3]]; [| done | done |].
      - intros t Ht _.
        destruct (failing_step_task (env c) (fields st) t Ht Hc) as (? & ? & ?). done.
      - destruct (IH Hrest _ H1) as [I1 I2]. by rewrite I1, I2. }
    by apply (Hgen {| fields := sh; tasks := ts |}).
Qed.

End Machine.

Lemma locks_exclude_and_are_released_witness :
  generation_lock (fresh_fields ∅ ∅) = false
  /\ data_lock (fresh_fields ∅ ∅) = false
  /\ Forall (fun t => at_start (at_pc t) = true) (tasks request_and_cron)
  /\ generation_lock (fields (run Json.loads (fun _ => []) example_config
                                  cron_then_request request_and_cron)) = false.
Proof.
  assert (H1 : generation_lock (fresh_fields ∅ ∅) = false) by reflexivity.
  assert (H2 : data_lock (fresh_fields ∅ ∅) = false) by reflexivity.
  assert (H3 : Forall (fun t => at_start (at_pc t) = true) (tasks request_and_cron))
    by (repeat constructor).
  repeat (split; [assumption |]).
  refine (proj1 (proj2 (proj2 (locks_exclude_and_are_released Json.loads (fun _ => [])
            example_config (fresh_fields ∅ ∅) (tasks request_and_cron)
            cron_then_request H1 H2 H3)) _)).
  vm_compute. repeat constructor.
Defined.

Lemma unguarded_failure_leaves_no_mark_witness :
  Forall (fun t => unguarded (at_pc t) = true) (tasks (cron_alone (fresh_fields ∅ ∅)))
  /\ failed_dates (fields (run Json.loads (fun _ => []) example_config
        (replicate 3 {| who := 0;
                        env := {| prompt_ok := true; provider := true;
                                  answer := ChatRaises |} |})
        {| fields := fresh_fields ∅ ∅; tasks := tasks (cron_alone (fresh_fields ∅ ∅)) |}))
     = failed_dates (fresh_fields ∅ ∅).
Proof.
  assert (H1 : Forall (fun t => unguarded (at_pc t) = true)
                      (tasks (cron_alone (fresh_fields ∅ ∅)))) by (repeat constructor).
  split; [exact H1 |].
  exact (proj1 (unguarded_failure_leaves_no_mark Json.loads (fun _ => []) example_config
                  (fresh_fields ∅ ∅) _ _ H1)).
Defined.

End LocksFacts.

Module AnswersFacts.
Import Text Json Extractor ExtractorFacts Answers.

Lemma fold_scan_app (a b : pystr) (st : scan_state) :
  fold_left scan_char (a ++ b) st = fold_left scan_char b (fold_left scan_char a st).
Proof. apply fold_left_app. Qed.

(** Outside a string the escape flag is down. *)
Lemma escape_only_in_string (s : pystr) :
  in_string (state_after s) = false -> escape (state_after s) = false.
Proof.
  induction s as [| c s IH] using rev_ind; [done |].
  rewrite state_after_snoc. unfold scan_char.
  destruct (in_string (state_after s)) eqn:Hin.
  - destruct (escape (state_after s)) eqn:He; [done |].
    destruct (c =? backslash); [done |]. destruct (c =? dquote); [done | by rewrite Hin].
  - specialize (IH eq_refl).
    destruct (c =? dquote); [done |].
    destruct (c =? lbrace); [done |]. destruct (c =? rbrace); [done | by rewrite Hin].
Qed.

Lemma prefix_is_take (q l : pystr) : q `prefix_of` l -> exists n, q = take n l.
Proof. intros [k ->]. exists (length q). by rewrite take_app_length. Qed.

Lemma prefix_app_split (q a b : pystr) :
  q `prefix_of` a ++ b ->
  q `prefix_of` a \/ exists q', q = a ++ q' /\ q' `prefix_of` b.
Proof.
  intros [n ->]%prefix_is_take. rewrite take_app.
  destruct (decide (n <= length a)%nat) as [Hle | Hgt].
  - left. replace (n - length a)%nat with 0%nat by lia.
    rewrite take_0, app_nil_r. apply prefix_take.
  - right. exists (take (n - length a) b). split; [| apply prefix_take].
    by rewrite take_ge by lia.
Qed.

(** A whole item leaves the variables as they are. *)
Lemma item_keeps_state (it : str_item) (level : Z) :
  item_ok it = true -> fold_left scan_char (item_text it) (inside level) = inside level.
Proof.
  destruct it as [c | c]; simpl.
  - intros [Hq Hb]%andb_true_iff. apply negb_true_iff in Hq, Hb.
    unfold scan_char. simpl. by rewrite Hb, Hq.
  - intros _. unfold scan_char. by simpl.
Qed.

Lemma items_keep_state (items : list str_item) (level : Z) :
  Forall (fun it => item_ok it = true) items ->
  fold_left scan_char (concat (map item_text items)) (inside level) = inside level.
Proof.
  induction 1 as [| it items Hit _ IH]; [done |].
  simpl. by rewrite fold_scan_app, item_keeps_state.
Qed.

(** Any part of an item leaves the scan inside the string. *)
Lemma item_part_inside (it : str_item) (q : pystr) (level : Z) :
  item_ok it = true -> q `prefix_of` item_text it ->
  in_string (fold_left scan_char q (inside level)) = true.
Proof.
  intros Hit [n ->]%prefix_is_take.
  destruct it as [c | c]; simpl in *.
  - apply andb_true_iff in Hit as [Hq Hb]. apply negb_true_iff in Hq, Hb.
    destruct n as [| n]; [done |]. simpl. rewrite take_nil. simpl.
    unfold scan_char. simpl. by rewrite Hb, Hq.
  - destruct n as [| [| n]]; [done | |]; simpl; rewrite ?take_nil; simpl;
      unfold scan_char; by simpl.
Qed.

Lemma items_part_inside (items : list str_item) (q : pystr) (level : Z) :
  Forall (fun it => item_ok it = true) items ->
  q `prefix_of` concat (map item_text items) ->
  in_string (fold_left scan_char q (inside level)) = true.
Proof.
  intros Hok. revert q. induction Hok as [| it items Hit _ IH]; intros q Hq.
  - simpl in Hq. by apply prefix_nil_inv in Hq as ->.
  - simpl in Hq. apply prefix_app_split in Hq as [Hq | (q' & -> & Hq')].
    + by apply (item_part_inside it).
    + rewrite fold_scan_app, item_keeps_state by done. by apply IH.
Qed.

(** Read outside any string, a quoted text leaves the scan variables as
    they were and closes no candidate. *)
Lemma string_is_opaque (p : pystr) (items : list str_item) :
  in_string (state_after p) = false ->
  Forall (fun it => item_ok it = true) items ->
  state_after (p ++ string_text items) = state_after p
  /\ forall q c, q `prefix_of` concat (map item_text items) ->
                 closes (state_after (p ++ dquote :: q)) c = false.
Proof.
  intros Hin Hok.
  pose proof (escape_only_in_string p Hin) as Hesc.
  assert (Hopen : state_after (p ++ [dquote]) = inside (brace_level (state_after p))).
  { rewrite state_after_snoc. unfold scan_char. rewrite Hin. simpl. by rewrite Hesc. }
  split.
  - unfold string_text.
    replace (p ++ dquote :: concat (map item_text items) ++ [dquote])
      with (((p ++ [dquote]) ++ concat (map item_text items)) ++ [dquote])
      by (by rewrite <- !app_assoc).
    rewrite state_after_snoc. unfold state_after at 1.
    rewrite fold_scan_app. fold (state_after (p ++ [dquote])).
    rewrite Hopen, items_keep_state by done.
    unfold scan_char. simpl.
    destruct (state_after p) as [l i e]. simpl in *. by subst.
  - intros q c Hq.
    replace (p ++ dquote :: q) with ((p ++ [dquote]) ++ q) by (by rewrite <- app_assoc).
    unfold state_after. rewrite fold_scan_app. fold (state_after (p ++ [dquote])).
    rewrite Hopen. unfold closes.
    by rewrite (items_part_inside items q _ Hok Hq).
Qed.

(** X22: A string is opaque to the scan.  Read outside any string, a quoted
    text (with braces, escaped quotes and escaped backslashes in it, as
    may be) leaves the depth and the other scan variables exactly as they
    were, and at no point inside it is a candidate closed. *)
Theorem quoted_text_is_opaque (p : pystr) (items : list str_item) :
  in_string (state_after p) = false ->
  Forall (fun it => item_ok it = true) items ->
  state_after (p ++ string_text items) = state_after p
  /\ forall q c, q `prefix_of` concat (map item_text items) ->
                 closes (state_after (p ++ dquote :: q)) c = false.
Proof. apply string_is_opaque. Qed.

Lemma lstrip_keeps (c : char) (s : pystr) : is_space c = false -> lstrip (c :: s) = c :: s.
Proof. intros H. simpl. by rewrite H. Qed.

Lemma strip_keeps (a b : char) (s : pystr) :
  is_space a = false -> is_space b = false -> strip (a :: s ++ [b]) = a :: s ++ [b].
Proof.
  intros Ha Hb. unfold strip, rstrip. rewrite lstrip_keeps by done.
  change (a :: s ++ [b]) with ((a :: s) ++ [b]). rewrite rev_app_distr. simpl.
  rewrite Hb. change (b :: rev s ++ [a]) with ([b] ++ rev (a :: s)).
  rewrite rev_app_distr, rev_involutive. done.
Qed.

Lemma starts_with_app (m s : pystr) : starts_with m (m ++ s) = true.
Proof. induction m as [| c m IH]; [done |]. simpl. by rewrite N.eqb_refl. Qed.

Lemma sub_bol_open (fuel : nat) (m0 : char) (m rest : pystr) :
  exists bol',
    sub_bol_fuel (S fuel) (m0 :: m) true ((m0 :: m) ++ rest)
    = sub_bol_fuel fuel (m0 :: m) bol' (lstrip rest).
Proof.
  pose proof (starts_with_app (m0 :: m) rest) as Hs.
  pose proof (drop_app_length (m0 :: m) rest) as Hd.
  remember (m0 :: m) as marker eqn:Hm.
  destruct (marker ++ rest) as [| c r] eqn:Hr; [by subst marker |].
  cbn [sub_bol_fuel andb]. rewrite Hs, Hd. eexists. reflexivity.
Qed.

Lemma sub_bol_never (marker s : pystr) (fuel : nat) (bol : bool) :
  never_starts marker s = true -> sub_bol_fuel fuel marker bol s = s.
Proof.
  revert fuel bol. induction s as [| c s IH]; intros fuel bol Hn.
  - by destruct fuel.
  - destruct fuel as [| fuel]; [done |].
    simpl in Hn. apply andb_true_iff in Hn as [Hc Hs]. apply negb_true_iff in Hc.
    cbn [sub_bol_fuel]. rewrite Hc, andb_false_r. by rewrite IH.
Qed.

Lemma never_starts_skip (m body tail : pystr) :
  backtick ∉ body ->
  never_starts (backtick :: m) (body ++ tail) = never_starts (backtick :: m) tail.
Proof.
  induction body as [| c body IH]; intros Hb; [done |].
  apply not_elem_of_cons in Hb as [Hc Hb].
  cbn [app never_starts starts_with].
  replace (backtick =? c) with false by (symmetry; by apply N.eqb_neq).
  simpl. by apply IH.
Qed.

Lemma sub_bol_fence_body (body : pystr) (fuel : nat) (bol : bool) :
  backtick ∉ body -> (length body + 2 <= fuel)%nat ->
  sub_bol_fuel fuel fence bol (body ++ newline :: fence) = body ++ [newline].
Proof.
  revert fuel bol. induction body as [| c body IH]; intros fuel bol Hb Hf.
  - destruct fuel as [| [| fuel]]; [simpl in Hf; lia | simpl in Hf; lia |].
    simpl. rewrite andb_false_r. by destruct fuel.
  - apply not_elem_of_cons in Hb as [Hc Hb].
    destruct fuel as [| fuel]; [simpl in Hf; lia |].
    cbn [app sub_bol_fuel]. change fence with [backtick; backtick; backtick].
    cbn [starts_with].
    replace (backtick =? c) with false by (symmetry; by apply N.eqb_neq).
    rewrite andb_false_r. cbn [andb]. f_equal.
    apply IH; [done | simpl in Hf; lia].
Qed.

Lemma sub_eol_no_backtick (s : pystr) (fuel : nat) :
  backtick ∉ s -> sub_eol_fuel fuel fence s = s.
Proof.
  revert fuel. induction s as [| c s IH]; intros fuel Hb.
  - by destruct fuel.
  - apply not_elem_of_cons in Hb as [Hc Hb].
    destruct fuel as [| fuel]; [done |].
    cbn [sub_eol_fuel]. change fence with [backtick; backtick; backtick].
    cbn [starts_with].
    replace (backtick =? c) with false by (symmetry; by apply N.eqb_neq).
    cbn [andb]. by rewrite IH.
Qed.

(** The cleaning step on a fenced answer. *)
Lemma clean_fenced (c : char) (body : pystr) :
  is_space c = false -> backtick ∉ c :: body ->
  clean (fenced (c :: body)) = c :: body ++ [newline].
Proof.
  intros Hc Hb.
  unfold clean, fenced.
  (* strip *)
  assert (Hstrip : strip (fence_json ++ [newline] ++ (c :: body) ++ [newline] ++ fence)
                   = fence_json ++ [newline] ++ (c :: body) ++ [newline] ++ fence).
  { change (fence_json ++ [newline] ++ (c :: body) ++ [newline] ++ fence)
      with (backtick :: (lit "``json" ++ [newline] ++ (c :: body) ++ [newline]
                         ++ [backtick; backtick]) ++ [backtick])
      || (replace (fence_json ++ [newline] ++ (c :: body) ++ [newline] ++ fence)
            with (backtick :: (lit "``json" ++ [newline] ++ (c :: body) ++ [newline]
                               ++ [backtick; backtick]) ++ [backtick])
            by (cbn; by rewrite <- !app_assoc)).
    by apply strip_keeps. }
  rewrite Hstrip.
  (* the opening fence *)
  assert (Hopen : sub_bol fence_json
                    (fence_json ++ [newline] ++ (c :: body) ++ [newline] ++ fence)
                  = (c :: body) ++ newline :: fence).
  { unfold sub_bol.
    destruct (sub_bol_open (length (fence_json ++ [newline] ++ (c :: body)
                                     ++ [newline] ++ fence))
                backtick (lit "``json")
                ([newline] ++ (c :: body) ++ [newline] ++ fence)) as [bol' Ho].
    etransitivity; [exact Ho |]. clear Ho.
    cbn [app lstrip]. change (is_space newline) with true. cbn iota.
    rewrite Hc.
    apply sub_bol_never.
    change (c :: body ++ newline :: fence) with ((c :: body) ++ newline :: fence).
    by rewrite never_starts_skip. }
  rewrite Hopen.
  (* the closing fence *)
  unfold sub_bol. rewrite sub_bol_fence_body; [| done | rewrite length_app; simpl; lia].
  (* nothing left for the third pattern *)
  unfold sub_eol. rewrite sub_eol_no_backtick; [done |].
  rewrite elem_of_app. intros [? | Hn]; [done |].
  apply list_elem_of_singleton in Hn. done.
Qed.

(** X23: An answer wrapped in a [```json] fence is unwrapped: when the body
    holds no backtick and starts with a character that is no white space,
    the cleaning step leaves the body and the line break after it, so the
    scan runs on the body alone. *)
Theorem fenced_answer_is_unwrapped (loads : pystr -> loads_result) (c : char)
        (body : pystr) :
  is_space c = false -> backtick ∉ c :: body ->
  clean (fenced (c :: body)) = c :: body ++ [newline]
  /\ (c = lbrace ->
      extract_json_from_text loads (fenced (c :: body))
      = scan loads (c :: body ++ [newline]) 0 scan_init (c :: body ++ [newline])).
Proof.
  intros Hc Hb.
  pose proof (clean_fenced c body Hc Hb) as Hclean.
  split; [done |].
  intros ->. unfold extract_json_from_text. rewrite Hclean. simpl. done.
Qed.

Lemma quoted_text_is_opaque_witness :
  in_string (state_after (lit "{")) = false
  /\ Forall (fun it => item_ok it = true) [Plain 97; Plain lbrace; Escaped dquote; Plain rbrace]
  /\ state_after (lit "{" ++ string_text [Plain 97; Plain lbrace; Escaped dquote; Plain rbrace])
     = state_after (lit "{").
Proof.
  assert (H1 : in_string (state_after (lit "{")) = false) by reflexivity.
  assert (H2 : Forall (fun it => item_ok it = true)
                      [Plain 97; Plain lbrace; Escaped dquote; Plain rbrace])
    by (repeat constructor).
  split; [exact H1 | split; [exact H2 |]].
  exact (proj1 (quoted_text_is_opaque (lit "{") _ H1 H2)).
Defined.

Lemma fenced_answer_is_unwrapped_witness :
  is_space lbrace = false
  /\ (backtick ∉ lbrace :: [rbrace])
  /\ clean (fenced (lbrace :: [rbrace])) = lbrace :: [rbrace] ++ [newline].
Proof.
  assert (H1 : is_space lbrace = false) by reflexivity.
  assert (H2 : backtick ∉ lbrace :: [rbrace]).
  { intros H. repeat (apply elem_of_cons in H as [H | H]; [done |]).
    by apply elem_of_nil in H. }
  split; [exact H1 | split; [exact H2 |]].
  exact (proj1 (fenced_answer_is_unwrapped Json.loads lbrace [rbrace] H1 H2)).
Defined.

End AnswersFacts.

Module ChatsFacts.
Import Text Json Extractor Pipeline Chats.

Lemma last_items_app {A : Type} (count : Z) (older items : list A) :
  (Z.to_nat count <= length items)%nat ->
  last_items count (older ++ items) = last_items count items.
Proof.
  intros Hc. unfold last_items. rewrite length_app.
  replace (length older + length items - Z.to_nat count)%nat
    with (length older + (length items - Z.to_nat count))%nat by lia.
  by rewrite drop_app_add.
Qed.

Lemma join_lines_first (l : pystr) (rest : list pystr) (c : char) (l' : pystr) :
  l = c :: l' -> exists tail, join_lines (l :: rest) = c :: tail.
Proof. intros ->. destruct rest; simpl; eauto. Qed.

Section WithBuiltins.
Variable loads_any : pystr -> py json.
Variable str_of : json -> pystr.

Lemma format_loop_raises (msgs : list json) (formatted : list pystr) :
  Exists (fun m => is_object m = false) msgs ->
  format_loop str_of msgs formatted = Raise.
Proof.
  intros Hex. revert formatted.
  induction Hex as [m rest Hm | m rest Hex IH]; intros formatted.
  - destruct m; try done.
  - simpl. destruct (format_message str_of m) as [[line |] |]; [apply IH | apply IH | done].
Qed.

(** X24: Only the window counts.  With a positive [count] and a history list
    of at least that many messages, whatever stands before the last
    [count] messages (also entries that are no messages at all) does not
    change the text. *)
Theorem old_messages_do_not_matter (h h' : pystr) (older items : list json)
        (count : Z) :
  (0 < count)%Z -> (Z.to_nat count <= length items)%nat ->
  h ≠ [] -> h' ≠ [] ->
  loads_any h = Return (JArr (older ++ items)) ->
  loads_any h' = Return (JArr items) ->
  get_recent_chats loads_any str_of (HistoryText h) count
  = get_recent_chats loads_any str_of (HistoryText h') count.
Proof.
  intros Hpos Hlen Hh Hh' Hl Hl'.
  destruct h as [| a h]; [done |]. destruct h' as [| a' h']; [done |].
  unfold get_recent_chats. rewrite Hl, Hl'. unfold recent.
  destruct (Z.ltb_spec 0 count) as [_ | ?]; [| lia].
  by rewrite last_items_app.
Qed.

(** X25: One entry of the window that is no JSON object (a string, a number, a
    list) makes the whole chat read as the failure text, the lines of the
    well-formed messages around it being lost; and a history that decodes
    to something that cannot be sliced does the same. *)
Theorem malformed_message_spoils_chat (h : pystr) (history : json) (count : Z) :
  (0 < count)%Z -> h ≠ [] ->
  loads_any h = Return history ->
  match history with
  | JArr items => Exists (fun m => is_object m = false) (last_items count items)
  | JStr s => s ≠ []
  | _ => True
  end ->
  get_recent_chats loads_any str_of (HistoryText h) count = lookup_failed.
Proof.
  intros Hpos Hh Hl Hbad. destruct h as [| a h]; [done |].
  unfold get_recent_chats. rewrite Hl. unfold recent.
  destruct (Z.ltb_spec 0 count) as [_ | ?]; [| lia].
  destruct history as [| | | s | items |]; try done.
  - assert (Hne : last_items count s ≠ []).
    { unfold last_items. intros Hd. apply (f_equal length) in Hd.
      rewrite length_drop in Hd. simpl in Hd.
      destruct s; [done |]. simpl in Hd. lia. }
    destruct (last_items count s) as [| c r]; [done |]. done.
  - by rewrite format_loop_raises.
Qed.

(** A [count] of zero or less gives the empty text whatever the history
    decodes to. *)
Lemma no_count_no_text (h : pystr) (history : json) (count : Z) :
  (count <= 0)%Z -> h ≠ [] -> loads_any h = Return history ->
  get_recent_chats loads_any str_of (HistoryText h) count = [].
Proof.
  intros Hc Hh Hl. destruct h as [| a h]; [done |].
  unfold get_recent_chats. rewrite Hl. unfold recent.
  destruct (Z.ltb_spec 0 count) as [? | _]; [lia |]. done.
Qed.

Lemma chat_sections_acc (refs : list (ChatReference * conv_lookup)) (chats : list pystr) :
  chat_sections loads_any str_of refs chats
  = chats ++ chat_sections loads_any str_of refs [].
Proof.
  revert chats. induction refs as [| [ref look] rest IH]; intros chats.
  - simpl. by rewrite app_nil_r.
  - simpl. destruct (get_recent_chats loads_any str_of look (count ref)) as [| c t].
    + apply IH.
    + rewrite IH. rewrite (IH [chat_section _ _]). by rewrite app_assoc.
Qed.

Lemma chat_sections_empty (refs : list (ChatReference * conv_lookup)) :
  chat_sections loads_any str_of refs [] = []
  <-> Forall (fun rl => get_recent_chats loads_any str_of rl.2 (count rl.1) = []) refs.
Proof.
  induction refs as [| [ref look] rest IH]; [by split |].
  simpl. destruct (get_recent_chats loads_any str_of look (count ref)) as [| c t] eqn:Hg.
  - rewrite IH. split; [by constructor | by inversion 1].
  - rewrite chat_sections_acc. split; [done |]. inversion 1 as [| ? ? Hhd]. simpl in Hhd.
    by rewrite Hg in Hhd.
Qed.

Lemma chat_sections_dash (refs : list (ChatReference * conv_lookup)) :
  Forall (fun s => exists t, s = 45 :: t) (chat_sections loads_any str_of refs []).
Proof.
  induction refs as [| [ref look] rest IH]; [constructor |].
  simpl. destruct (get_recent_chats loads_any str_of look (count ref)) as [| c t]; [done |].
  rewrite chat_sections_acc. constructor; [| done]. unfold chat_section. simpl. eauto.
Qed.

(** X26: The prompt gets the placeholder for "no recent chats" exactly when
    every referenced chat gives the empty text; every other text, the two
    error texts included, is put into the prompt under the chat's
    header. *)
Theorem placeholder_iff_all_chats_empty (refs : list (ChatReference * conv_lookup)) :
  (recent_chats_str loads_any str_of refs = no_recent_chats
   <-> Forall (fun rl => get_recent_chats loads_any str_of rl.2 (count rl.1) = []) refs)
  /\ (forall ref look, (ref, look) ∈ refs ->
        get_recent_chats loads_any str_of look (count ref) ≠ [] ->
        chat_section (umo ref) (get_recent_chats loads_any str_of look (count ref))
        ∈ chat_sections loads_any str_of refs []).
Proof.
  split.
  - rewrite <- chat_sections_empty. unfold recent_chats_str.
    destruct refs as [| rl rest]; [done |].
    pose proof (chat_sections_dash (rl :: rest)) as Hd.
    destruct (chat_sections loads_any str_of (rl :: rest) []) as [| s ss]; [done |].
    apply Forall_cons in Hd as [[t Hs] _].
    destruct (join_lines_first s ss 45 t Hs) as [tail Hj]. rewrite Hj. done.
  - intros ref look Hin Hne. induction refs as [| [ref' look'] rest IH].
    + by apply elem_of_nil in Hin.
    + simpl. apply elem_of_cons in Hin as [Heq | Hin].
      * inversion Heq; subst ref' look'.
        destruct (get_recent_chats loads_any str_of look (count ref)) as [| c t]; [done |].
        rewrite chat_sections_acc. apply elem_of_app. left. apply list_elem_of_here.
      * destruct (get_recent_chats loads_any str_of look' (count ref')) as [| c t];
          [by apply IH |].
        rewrite chat_sections_acc. apply elem_of_app. right. by apply IH.
Qed.

End WithBuiltins.

Lemma old_messages_do_not_matter_witness :
  get_recent_chats
    (fun h => if bool_decide (h = lit "a")
              then Return (JArr [JNull; JObj [(lit "role", JStr (lit "user"));
                                              (lit "content", JStr (lit "hi"))]])
              else Return (JArr [JObj [(lit "role", JStr (lit "user"));
                                       (lit "content", JStr (lit "hi"))]]))
    (fun _ => []) (HistoryText (lit "a")) 1
  = user_prefix ++ lit "hi".
Proof.
  rewrite (old_messages_do_not_matter
             (fun h => if bool_decide (h = lit "a")
                       then Return (JArr [JNull; JObj [(lit "role", JStr (lit "user"));
                                                       (lit "content", JStr (lit "hi"))]])
                       else Return (JArr [JObj [(lit "role", JStr (lit "user"));
                                                (lit "content", JStr (lit "hi"))]]))
             (fun _ => []) (lit "a") (lit "b") [JNull]
             [JObj [(lit "role", JStr (lit "user")); (lit "content", JStr (lit "hi"))]] 1
             ltac:(lia) ltac:(simpl; lia) ltac:(done) ltac:(done) eq_refl eq_refl).
  reflexivity.
Defined.

Lemma malformed_message_spoils_chat_witness :
  get_recent_chats
    (fun _ => Return (JArr [JObj [(lit "role", JStr (lit "user"));
                                  (lit "content", JStr (lit "hi"))];
                            JStr (lit "note")]))
    (fun _ => []) (HistoryText (lit "a")) 2
  = lookup_failed.
Proof.
  apply (malformed_message_spoils_chat
           (fun _ => Return (JArr [JObj [(lit "role", JStr (lit "user"));
                                         (lit "content", JStr (lit "hi"))];
                                   JStr (lit "note")]))
           (fun _ => []) (lit "a") _ 2 ltac:(lia) ltac:(done) eq_refl).
  apply Exists_cons_tl, Exists_cons_hd. reflexivity.
Defined.

End ChatsFacts.

Module InjectFacts.
Import Text Json Extractor Pipeline Guard Chats Inject.

(** X27: Over the hours of a day the status is "about to end" at 23 only (22
    still counts as under way) and "just started" before 9. *)
Theorem status_ends_at_23_only (now_hour : Z) :
  (0 <= now_hour <= 23)%Z ->
  (status now_hour = about_to_end <-> now_hour = 23%Z)
  /\ (status now_hour = just_started <-> (now_hour < 9)%Z)
  /\ (status now_hour = in_progress <-> (9 <= now_hour <= 22)%Z).
Proof.
  intros Hh. unfold status.
  destruct (Z.ltb_spec now_hour 9); [repeat split; (done || lia) |].
  destruct (Z.ltb_spec 22 now_hour); repeat split; (done || lia).
Qed.

Lemma status_ends_at_23_only_witness :
  (0 <= 22 <= 23)%Z /\ (status 22 = in_progress <-> (9 <= 22 <= 22)%Z).
Proof.
  assert (H : (0 <= 22 <= 23)%Z) by lia.
  split; [exact H |].
  exact (proj2 (proj2 (status_ends_at_23_only 22 H))).
Defined.

Section Machine.
Variable loads : pystr -> loads_result.
Variable repr_list : list json -> pystr.
Variable cfg : SchedulerConfig.
Variable str_of : option json -> pystr.

(** X28: A cached value for today that is no JSON object (as a hand-edited
    [data.json] may hold) is never repaired by a request: the handler
    skips the generation, leaves every shared field as it is, and then
    raises when it builds the text for the system prompt. *)
Theorem malformed_day_breaks_requests (env : gen_env) (sh : shared) (t : task)
        (session_id : pystr) (v : json) (now_hour : Z) (system_prompt : pystr) :
  at_pc t = LStart session_id -> session_id ≠ reserved_session ->
  schedule_data sh !! today_str t = Some v -> is_object v = false ->
  step_task loads repr_list cfg env sh t = (sh, Done)
  /\ inject str_of (schedule_data sh) (today_str t) now_hour system_prompt = Raise.
Proof.
  intros Hpc Hsid Hv Hobj. split.
  - unfold step_task. rewrite Hpc. case_bool_decide; [done |].
    unfold absent. by rewrite Hv.
  - unfold inject. rewrite Hv. by destruct v.
Qed.

End Machine.

Lemma malformed_day_breaks_requests_witness :
  inject (fun _ => []) (<[day_key 738946 := JStr (lit "rest")]> ∅)
         (day_key 738946) 10 (lit "p") = Raise.
Proof.
  refine (proj2 (malformed_day_breaks_requests Json.loads (fun _ => []) example_config
                   (fun _ => []) (answering (lit "x"))
                   (fresh_fields (<[day_key 738946 := JStr (lit "rest")]> ∅) ∅)
                   {| today := 738946; at_pc := LStart (lit "s") |}
                   (lit "s") (JStr (lit "rest")) 10 (lit "p") eq_refl _ _ eq_refl)).
  - done.
  - apply lookup_insert_eq.
Defined.

End InjectFacts.

Module CacheFacts.
Import Text Json Extractor Calendar Pipeline Guard GuardFacts Locks LocksFacts.

#[local] Arguments day_key : simpl never.

Section Machine.
Variable loads : pystr -> loads_result.
Variable repr_list : list json -> pystr.
Variable cfg : SchedulerConfig.

(** A trigger that has not passed the test yet. *)
Lemma tested_on_cached_day (e : gen_env) (sh : shared) (t : task) (v : json) :
  schedule_data sh !! today_str t = Some v ->
  ((exists sid, at_pc t = LStart sid) -> step_task loads repr_list cfg e sh t = (sh, Done))
  /\ (at_pc t = LRecheck ->
      step_task loads repr_list cfg e sh t = (set_generation_lock false sh, Done)).
Proof.
  intros Hv. unfold step_task, absent. split.
  - intros [sid ->]. rewrite Hv. by case_bool_decide.
  - intros ->. by rewrite Hv.
Qed.

(** With the day cached, a request that has not got past its tests does
    not get past them: a step keeps the record and keeps the request on
    this side of the generation. *)
Lemma waiting_trigger_step (n : Z) (i : nat) (c : choice) (st : state) :
  is_Some (schedule_data (fields st) !! day_key n) ->
  (exists t, tasks st !! i = Some t /\ today t = n /\ before_generation (at_pc t) = true) ->
  is_Some (schedule_data (fields (step loads repr_list cfg c st)) !! day_key n)
  /\ exists t, tasks (step loads repr_list cfg c st) !! i = Some t /\ today t = n
               /\ before_generation (at_pc t) = true.
Proof.
  intros Hcached (t & Ht & Hn & Hpc).
  unfold step. destruct (tasks st !! who c) as [u |] eqn:Hu; [| by eauto].
  pose proof (step_task_keeps loads repr_list cfg (env c) (fields st) u (day_key n))
    as (Hkeep & _).
  destruct (step_task loads repr_list cfg (env c) (fields st) u) as [sh' p'] eqn:Hstep.
  cbn [fields tasks fst] in *.
  split; [by apply Hkeep |].
  destruct (decide (who c = i)) as [Hi | Hi].
  - subst i. rewrite Ht in Hu. injection Hu as <-.
    exists {| today := today t; at_pc := p' |}.
    split; [apply list_lookup_insert_eq; by eapply lookup_lt_Some |].
    split; [done |]. cbn [at_pc].
    destruct Hcached as [v Hv].
    assert (Hv' : schedule_data (fields st) !! today_str t = Some v)
      by (unfold today_str; by rewrite Hn).
    destruct (tested_on_cached_day (env c) (fields st) t v Hv') as [Hs Hr].
    destruct (at_pc t) as [sid | | | | | | | | | | | | | |] eqn:Hp; try done.
    + rewrite (Hs (ex_intro _ sid eq_refl)) in Hstep. by injection Hstep as _ <-.
    + unfold step_task in Hstep. rewrite Hp in Hstep.
      destruct (generation_lock (fields st)); by injection Hstep as _ <-.
    + rewrite (Hr eq_refl) in Hstep. by injection Hstep as _ <-.
    + unfold step_task in Hstep. rewrite Hp in Hstep. by injection Hstep as _ <-.
  - exists t. split; [by rewrite list_lookup_insert_ne | done].
Qed.

Lemma waiting_trigger_run (n : Z) (i : nat) (sched : list choice) (st : state) :
  is_Some (schedule_data (fields st) !! day_key n) ->
  (exists t, tasks st !! i = Some t /\ today t = n /\ before_generation (at_pc t) = true) ->
  is_Some (schedule_data (fields (run loads repr_list cfg sched st)) !! day_key n)
  /\ exists t, tasks (run loads repr_list cfg sched st) !! i = Some t /\ today t = n
               /\ before_generation (at_pc t) = true.
Proof.
  revert st. induction sched as [| c sched IH]; intros st Hc Ht; [done |].
  simpl. destruct (waiting_trigger_step n i c st Hc Ht) as [Hc' Ht'].
  by apply IH.
Qed.

(** What the handlers other than a request at its test do to a cached
    record, run alone. *)
Lemma unguarded_replaces (n : Z) (sh : shared) (o : origin) (e : gen_env) (r : dict) :
  data_lock sh = false ->
  begin_generation repr_list cfg (schedule_data sh) n e = Some true ->
  on_response loads (answer e) = Some r ->
  schedule_data (fields (run loads repr_list cfg
      (replicate 5 {| who := 0; env := e |})
      {| fields := sh; tasks := [{| today := n; at_pc := UStart o |}] |}))
    !! day_key n = Some (JObj r)
  /\ text_chat_count (fields (run loads repr_list cfg
      (replicate 5 {| who := 0; env := e |})
      {| fields := sh; tasks := [{| today := n; at_pc := UStart o |}] |}))
     = S (text_chat_count sh).
Proof.
  intros Hlock Hbegin Hresp.
  unfold run. cbn [replicate fold_left].
  erewrite step_single;
    [| unfold step_task; cbn [at_pc today]; rewrite Hbegin; reflexivity].
  erewrite step_single;
    [| unfold step_task; cbn [at_pc today]; rewrite Hresp; reflexivity].
  erewrite step_single;
    [| unfold step_task; cbn [at_pc today];
       change (data_lock (count_call sh)) with (data_lock sh);
       rewrite Hlock; reflexivity].
  erewrite step_single;
    [| unfold step_task; cbn [at_pc today];
       change (data_lock (assign ?[k] r (count_call sh))) with (data_lock sh);
       rewrite Hlock; reflexivity].
  erewrite step_single; [| unfold step_task; cbn [at_pc today]; reflexivity].
  cbn [fields].
  split; [apply lookup_insert_eq | done].
Qed.

(** A request whose generation is under way, run alone to its end. *)
Lemma late_request_replaces (n : Z) (sh : shared) (e : gen_env) (r : dict) :
  data_lock sh = false ->
  on_response loads (answer e) = Some r ->
  schedule_data (fields (run loads repr_list cfg
      (replicate 4 {| who := 0; env := e |})
      {| fields := sh; tasks := [{| today := n; at_pc := LAwait |}] |}))
    !! day_key n = Some (JObj r)
  /\ text_chat_count (fields (run loads repr_list cfg
      (replicate 4 {| who := 0; env := e |})
      {| fields := sh; tasks := [{| today := n; at_pc := LAwait |}] |}))
     = text_chat_count sh.
Proof.
  intros Hlock Hresp.
  unfold run. cbn [replicate fold_left].
  erewrite step_single;
    [| unfold step_task; cbn [at_pc today]; rewrite Hresp; reflexivity].
  erewrite step_single;
    [| unfold step_task; cbn [at_pc today]; rewrite Hlock; reflexivity].
  erewrite step_single;
    [| unfold step_task; cbn [at_pc today];
       change (data_lock (assign ?[k] r sh)) with (data_lock sh);
       rewrite Hlock; reflexivity].
  erewrite step_single; [| unfold step_task; cbn [at_pc today]; reflexivity].
  cbn [fields].
  split; [apply lookup_insert_eq | done].
Qed.

(** C2, as the code has it.  The guard of a request is a test made before
    the generation.  With the day cached, (1) in any mix of handlers and
    any interleaving the record stays cached (it may be replaced, never
    removed) and a request that has not got past its tests (it is at its
    start, waits for the lock or is at the re-check under the lock) never
    gets past them: it neither generates nor assigns, and the step that
    makes the test leaves every field as it is but for the lock it gives
    back; (2) so when only requests run nothing
    changes at all.  But (3) the cron job and the regenerate command
    generate without a look at the cache and put their record in the place
    of the cached one, and (4) so does a request that passed the test
    while the day was absent and whose generation is under way: when the
    answer comes it assigns without a second look. *)
Theorem cached_day_only_lazy_guarded (n : Z) (sh : shared) (v : json) :
  schedule_data sh !! day_key n = Some v ->
  (forall ts sched i t,
      ts !! i = Some t -> today t = n -> before_generation (at_pc t) = true ->
      is_Some (schedule_data (fields (run loads repr_list cfg sched
                                         {| fields := sh; tasks := ts |})) !! day_key n)
      /\ exists t', tasks (run loads repr_list cfg sched {| fields := sh; tasks := ts |}) !! i
                    = Some t'
                    /\ today t' = n /\ before_generation (at_pc t') = true)
  /\ (forall e sid,
        step_task loads repr_list cfg e sh {| today := n; at_pc := LStart sid |} = (sh, Done))
  /\ (forall e,
        step_task loads repr_list cfg e sh {| today := n; at_pc := LRecheck |}
        = (set_generation_lock false sh, Done))
  /\ (forall sids sched,
        fields (run loads repr_list cfg sched {| fields := sh; tasks := lazy_tasks n sids |})
        = sh)
  /\ (forall o e r,
        data_lock sh = false ->
        begin_generation repr_list cfg (schedule_data sh) n e = Some true ->
        on_response loads (answer e) = Some r ->
        schedule_data (fields (run loads repr_list cfg
            (replicate 5 {| who := 0; env := e |})
            {| fields := sh; tasks := [{| today := n; at_pc := UStart o |}] |}))
          !! day_key n = Some (JObj r)
        /\ text_chat_count (fields (run loads repr_list cfg
            (replicate 5 {| who := 0; env := e |})
            {| fields := sh; tasks := [{| today := n; at_pc := UStart o |}] |}))
           = S (text_chat_count sh))
  /\ (forall e r,
        data_lock sh = false ->
        on_response loads (answer e) = Some r ->
        schedule_data (fields (run loads repr_list cfg
            (replicate 4 {| who := 0; env := e |})
            {| fields := sh; tasks := [{| today := n; at_pc := LAwait |}] |}))
          !! day_key n = Some (JObj r)).
Proof.
  intros Hv.
  split; [| split; [| split; [| split; [| split]]]].
  - intros ts sched i t Ht Hn Hp.
    apply (waiting_trigger_run n i sched {| fields := sh; tasks := ts |});
      [by eexists | by exists t].
  - intros e sid.
    apply (proj1 (tested_on_cached_day e sh {| today := n; at_pc := LStart sid |} v Hv)).
    by exists sid.
  - intros e.
    by apply (proj2 (tested_on_cached_day e sh {| today := n; at_pc := LRecheck |} v Hv)).
  - intros sids sched.
    assert (Habs : absent sh (day_key n) = false).
    { apply absent_false. left. by eexists. }
    by destruct (idle_run loads repr_list cfg n sh sched _ 0%nat Habs (idle_init n sh sids))
      as [[-> _] _].
  - intros o e r Hlock Hbegin Hresp. by apply unguarded_replaces.
  - intros e r Hlock Hresp. by apply late_request_replaces.
Qed.

End Machine.

Lemma cached_day_only_lazy_guarded_witness :
  schedule_data cached_day !! day_key 738946 = Some (JObj (record_of "first"))
  /\ fields (run Json.loads (fun _ => []) example_config
               [answers_with 0 "a"; answers_with 1 "b"]
               {| fields := cached_day;
                  tasks := lazy_tasks 738946 [lit "chat-1"; lit "chat-2"] |})
     = cached_day
  /\ schedule_data (fields (run Json.loads (fun _ => []) example_config
        (replicate 5 {| who := 0; env := env (answers_with 0 "second") |})
        {| fields := cached_day; tasks := [{| today := 738946; at_pc := UStart Regenerate |}] |}))
       !! day_key 738946 = Some (JObj (record_of "second"))
  /\ schedule_data (fields (run Json.loads (fun _ => []) example_config
        (replicate 4 {| who := 0; env := env (answers_with 0 "late") |})
        {| fields := cached_day; tasks := [{| today := 738946; at_pc := LAwait |}] |}))
       !! day_key 738946 = Some (JObj (record_of "late")).
Proof.
  assert (H1 : schedule_data cached_day !! day_key 738946
               = Some (JObj (record_of "first"))) by by vm_compute.
  pose proof (cached_day_only_lazy_guarded Json.loads (fun _ => []) example_config
                738946 cached_day _ H1) as (_ & _ & _ & Hlazy & Hunguarded & Hlate).
  split; [exact H1 | split; [apply Hlazy | split]].
  - refine (proj1 (Hunguarded Regenerate (env (answers_with 0 "second"))
                              (record_of "second") _ _ _)); by vm_compute.
  - refine (Hlate (env (answers_with 0 "late")) (record_of "late") _ _); by vm_compute.
Defined.

(** C2, as stated, fails, for the cron job and for requests alike.  With
    the day cached, a run of the cron job puts the new record in the place
    of the cached one.  And when a request and the cron job generate at the
    same time, the cron job's record is in the cache after nine steps and
    the request, which tested the cache before, replaces it at the end. *)
Lemma cached_record_is_replaced :
  (schedule_data cached_day !! lit "2024-03-01" = Some (JObj (record_of "first"))
   /\ schedule_data (fields (run Json.loads (fun _ => []) example_config
                                 (replicate 5 (answers_with 0 "second"))
                                 (cron_alone cached_day)))
        !! lit "2024-03-01" = Some (JObj (record_of "second")))
  /\ (schedule_data (fields (run Json.loads (fun _ => []) example_config
                                 (take 9 cron_then_request) request_and_cron))
        !! lit "2024-03-01" = Some (JObj (record_of "c"))
      /\ (exists t, tasks (run Json.loads (fun _ => []) example_config
                               (take 9 cron_then_request) request_and_cron) !! 0%nat
                    = Some t /\ at_pc t = LAwait)
      /\ schedule_data (fields (run Json.loads (fun _ => []) example_config
                                    cron_then_request request_and_cron))
           !! lit "2024-03-01" = Some (JObj (record_of "l"))).
Proof.
  split; [split; by vm_compute |].
  split; [by vm_compute |]. split; [| by vm_compute].
  eexists. split; by vm_compute.
Qed.

End CacheFacts.

Module ExtractionFacts.
Import Text Json Extractor Pipeline ExtractorFacts Answers AnswersFacts.

Lemma quiet_app (a b : pystr) (st : scan_state) :
  quiet st (a ++ b) = quiet st a && quiet (fold_left scan_char a st) b.
Proof.
  revert st. induction a as [| c a IH]; intros st; [done |].
  simpl. rewrite IH. by rewrite andb_assoc.
Qed.

(** The scan runs through a quiet stretch without a call of the decoder. *)
Lemma scan_quiet (loads : pystr -> loads_result) (body mid tail : pystr) (k : nat)
      (st : scan_state) :
  quiet st mid = true ->
  scan loads body k st (mid ++ tail)
  = scan loads body (k + length mid) (fold_left scan_char mid st) tail.
Proof.
  revert k st. induction mid as [| c mid IH]; intros k st Hq.
  - simpl. by rewrite Nat.add_0_r.
  - simpl in Hq. apply andb_true_iff in Hq as [Hc Hq]. apply negb_true_iff in Hc.
    cbn [app scan]. rewrite Hc. rewrite IH by done.
    cbn [length fold_left]. by rewrite Nat.add_succ_r.
Qed.

(** Inside a string nothing closes a candidate. *)
Lemma item_quiet (it : str_item) (level : Z) : quiet (inside level) (item_text it) = true.
Proof. by destruct it. Qed.

Lemma items_quiet (items : list str_item) (level : Z) :
  Forall (fun it => item_ok it = true) items ->
  quiet (inside level) (concat (map item_text items)) = true.
Proof.
  induction 1 as [| it items Hit _ IH]; [done |].
  simpl. by rewrite quiet_app, item_quiet, item_keeps_state.
Qed.

Lemma string_quiet (items : list str_item) (level : Z) :
  Forall (fun it => item_ok it = true) items ->
  quiet (outside level) (string_text items) = true
  /\ fold_left scan_char (string_text items) (outside level) = outside level.
Proof.
  intros Hok. unfold string_text.
  change (dquote :: concat (map item_text items) ++ [dquote])
    with ([dquote] ++ concat (map item_text items) ++ [dquote]).
  rewrite !quiet_app, !fold_scan_app.
  change (fold_left scan_char [dquote] (outside level)) with (inside level).
  rewrite items_keep_state, items_quiet by done. done.
Qed.

Lemma items_all_ok (items : list str_item) :
  forallb item_ok items = true -> Forall (fun it => item_ok it = true) items.
Proof.
  induction items as [| it items IH]; simpl; [by constructor |].
  intros [? ?]%andb_true_iff. constructor; auto.
Qed.

Lemma token_quiet (t : token) (depth : nat) :
  token_ok t = true -> (1 <= depth)%nat ->
  quiet (outside (Z.of_nat depth)) (token_text t) = true
  /\ fold_left scan_char (token_text t) (outside (Z.of_nat depth))
     = outside (Z.of_nat match t with
                         | TOpen => S depth
                         | TClose => Nat.pred depth
                         | _ => depth
                         end)
  \/ t = TClose /\ depth = 1%nat.
Proof.
  intros Hok Hd. destruct t as [items | c | |]; simpl in Hok.
  - left. by apply string_quiet, items_all_ok.
  - left. rewrite !andb_true_iff in Hok. destruct Hok as ((Hq & Hl) & Hr).
    apply negb_true_iff in Hq, Hl, Hr.
    simpl. unfold closes, scan_char. simpl. by rewrite Hq, Hl, Hr.
  - left. split; [done |]. simpl. unfold scan_char. simpl.
    unfold outside. f_equal. lia.
  - destruct (decide (depth = 1%nat)) as [-> | Hne]; [by right |]. left.
    split.
    + simpl. unfold closes. simpl.
      destruct (Z.eqb_spec (Z.of_nat depth - 1) 0); [lia | done].
    + simpl. unfold scan_char. simpl. unfold outside. f_equal. lia.
Qed.

Lemma tokens_quiet (toks : list token) (depth : nat) :
  (1 <= depth)%nat -> nested depth toks = true ->
  quiet (outside (Z.of_nat depth)) (concat (map token_text toks)) = true
  /\ fold_left scan_char (concat (map token_text toks)) (outside (Z.of_nat depth))
     = outside 1.
Proof.
  revert depth. induction toks as [| t toks IH]; intros depth Hd Hn.
  - simpl in *. apply Nat.eqb_eq in Hn as ->. done.
  - cbn [nested] in Hn. apply andb_true_iff in Hn as [Hok Hn].
    cbn [map concat]. rewrite quiet_app, fold_scan_app.
    destruct (token_quiet t depth Hok Hd) as [[Hq Hs] | [-> ->]].
    + rewrite Hq, Hs. cbn [andb].
      destruct t as [items | c | |].
      * by apply IH.
      * by apply IH.
      * apply IH; [lia | done].
      * apply andb_true_iff in Hn as [Hle Hn]. apply Nat.leb_le in Hle.
        apply IH; [lia | done].
    + simpl in Hn. done.
Qed.

Section Object.
Variable loads : pystr -> loads_result.

(** The scan on the text of an object, whatever follows it: the first
    candidate is the object, whole. *)
Lemma scan_object (toks : list token) (rest : pystr) :
  nested 1 toks = true ->
  scan loads (object_text toks ++ rest) 0 scan_init (object_text toks ++ rest)
  = match loads (object_text toks) with
    | Loaded d => Return (Some d)
    | DecodeError =>
      scan loads (object_text toks ++ rest) (length (object_text toks)) scan_init rest
    | OtherError => Raise
    end.
Proof.
  intros Hn. destruct (tokens_quiet toks 1 ltac:(lia) Hn) as [Hq Hs].
  change (Z.of_nat 1) with 1%Z in Hq, Hs.
  remember (concat (map token_text toks)) as mid eqn:Hmid.
  remember (object_text toks ++ rest) as body eqn:Hbody.
  assert (Hform : body = lbrace :: mid ++ rbrace :: rest).
  { subst. unfold object_text. simpl. by rewrite <- app_assoc. }
  assert (Hlen : S (1 + length mid) = length (object_text toks)).
  { unfold object_text. rewrite <- Hmid. cbn [length]. rewrite length_app. simpl. lia. }
  assert (Htake : take (S (1 + length mid)) body = object_text toks).
  { rewrite Hbody. apply take_app_length'. by rewrite Hlen. }
  transitivity (scan loads body 0 scan_init (lbrace :: mid ++ rbrace :: rest));
    [by rewrite <- Hform |].
  cbn [scan]. change (closes scan_init lbrace) with false. cbn iota.
  change (scan_char scan_init lbrace) with (outside 1).
  rewrite (scan_quiet loads body mid (rbrace :: rest) 1 _ Hq).
  rewrite Hs. cbn [scan]. change (closes (outside 1) rbrace) with true. cbn iota.
  rewrite Htake, Hlen.
  change (scan_char (outside 1) rbrace) with scan_init. done.
Qed.

End Object.

Lemma elem_of_lstrip (c : char) (s : pystr) : c ∈ lstrip s -> c ∈ s.
Proof.
  induction s as [| x s IH]; [done |]. simpl.
  destruct (is_space x); [| done]. intros H. right. by apply IH.
Qed.

Lemma elem_of_strip (c : char) (s : pystr) : c ∈ strip s -> c ∈ s.
Proof.
  unfold strip, rstrip. intros H.
  apply list_elem_of_In, in_rev, list_elem_of_In in H.
  apply elem_of_lstrip in H.
  apply list_elem_of_In, in_rev, list_elem_of_In in H.
  by apply elem_of_lstrip.
Qed.

(** Without a backtick there is no fence: the cleaning step strips the
    white space at both ends and nothing else. *)
Lemma clean_without_fence (text : pystr) : backtick ∉ text -> clean text = strip text.
Proof.
  intros Hb.
  assert (Hs : backtick ∉ strip text) by (intros H; by apply Hb, elem_of_strip).
  assert (Hnever : forall m, never_starts (backtick :: m) (strip text) = true).
  { intros m. rewrite <- (app_nil_r (strip text)). by rewrite never_starts_skip. }
  assert (H1 : sub_bol fence_json (strip text) = strip text)
    by (unfold sub_bol; apply sub_bol_never, (Hnever (lit "``json"))).
  assert (H2 : sub_bol fence (strip text) = strip text)
    by (unfold sub_bol; apply sub_bol_never, (Hnever (lit "``"))).
  unfold clean. rewrite H1, H2. unfold sub_eol. by apply sub_eol_no_backtick.
Qed.

(** C4, as the code has it.  (1) The extractor takes the cleaned text from
    the first opening brace on and returns what [json.loads] makes of the
    first candidate it accepts, whatever the fields of that object; it
    returns [None] exactly when [json.loads] rejects every candidate.  A
    candidate is a prefix that ends at a closing brace read outside any
    string where the depth is back to zero.  (2) Cleaning a text without a
    backtick only strips the white space at its ends, and (3) a fenced
    answer is unwrapped.  (4) A quoted text, with braces and escaped
    quotes in it as may be, leaves the scan variables as they were and
    closes no candidate.  (5) So where the cleaned text starts, at its
    first opening brace, with the text of an object whose braces outside
    strings match, the first candidate is that object, whole, and the
    extractor returns what [json.loads] makes of it; (6) this holds for
    such an object given bare and given in a fence.  (7) The example of
    the specification is extracted with both fields. *)
Theorem extract_first_parsed_candidate (loads : pystr -> loads_result) (text : pystr) :
  match from_first lbrace (clean text) with
  | None => extract_json_from_text loads text = Return None
  | Some body =>
    (forall d, extract_json_from_text loads text = Return (Some d) <-> found loads body 0 d)
    /\ (extract_json_from_text loads text = Return None <-> none_parses loads body 0)
  end
  /\ (backtick ∉ text -> clean text = strip text)
  /\ (forall c body, is_space c = false -> backtick ∉ c :: body ->
        clean (fenced (c :: body)) = c :: body ++ [newline])
  /\ (forall p items,
        in_string (state_after p) = false ->
        Forall (fun it => item_ok it = true) items ->
        state_after (p ++ string_text items) = state_after p
        /\ forall q c, q `prefix_of` concat (map item_text items) ->
                       closes (state_after (p ++ dquote :: q)) c = false)
  /\ (forall toks rest d,
        nested 1 toks = true -> loads (object_text toks) = Loaded d ->
        from_first lbrace (clean text) = Some (object_text toks ++ rest) ->
        extract_json_from_text loads text = Return (Some d))
  /\ (forall toks d,
        nested 1 toks = true -> backtick ∉ object_text toks ->
        loads (object_text toks) = Loaded d ->
        extract_json_from_text loads (object_text toks) = Return (Some d)
        /\ extract_json_from_text loads (fenced (object_text toks)) = Return (Some d))
  /\ extract_json_from_text Json.loads nested_example
     = Return (Some [(lit "outfit", JStr (lit "a {b}")); (lit "schedule", JStr (lit "c"))]).
Proof.
  split; [apply first_candidate_that_parses |].
  split; [apply clean_without_fence |].
  split; [apply clean_fenced |].
  split; [apply string_is_opaque |].
  split; [| split; [| by vm_compute]].
  - intros toks rest d Hn Hl Hfirst.
    unfold extract_json_from_text. rewrite Hfirst.
    rewrite scan_object by done. by rewrite Hl.
  - intros toks d Hn Hb Hl. split.
    + unfold extract_json_from_text. rewrite clean_without_fence by done.
      unfold object_text at 1. rewrite strip_keeps by done. fold (object_text toks).
      unfold object_text at 1. cbn [from_first]. rewrite N.eqb_refl.
      fold (object_text toks).
      rewrite <- (app_nil_r (object_text toks)). rewrite scan_object by done.
      by rewrite Hl.
    + unfold extract_json_from_text. unfold object_text at 1.
      rewrite clean_fenced by done.
      cbn [from_first]. rewrite N.eqb_refl.
      change (lbrace :: (concat (map token_text toks) ++ [rbrace]) ++ [newline])
        with (object_text toks ++ [newline]).
      rewrite scan_object by done. by rewrite Hl.
Qed.

Lemma extract_first_parsed_candidate_witness :
  nested 1 escaped_example = true
  /\ (backtick ∉ object_text escaped_example)
  /\ Json.loads (object_text escaped_example)
     = Loaded [(lit "outfit", JStr [97; 32; lbrace; 98; dquote; rbrace]);
               (lit "schedule", JStr (lit "c"))]
  /\ extract_json_from_text Json.loads (fenced (object_text escaped_example))
     = Return (Some [(lit "outfit", JStr [97; 32; lbrace; 98; dquote; rbrace]);
                     (lit "schedule", JStr (lit "c"))]).
Proof.
  assert (H1 : nested 1 escaped_example = true) by reflexivity.
  assert (H2 : backtick ∉ object_text escaped_example).
  { intros H. vm_compute in H.
    repeat (apply elem_of_cons in H as [H | H]; [done |]).
    by apply elem_of_nil in H. }
  assert (H3 : Json.loads (object_text escaped_example)
               = Loaded [(lit "outfit", JStr [97; 32; lbrace; 98; dquote; rbrace]);
                         (lit "schedule", JStr (lit "c"))]) by by vm_compute.
  split; [exact H1 | split; [exact H2 | split; [exact H3 |]]].
  pose proof (extract_first_parsed_candidate Json.loads []) as (_ & _ & _ & _ & _ & H & _).
  exact (proj2 (H escaped_example _ H1 H2 H3)).
Defined.

End ExtractionFacts.

Module HistoryFacts.
Import Text Json Extractor Calendar Pipeline PipelineFacts PipelineMoreFacts.

Section History.
Variable repr_list : list json -> pystr.

(** When the loop ends, it has appended one line per cached day, in the
    order of the offsets. *)
Lemma history_loop_entries (data : store) (today : Z) (offsets : list Z)
      (acc lines : list pystr) :
  history_loop repr_list data today offsets acc = Return lines ->
  lines = acc ++ omap (history_entry repr_list data today) offsets
  /\ forall i rec, i ∈ offsets -> data !! day_key (today - i) = Some rec ->
                   excerpt repr_list rec <> Raise.
Proof.
  revert acc. induction offsets as [| i rest IH]; intros acc; simpl.
  - intros [= <-]. split; [by rewrite app_nil_r |].
    intros i rec Hi. by apply elem_of_nil in Hi.
  - destruct (today - i <? 1)%Z; [done |].
    unfold history_entry at 1.
    destruct (data !! day_key (today - i)) as [rec |] eqn:Hrec.
    + destruct (excerpt repr_list rec) as [ex |] eqn:Hex; [| done].
      intros H. destruct (IH _ H) as [-> Hok]. split; [by rewrite <- app_assoc |].
      intros j r [-> | Hj]%elem_of_cons Hr.
      * rewrite Hrec in Hr. injection Hr as <-. by rewrite Hex.
      * by apply (Hok j).
    + intros H. destruct (IH _ H) as [-> Hok]. split; [done |].
      intros j r [-> | Hj]%elem_of_cons Hr; [congruence | by apply (Hok j)].
Qed.

Lemma entries_nil (data : store) (today : Z) (offsets : list Z) :
  (forall i rec, i ∈ offsets -> data !! day_key (today - i) = Some rec ->
                 excerpt repr_list rec <> Raise) ->
  (omap (history_entry repr_list data today) offsets = []
   <-> forall i, i ∈ offsets -> data !! day_key (today - i) = None).
Proof.
  induction offsets as [| i rest IH]; intros Hok; simpl.
  - split; [intros _ i Hi; by apply elem_of_nil in Hi | done].
  - unfold history_entry at 1.
    destruct (data !! day_key (today - i)) as [rec |] eqn:Hrec.
    + destruct (excerpt repr_list rec) as [ex |] eqn:Hex.
      * split; [done |]. intros H. rewrite H in Hrec; [done | left].
      * exfalso. apply (Hok i rec); [left | done | done].
    + rewrite IH by (intros j r Hj; apply Hok; by right). split.
      * intros H j [-> | Hj]%elem_of_cons; [done | by apply H].
      * intros H j Hj. apply H. by right.
Qed.

Lemma entries_head (data : store) (today : Z) (offsets : list Z) (l : pystr)
      (rest : list pystr) :
  omap (history_entry repr_list data today) offsets = l :: rest -> exists tl, l = 91 :: tl.
Proof.
  induction offsets as [| i more IH]; simpl; [done |].
  destruct (history_entry repr_list data today i) as [x |] eqn:Hl; [| done].
  intros [= -> _]. unfold history_entry in Hl.
  destruct (data !! day_key (today - i)); [| done].
  destruct (excerpt repr_list j); [| done].
  injection Hl as <-. by eexists.
Qed.

(** C7, as the code has it.  With the window within the calendar: (1) the
    assembly raises exactly when some day of the window is cached with a
    value that is no dict or whose [schedule] entry cannot be sliced; (2)
    otherwise the history holds one line per cached day of the window and
    no line for a day that is not cached, from the most recent day
    (yesterday) back to the oldest, and the text handed to the prompt is
    the no-history placeholder exactly when no day of the window is
    cached; (3) the line of a day is its key and the first 100 characters
    of its schedule text (the empty text when the entry is missing), or
    the first 100 items of a list as Python prints them. *)
Theorem history_most_recent_first (cfg : SchedulerConfig) (data : store) (today : Z) :
  (reference_history_days cfg < today)%Z ->
  (history_schedules repr_list cfg data today = Raise
   <-> exists i rec, (1 <= i <= reference_history_days cfg)%Z
                     /\ data !! day_key (today - i) = Some rec
                     /\ excerpt repr_list rec = Raise)
  /\ (forall lines,
        history_schedules repr_list cfg data today = Return lines ->
        lines = omap (history_entry repr_list data today)
                     (range1 (reference_history_days cfg))
        /\ (history_schedules_str lines = no_history
            <-> forall i, (1 <= i <= reference_history_days cfg)%Z ->
                          data !! day_key (today - i) = None))
  /\ (forall i rec,
        data !! day_key (today - i) = Some rec ->
        (forall s, schedule_text rec = Some s ->
           history_entry repr_list data today i
           = Some (history_line (day_key (today - i)) (take 100 s)))
        /\ (forall d l, rec = JObj d -> dict_get (lit "schedule") d = Some (JArr l) ->
              history_entry repr_list data today i
              = Some (history_line (day_key (today - i)) (repr_list (take 100 l))))
        /\ (excerpt repr_list rec = Raise
            <-> match rec with
                | JObj d =>
                  match dict_get (lit "schedule") d with
                  | None | Some (JStr _) | Some (JArr _) => False
                  | Some _ => True
                  end
                | _ => True
                end)).
Proof.
  intros Hbound. split; [| split].
  - unfold history_schedules. rewrite history_loop_raises.
    + split; intros (i & rec & Hi & H); exists i, rec; (split; [| done]);
        by apply elem_of_range1.
    + intros i Hi%elem_of_range1. lia.
  - intros lines Hlines. unfold history_schedules in Hlines.
    apply history_loop_entries in Hlines as [Hl Hok]. simpl in Hl.
    split; [done |].
    assert (Hnone : lines = [] <-> forall i, (1 <= i <= reference_history_days cfg)%Z ->
                                             data !! day_key (today - i) = None).
    { rewrite Hl, (entries_nil _ _ _ Hok). split.
      - intros H i Hi. apply H. by apply elem_of_range1.
      - intros H i Hi%elem_of_range1. by apply H. }
    rewrite <- Hnone.
    destruct lines as [| l rest]; [done |].
    split; [| done].
    symmetry in Hl. destruct (entries_head _ _ _ _ _ Hl) as [tl ->].
    simpl. destruct rest; by intros [=].
  - intros i rec Hrec. unfold history_entry. rewrite Hrec. split; [| split].
    + intros s Hs. unfold schedule_text, excerpt in *.
      destruct rec as [| | | | | d]; try done.
      destruct (dict_get (lit "schedule") d) as [[| | | s' | |] |]; try done;
        by injection Hs as <-.
    + intros d l -> Hd. unfold excerpt. by rewrite Hd.
    + unfold excerpt. destruct rec as [| | | | | d]; try done.
      destruct (dict_get (lit "schedule") d) as [[| | | s' | |] |]; try done.
Qed.

End History.

Lemma history_most_recent_first_witness :
  (reference_history_days example_config < 738946)%Z
  /\ history_schedules (fun _ => []) example_config two_days_cached 738946
     = Return [history_line (lit "2024-02-29") (lit "b");
               history_line (lit "2024-02-28") (lit "a")]
  /\ [history_line (lit "2024-02-29") (lit "b"); history_line (lit "2024-02-28") (lit "a")]
     = omap (history_entry (fun _ => []) two_days_cached 738946)
            (range1 (reference_history_days example_config)).
Proof.
  assert (H1 : (reference_history_days example_config < 738946)%Z) by (simpl; lia).
  assert (H2 : history_schedules (fun _ => []) example_config two_days_cached 738946
               = Return [history_line (lit "2024-02-29") (lit "b");
                         history_line (lit "2024-02-28") (lit "a")]) by by vm_compute.
  split; [exact H1 | split; [exact H2 |]].
  exact (proj1 (proj1 (proj2 (history_most_recent_first (fun _ => []) example_config
                                two_days_cached 738946 H1)) _ H2)).
Defined.

End HistoryFacts.

Module StoreFacts.
Import Text Extractor Calendar Data DataFacts DataMoreFacts.

Section WithTimestamps.
Context {T : Type}.
Variable fromtimestamp : T -> py Calendar.date.

(** C10: [set] files a record under its own [date] field as it is;
    [has], [get] and [remove] look up the key [to_date_str] makes of their
    argument, and raise when it raises.  [to_date_str] gives the ISO text
    of the date, of the date of a datetime, or of the local date of a
    timestamp.  So for a manager reached through its own methods: [get]
    after [set r] returns [r] exactly when the key of the argument is
    [r]'s date, [has] answers [True] exactly when [get] finds a record,
    [remove] deletes the record under the key of its argument and no
    other, and whatever [get] returns has a date of the form yyyy-mm-dd,
    so a record with another date is never returned. *)
Theorem get_after_set (calls : list call) (r : ScheduleData) (d : DateLike T) :
  set (after_calls fromtimestamp calls) r !! date r = Some r
  /\ (get fromtimestamp (set (after_calls fromtimestamp calls) r) d = Return (Some r)
      <-> to_date_str fromtimestamp d = Return (date r))
  /\ (has fromtimestamp (set (after_calls fromtimestamp calls) r) d = Return true
      <-> exists x, get fromtimestamp (set (after_calls fromtimestamp calls) r) d
                    = Return (Some x))
  /\ (has fromtimestamp (set (after_calls fromtimestamp calls) r) d = Return false
      <-> get fromtimestamp (set (after_calls fromtimestamp calls) r) d = Return None)
  /\ (to_date_str fromtimestamp d = Return (date r) ->
      has fromtimestamp (set (after_calls fromtimestamp calls) r) d = Return true
      /\ exists m', remove fromtimestamp (set (after_calls fromtimestamp calls) r) d
                    = Return m'
                    /\ m' !! date r = None
                    /\ get fromtimestamp m' d = Return None
                    /\ has fromtimestamp m' d = Return false)
  /\ (forall k, to_date_str fromtimestamp d = Return k -> k <> date r ->
      exists m', remove fromtimestamp (set (after_calls fromtimestamp calls) r) d
                 = Return m'
                 /\ m' !! date r = Some r /\ m' !! k = None)
  /\ (to_date_str fromtimestamp d = Raise ->
      get fromtimestamp (set (after_calls fromtimestamp calls) r) d = Raise
      /\ has fromtimestamp (set (after_calls fromtimestamp calls) r) d = Raise
      /\ remove fromtimestamp (set (after_calls fromtimestamp calls) r) d = Raise)
  /\ (forall c seconds,
        to_date_str fromtimestamp (OfDate c) = Return (isoformat c)
        /\ to_date_str fromtimestamp (OfDatetime c seconds) = Return (isoformat c)
        /\ canonical (isoformat c) = true)
  /\ (forall t,
        to_date_str fromtimestamp (OfTimestamp t)
        = match fromtimestamp t with
          | Return c => to_date_str fromtimestamp (OfDate c)
          | Raise => Raise
          end)
  /\ (forall c1 c2, valid_date c1 -> valid_date c2 ->
        to_date_str fromtimestamp (OfDate c1) = to_date_str fromtimestamp (OfDate c2) ->
        c1 = c2)
  /\ to_date_str fromtimestamp (OfDate {| year := 2024; month := 3; day := 1 |})
     = Return (lit "2024-03-01")
  /\ match get fromtimestamp (set (after_calls fromtimestamp calls) r) d with
     | Return (Some reached) => canonical (date reached) = true
     | Return None => True
     | Raise => True
     end
  /\ (canonical (date r) = false ->
      forall d', get fromtimestamp (set (after_calls fromtimestamp calls) r) d'
                 <> Return (Some r)).
Proof.
  pose proof (keyed_set _ r (keyed_after_calls fromtimestamp calls)) as Hkeyed.
  set (m := set (after_calls fromtimestamp calls) r) in *.
  assert (Hr : m !! date r = Some r) by apply lookup_insert_eq.
  split; [done |].
  assert (Hget : forall d', get fromtimestamp m d' = Return (Some r)
                            <-> to_date_str fromtimestamp d' = Return (date r)).
  { intros d'. unfold get.
    destruct (to_date_str fromtimestamp d') as [k |]; [| done]. split.
    - intros [= Hk]. by rewrite (Hkeyed _ _ Hk).
    - intros [= ->]. by rewrite Hr. }
  split; [apply Hget |].
  split; [| split; [| split; [| split; [| split; [| split; [| split; [| split;
    [| split; [| split]]]]]]]]].
  - unfold has, get. destruct (to_date_str fromtimestamp d) as [k |]; [| split; [done |]].
    + destruct (m !! k) as [x |] eqn:Hk.
      * rewrite bool_decide_eq_true_2 by by eexists. split; [by eexists | done].
      * rewrite bool_decide_eq_false_2 by (by intros [? ?]). split; [done |].
        by intros [x [=]].
    + by intros [x ?].
  - unfold has, get. destruct (to_date_str fromtimestamp d) as [k |]; [| done].
    destruct (m !! k) as [x |] eqn:Hk.
    + rewrite bool_decide_eq_true_2 by by eexists. done.
    + rewrite bool_decide_eq_false_2 by (by intros [? ?]). done.
  - intros Hd. unfold has, remove, get. rewrite Hd, Hr.
    split; [by rewrite bool_decide_eq_true_2 by by eexists |].
    exists (delete (date r) m). rewrite lookup_delete_eq.
    repeat split.
  - intros k Hd Hne. unfold remove. rewrite Hd.
    exists (delete k m). split; [done |].
    by rewrite lookup_delete_ne, lookup_delete_eq.
  - intros Hd. unfold get, has, remove. by rewrite Hd.
  - intros c seconds. repeat split. apply isoformat_canonical.
  - intros t. simpl. by destruct (fromtimestamp t).
  - intros c1 c2 H1 H2 H.
    change (Return (isoformat c1) = Return (isoformat c2)) in H.
    apply isoformat_injective; [done | done | congruence].
  - reflexivity.
  - unfold get. destruct (to_date_str fromtimestamp d) as [k |] eqn:Hk; [| done].
    destruct (m !! k) as [reached |] eqn:Hm; [| done].
    rewrite (Hkeyed _ _ Hm). by apply (to_date_str_canonical fromtimestamp d).
  - intros Hc d' Hd'. apply Hget in Hd'.
    apply to_date_str_canonical in Hd'. congruence.
Qed.

End WithTimestamps.

End StoreFacts.
